(** * Home-automation core: intent parsing, context, decisions, transports

    A shallow embedding of the Python sources
      legacy/enthropic/ai_service.py       (data model, command translation)
      legacy/enthropic/intent_parser.py    (IntentParser)
      legacy/enthropic/decision_engine.py  (DecisionEngine)
      enthropic/context_manager.py         (ContextManager)
      services/gateway-service/protocols/base.py, legacy/protocols/mqtt.py,
      protocols/http.py, legacy/services/gateway-service/protocols/websocket.py
    and the properties of the specification that are stated about them.

    Conventions of the embedding.
    - A Python [str] is the list of its code points ([list N]); slicing and
      membership are those of lists.  Literals are written as UTF-8 string
      literals and decoded by [u].
    - A Python [float] is a rational ([Q]); every property below is about
      comparisons and clamping, not about rounding.
    - A Python [dict] with string keys is a [gmap str _]; a value of type
      [Any] is a [pyval].
    - [Intent.entities], annotated [Dict[str, Any]], is given twice: with
      list values, as the parser builds it (module [AIService]), and with
      values of any type (module [Untyped]); the decision engine on the
      first is the restriction of the engine on the second.
    - [datetime.now()] is a clock reading passed in as an argument.
    - A call that may raise returns a [result]. *)

From Stdlib Require Import ZArith QArith Qround List String Ascii Lia Lqa Bool
  Sorted.
From stdpp Require Import base option list gmap pretty.

Set Warnings "-register-all".
Local Open Scope Z_scope.
Local Open Scope list_scope.

(** ** Python values *)

Module Py.

(** A [str]: the sequence of its Unicode code points. *)
Definition str := list N.

(** Decoder of UTF-8 literals (one to three bytes per code point). *)
Fixpoint u (s : string) : str :=
  match s with
  | EmptyString => []
  | String a s1 =>
    let b := N_of_ascii a in
    if (b <? 128)%N then b :: u s1
    else match s1 with
    | EmptyString => [b]
    | String a2 s2 =>
      let c := N_of_ascii a2 in
      if (b <? 224)%N then ((b - 192) * 64 + (c - 128))%N :: u s2
      else match s2 with
      | EmptyString => [b; c]
      | String a3 s3 =>
        let d := N_of_ascii a3 in
        ((b - 224) * 4096 + (c - 128) * 64 + (d - 128))%N :: u s3
      end
    end
  end.

Arguments u : simpl never.

(** [sub in s] for two strings: [sub] occurs in [s] as a contiguous run. *)
Fixpoint starts_with (p s : str) : bool :=
  match p, s with
  | [], _ => true
  | _ :: _, [] => false
  | a :: p', b :: s' => (a =? b)%N && starts_with p' s'
  end.

Fixpoint contains (sub s : str) : bool :=
  starts_with sub s ||
  match s with
  | [] => false
  | _ :: s' => contains sub s'
  end.

(** [sep.join(parts)] *)
Fixpoint join (sep : str) (parts : list str) : str :=
  match parts with
  | [] => []
  | [p] => p
  | p :: ps => p ++ sep ++ join sep ps
  end.

(** A value of type [Any]: what JSON and the literals of the sources build,
    and [POther] for any other object (a [datetime], a [set], a bound method),
    told apart by identity only. *)
Inductive pyval :=
| PNone
| PBool (b : bool)
| PInt (z : Z)
| PFloat (q : Q)
| PStr (s : str)
| PList (l : list pyval)
| PDict (d : list (str * pyval))
| POther (id : N).

(** Truth value of an object in a condition ([if x:], [x or y]). *)
Definition truthy (v : pyval) : bool :=
  match v with
  | PNone => false
  | PBool b => b
  | PInt z => negb (z =? 0)
  | PFloat q => negb (Qeq_bool q 0)
  | PStr s => match s with [] => false | _ => true end
  | PList l => match l with [] => false | _ => true end
  | PDict d => match d with [] => false | _ => true end
  | POther _ => true
  end.

Definition str_eqb (s t : str) : bool := bool_decide (s = t).

(** Lookup in the items of a dict. *)
Fixpoint assoc {V} (k : str) (d : list (str * V)) : option V :=
  match d with
  | [] => None
  | (k', v) :: d' => if str_eqb k k' then Some v else assoc k d'
  end.

(** Numbers compare across [bool], [int] and [float]. *)
Definition num_view (v : pyval) : option Q :=
  match v with
  | PBool b => Some (if b then 1%Q else 0%Q)
  | PInt z => Some (inject_Z z)
  | PFloat q => Some q
  | _ => None
  end.

(** [a == b]: numbers by value, strings and lists element-wise, dicts by
    keys and values whatever the order of the items. *)
Fixpoint py_eq (a b : pyval) : bool :=
  match a, b with
  | PNone, PNone => true
  | PStr s, PStr t => str_eqb s t
  | PList l, PList m =>
    (fix go (l m : list pyval) : bool :=
       match l, m with
       | [], [] => true
       | x :: l', y :: m' => py_eq x y && go l' m'
       | _, _ => false
       end) l m
  | PDict d, PDict e =>
    (length d =? length e)%nat &&
    (fix go (d : list (str * pyval)) : bool :=
       match d with
       | [] => true
       | (k, v) :: d' =>
         match assoc k e with
         | Some w => py_eq v w
         | None => false
         end && go d'
       end) d
  | POther i, POther j => (i =? j)%N
  | _, _ =>
    match num_view a, num_view b with
    | Some x, Some y => Qeq_bool x y
    | _, _ => false
    end
  end.

(** [json.dumps] accepts a value when no foreign object occurs in it. *)
Fixpoint json_serializable (v : pyval) : bool :=
  match v with
  | POther _ => false
  | PList l => forallb json_serializable l
  | PDict d => forallb (fun kv => json_serializable (snd kv)) d
  | _ => true
  end.

Definition Q_eq_dec (x y : Q) : {x = y} + {x <> y}.
Proof. decide equality; [apply Pos.eq_dec | apply Z.eq_dec]. Defined.

Fixpoint pyval_eq_dec (x y : pyval) : {x = y} + {x <> y}.
Proof.
  decide equality.
  - apply bool_dec.
  - apply Z.eq_dec.
  - apply Q_eq_dec.
  - apply (List.list_eq_dec N.eq_dec).
  - apply (List.list_eq_dec pyval_eq_dec).
  - apply List.list_eq_dec. decide equality.
    apply (List.list_eq_dec N.eq_dec).
  - apply N.eq_dec.
Defined.

#[global] Instance pyval_eq : EqDecision pyval := pyval_eq_dec.

(** [a < b] on floats, and the built-ins [max(a, b)] and [min(a, b)] on two floats: the first
    argument is kept unless the second is strictly beyond it. *)
Definition Qltb (a b : Q) : bool := negb (Qle_bool b a).
Definition py_max (a b : Q) : Q := if Qltb a b then b else a.
Definition py_min (a b : Q) : Q := if Qltb b a then b else a.

(** A reading of the clock ([datetime.now()]), field by field; [weekday]
    counts from Monday = 0. *)
Record datetime := {
  year : N; month : N; day : N;
  hour : N; minute : N; second : N;
  weekday : N
}.

(** Decimal digits. *)
Definition digits (n : N) : str := u (pretty n).
Definition pad2 (n : N) : str :=
  if (n <? 10)%N then u "0" ++ digits n else digits n.
Definition pad4 (n : N) : str :=
  if (n <? 10)%N then u "000" ++ digits n
  else if (n <? 100)%N then u "00" ++ digits n
  else if (n <? 1000)%N then u "0" ++ digits n
  else digits n.

(** [format(x, ".2f")]: two decimals, ties to even. *)
Definition round_half_even (q : Q) : Z :=
  let f := Qfloor q in
  let r := (q - inject_Z f)%Q in
  match (r ?= 1 # 2)%Q with
  | Lt => f
  | Gt => f + 1
  | Eq => if Z.even f then f else f + 1
  end.

Definition fmt_2f (q : Q) : str :=
  let n := round_half_even (q * 100)%Q in
  let a := Z.abs_N n in
  (if n <? 0 then u "-" else []) ++
  digits (a / 100)%N ++ u "." ++ pad2 (a mod 100)%N.

(** [str(x)] of an optional string, as an f-string prints it. *)
Definition str_of_opt (o : option str) : str :=
  match o with
  | Some s => s
  | None => u "None"
  end.

(** The exceptions the modelled code raises or lets through. *)
Inductive exn :=
| RuntimeError (msg : str)
| ValueError (msg : str)
| TypeError (msg : str)
| AttributeError (msg : str)
| HTTPError (msg : str)
| OSError (msg : str).

(** Outcome of a call: a value, or a raised exception. *)
Inductive result (A : Type) :=
| Ok (a : A)
| Raise (e : exn).
Arguments Ok {A} a.
Arguments Raise {A} e.

Definition bind {A B} (r : result A) (f : A -> result B) : result B :=
  match r with
  | Ok a => f a
  | Raise e => Raise e
  end.

(** Iterating a value: the elements of a list, the characters of a string,
    the keys of a dict; anything else is not iterable. *)
Definition py_iter (v : pyval) : result (list pyval) :=
  match v with
  | PList l => Ok l
  | PStr s => Ok (map (fun c => PStr [c]) s)
  | PDict d => Ok (map (fun kv => PStr (fst kv)) d)
  | _ => Raise (TypeError (u "object is not iterable"))
  end.

(** [x in l] for a list [l]. *)
Definition py_in_list (x : pyval) (l : list pyval) : bool :=
  existsb (fun y => py_eq y x) l.

(** [d.get(key, default)] *)
Definition get {V} (d : gmap str V) (key : str) (default : V) : V :=
  match d !! key with
  | Some v => v
  | None => default
  end.

(** [d[k] = v] on the items of a dict: the entry is replaced in place, or
    added last. *)
Fixpoint dict_set {V} (k : str) (v : V) (d : list (str * V))
  : list (str * V) :=
  match d with
  | [] => [(k, v)]
  | (k', v') :: d' =>
    if str_eqb k k' then (k, v) :: d' else (k', v') :: dict_set k v d'
  end.

(** [v.get(key, default)] on a value: only a dict has [get]. *)
Definition py_get (v : pyval) (key : str) (default : pyval) : result pyval :=
  match v with
  | PDict d => Ok (from_option id default (assoc key d))
  | _ => Raise (AttributeError (u "get"))
  end.

(** [m.update(v)] and [{**m, **v}]: the entries of [v] override. *)
Definition update_with (m : gmap str pyval) (d : list (str * pyval))
  : gmap str pyval :=
  foldl (fun acc kv => <[fst kv := snd kv]> acc) m d.

Definition py_update (m : gmap str pyval) (v : pyval)
  : result (gmap str pyval) :=
  match v with
  | PDict d => Ok (update_with m d)
  | _ => Raise (TypeError (u "not a mapping"))
  end.

(** [l[-10:]] *)
Definition last10 {A} (l : list A) : list A := drop (length l - 10) l.

(** A dict seen as a value. *)
Definition dict_val (m : gmap str pyval) : pyval := PDict (map_to_list m).

#[global] Instance result_bind : MBind result :=
  fun A B f r => bind r f.
#[global] Instance result_ret : MRet result := @Ok.

Definition raises {A} (r : result A) : Prop :=
  match r with Ok _ => False | Raise _ => True end.

End Py.

Export Py.

(** ** Data model (ai_service.py) *)

Module AIService.

Inductive IntentType :=
| CONTROL | QUERY | AUTOMATION | SCENE | ROUTINE | DIAGNOSTIC.

#[global] Instance IntentType_eq : EqDecision IntentType.
Proof. solve_decision. Defined.

(** [IntentType.value] *)
Definition IntentType_value (t : IntentType) : str :=
  match t with
  | CONTROL => u "control"
  | QUERY => u "query"
  | AUTOMATION => u "automation"
  | SCENE => u "scene"
  | ROUTINE => u "routine"
  | DIAGNOSTIC => u "diagnostic"
  end.

(** Members in definition order (iteration order of the enum). *)
Definition IntentType_members : list IntentType :=
  [CONTROL; QUERY; AUTOMATION; SCENE; ROUTINE; DIAGNOSTIC].

(** The dataclasses, at the types their fields are annotated with, except
    [Intent.entities]: annotated [Dict[str, Any]], it is given here as the
    parser builds it, a category mapped to the list of its extracted
    values.  The engine on entity values of any type is in [Untyped]. *)
Module Intent.
Record t := {
  type : IntentType;
  text : str;
  confidence : Q;
  entities : gmap str (list pyval);
  timestamp : datetime
}.
End Intent.

Module Context.
Record t := {
  user_id : option str;
  location : option str;
  time_of_day : option str;
  weather : option (gmap str pyval);
  device_states : gmap str pyval;
  user_preferences : gmap str pyval;
  recent_actions : list pyval;
  timestamp : datetime
}.
End Context.

Module Decision.
Record t := {
  action : str;
  target : str;
  parameters : gmap str pyval;
  confidence : Q;
  reasoning : str;
  alternatives : list pyval;
  timestamp : datetime
}.
End Decision.

(** [AIService._decision_to_command]: the table is built with the decision's
    parameters, then indexed by the action; a missing action gives [{}]. *)
Definition _decision_to_command (decision : Decision.t) : gmap str pyval :=
  let parameters := Decision.parameters decision in
  let command_map : gmap str (gmap str pyval) :=
    <[u "turn_on" := {[u "on" := PBool true]}]>
    (<[u "turn_off" := {[u "on" := PBool false]}]>
    (<[u "set_brightness" :=
         {[u "bri" := get parameters (u "brightness") (PInt 100)]}]>
    (<[u "set_color" :=
         <[u "hue" := get parameters (u "hue") (PInt 0)]>
         {[u "sat" := get parameters (u "saturation") (PInt 100)]}]>
    (<[u "query_status" := {[u "query" := PStr (u "status")]}]> ∅)))) in
  get command_map (Decision.action decision) ∅.

End AIService.

Export AIService.

(** ** DecisionEngine (decision_engine.py) *)

Module DecisionEngine.

Local Open Scope Q_scope.

(** A value stored in a rule's [condition] dict: an [IntentType] member or a
    plain value. *)
Inductive condval :=
| CType (t : IntentType)
| CVal (v : pyval).

#[global] Instance condval_eq : EqDecision condval.
Proof. solve_decision. Defined.

Module DecisionRule.
Record t := {
  condition : gmap str condval;
  action : str;
  target : str;
  parameters : gmap str pyval;
  priority : Z;
  confidence : Q
}.
End DecisionRule.

Module DecisionFactor.
Record t := { name : str; weight : Q; value : Q }.
End DecisionFactor.

Definition strs (l : list string) : pyval := PList (map (fun s => PStr (u s)) l).

(** [DecisionEngine._initialize_rules] *)
Definition _initialize_rules : list DecisionRule.t :=
  [ {| DecisionRule.condition :=
         <[u "intent_type" := CType CONTROL]>
         {[u "entities.action" := CVal (strs ["allume"; "active"]%string)]};
       DecisionRule.action := u "turn_on";
       DecisionRule.target := u "living_room_light";
       DecisionRule.parameters := ∅;
       DecisionRule.priority := 1%Z;
       DecisionRule.confidence := 9 # 10 |};
    {| DecisionRule.condition :=
         <[u "intent_type" := CType CONTROL]>
         {[u "entities.action" := CVal (strs ["éteins"; "désactive"]%string)]};
       DecisionRule.action := u "turn_off";
       DecisionRule.target := u "living_room_light";
       DecisionRule.parameters := ∅;
       DecisionRule.priority := 1%Z;
       DecisionRule.confidence := 9 # 10 |};
    {| DecisionRule.condition := {[u "intent_type" := CType QUERY]};
       DecisionRule.action := u "query_status";
       DecisionRule.target := u "all_devices";
       DecisionRule.parameters := ∅;
       DecisionRule.priority := 2%Z;
       DecisionRule.confidence := 8 # 10 |};
    {| DecisionRule.condition :=
         <[u "intent_type" := CType SCENE]>
         {[u "entities.scene" := CVal (strs ["cinéma"; "cinema"]%string)]};
       DecisionRule.action := u "activate_scene";
       DecisionRule.target := u "living_room";
       DecisionRule.parameters := {[u "scene_name" := PStr (u "cinema")]};
       DecisionRule.priority := 1%Z;
       DecisionRule.confidence := 85 # 100 |};
    {| DecisionRule.condition :=
         <[u "intent_type" := CType SCENE]>
         {[u "entities.scene" := CVal (strs ["lecture"; "reading"]%string)]};
       DecisionRule.action := u "activate_scene";
       DecisionRule.target := u "living_room";
       DecisionRule.parameters := {[u "scene_name" := PStr (u "reading")]};
       DecisionRule.priority := 1%Z;
       DecisionRule.confidence := 85 # 100 |};
    {| DecisionRule.condition := {[u "intent_type" := CType AUTOMATION]};
       DecisionRule.action := u "create_automation";
       DecisionRule.target := u "system";
       DecisionRule.parameters := ∅;
       DecisionRule.priority := 3%Z;
       DecisionRule.confidence := 7 # 10 |};
    {| DecisionRule.condition := {[u "intent_type" := CType DIAGNOSTIC]};
       DecisionRule.action := u "diagnose";
       DecisionRule.target := u "system";
       DecisionRule.parameters := ∅;
       DecisionRule.priority := 4%Z;
       DecisionRule.confidence := 6 # 10 |} ].

(** [DecisionEngine._initialize_factors] *)
Definition _initialize_factors : list DecisionFactor.t :=
  [ {| DecisionFactor.name := u "intent_confidence";
       DecisionFactor.weight := 3 # 10; DecisionFactor.value := 0 |};
    {| DecisionFactor.name := u "context_relevance";
       DecisionFactor.weight := 2 # 10; DecisionFactor.value := 0 |};
    {| DecisionFactor.name := u "time_of_day";
       DecisionFactor.weight := 15 # 100; DecisionFactor.value := 0 |};
    {| DecisionFactor.name := u "user_preferences";
       DecisionFactor.weight := 2 # 10; DecisionFactor.value := 0 |};
    {| DecisionFactor.name := u "energy_efficiency";
       DecisionFactor.weight := 1 # 10; DecisionFactor.value := 0 |};
    {| DecisionFactor.name := u "privacy_concerns";
       DecisionFactor.weight := 5 # 100; DecisionFactor.value := 0 |} ].

(** The engine object: its rules, its factors and the decision cache. *)
Record t := {
  rules : list DecisionRule.t;
  factors : list DecisionFactor.t;
  _decision_cache : gmap str Decision.t
}.

(** [DecisionEngine.__init__] *)
Definition __init__ : t :=
  {| rules := _initialize_rules;
     factors := _initialize_factors;
     _decision_cache := ∅ |}.

(** [v.items()] on a condition entry: only a dict has items. *)
Definition items (v : condval) : result (list (str * pyval)) :=
  match v with
  | CVal (PDict d) => Ok d
  | _ => Raise (AttributeError (u "items"))
  end.

(** [intent.type != v] *)
Definition type_differs (ty : IntentType) (v : condval) : bool :=
  match v with
  | CType t => negb (bool_decide (ty = t))
  | CVal _ => true
  end.

(** The loop over [rule.condition["entities"].items()]: [Ok false] is the
    early [return False], [Ok true] the end of the loop. *)
Fixpoint entities_loop (intent : Intent.t) (reqs : list (str * pyval))
  : result bool :=
  match reqs with
  | [] => Ok true
  | (entity_type, expected_values) :: reqs' =>
    match Intent.entities intent !! entity_type with
    | None => Ok false
    | Some entity_values =>
      values ← py_iter expected_values;
      if negb (existsb (fun value => py_in_list value entity_values) values)
      then Ok false
      else entities_loop intent reqs'
    end
  end.

(** [getattr(context, name, None)] on the fields of the dataclass. *)
Definition getattr (context : Context.t) (name : str) : pyval :=
  if str_eqb name (u "user_id") then
    match Context.user_id context with Some s => PStr s | None => PNone end
  else if str_eqb name (u "location") then
    match Context.location context with Some s => PStr s | None => PNone end
  else if str_eqb name (u "time_of_day") then
    match Context.time_of_day context with Some s => PStr s | None => PNone end
  else if str_eqb name (u "weather") then
    match Context.weather context with Some w => dict_val w | None => PNone end
  else if str_eqb name (u "device_states") then
    dict_val (Context.device_states context)
  else if str_eqb name (u "user_preferences") then
    dict_val (Context.user_preferences context)
  else if str_eqb name (u "recent_actions") then
    PList (Context.recent_actions context)
  else if str_eqb name (u "timestamp") then POther 0
  else PNone.

(** The loop over [rule.condition["context"].items()]. *)
Fixpoint context_loop (context : Context.t) (reqs : list (str * pyval)) : bool :=
  match reqs with
  | [] => true
  | (context_key, expected_value) :: reqs' =>
    let context_value := getattr context context_key in
    if negb (py_eq context_value expected_value) then false
    else context_loop context reqs'
  end.

(** [DecisionEngine._rule_matches] *)
Definition _rule_matches (rule : DecisionRule.t) (intent : Intent.t)
    (context : Context.t) : result bool :=
  let condition := DecisionRule.condition rule in
  if match condition !! u "intent_type" with
     | Some v => type_differs (Intent.type intent) v
     | None => false
     end
  then Ok false
  else
    ents ← match condition !! u "entities" with
           | Some v => reqs ← items v; entities_loop intent reqs
           | None => Ok true
           end;
    if negb (ents : bool) then Ok false
    else
      match condition !! u "context" with
      | Some v => reqs ← items v; Ok (context_loop context reqs)
      | None => Ok true
      end.

(** [DecisionEngine._evaluate_rules], over the engine's rule list. *)
Fixpoint _evaluate_rules (rules : list DecisionRule.t) (intent : Intent.t)
    (context : Context.t) : result (list DecisionRule.t) :=
  match rules with
  | [] => Ok []
  | rule :: rules' =>
    m ← _rule_matches rule intent context;
    matching ← _evaluate_rules rules' intent context;
    Ok (if (m : bool) then rule :: matching else matching)
  end.

Definition opt_truthy {A} (o : option (list A)) : bool :=
  match o with
  | Some (_ :: _) => true
  | _ => false
  end.

Definition dict_truthy {V} (m : gmap str V) : bool :=
  negb (bool_decide (m = ∅)).

(** [DecisionEngine._calculate_context_factor] *)
Definition _calculate_context_factor (context : Context.t) : Q :=
  let factor := 5 # 10 in
  let factor := if opt_truthy (Context.location context)
                then factor + (1 # 10) else factor in
  let factor := if match Context.weather context with
                   | Some w => dict_truthy w
                   | None => false
                   end
                then factor + (1 # 10) else factor in
  let factor := if dict_truthy (Context.device_states context)
                then factor + (2 # 10) else factor in
  let factor := if dict_truthy (Context.user_preferences context)
                then factor + (1 # 10) else factor in
  py_min 1 factor.

(** [DecisionEngine._calculate_time_factor] *)
Definition _calculate_time_factor (context : Context.t) : Q :=
  if negb (opt_truthy (Context.time_of_day context)) then 5 # 10
  else
    let time_factors : gmap str Q :=
      <[u "morning" := 8 # 10]>
      (<[u "afternoon" := 9 # 10]>
      (<[u "evening" := 7 # 10]>
      {[u "night" := 5 # 10]})) in
    get time_factors (default [] (Context.time_of_day context)) (5 # 10).

(** [DecisionEngine._calculate_preference_factor] *)
Definition _calculate_preference_factor (context : Context.t) : Q :=
  if negb (dict_truthy (Context.user_preferences context)) then 5 # 10
  else
    let auto_optimization :=
      get (Context.user_preferences context) (u "auto_optimization")
          (PBool false) in
    if truthy auto_optimization then 9 # 10 else 5 # 10.

(** [DecisionEngine._calculate_energy_factor], the actions being a list;
    on any other value see [Untyped._calculate_energy_factor]. *)
Definition _calculate_energy_factor (intent : Intent.t) (context : Context.t)
  : Q :=
  if bool_decide (Intent.type intent = CONTROL) then
    match Intent.entities intent !! u "action" with
    | Some actions =>
      if existsb (fun action =>
                    py_in_list action [PStr (u "éteins"); PStr (u "désactive")])
                 actions
      then 9 # 10 else 5 # 10
    | None => 5 # 10
    end
  else 5 # 10.

(** [DecisionEngine._calculate_privacy_factor] *)
Definition _calculate_privacy_factor (intent : Intent.t) (context : Context.t)
  : Q :=
  if bool_decide (Intent.type intent = QUERY) then 8 # 10 else 5 # 10.

(** [DecisionEngine._calculate_confidence] *)
Definition _calculate_confidence (intent : Intent.t) (context : Context.t)
    (rule : DecisionRule.t) : Q :=
  let base_confidence := DecisionRule.confidence rule in
  let intent_factor := Intent.confidence intent * (3 # 10) in
  let context_factor := _calculate_context_factor context * (2 # 10) in
  let time_factor := _calculate_time_factor context * (15 # 100) in
  let preference_factor := _calculate_preference_factor context * (2 # 10) in
  let energy_factor := _calculate_energy_factor intent context * (1 # 10) in
  let privacy_factor := _calculate_privacy_factor intent context * (5 # 100) in
  let confidence :=
    base_confidence *
    (intent_factor + context_factor + time_factor +
     preference_factor + energy_factor + privacy_factor) in
  py_max (1 # 10) (py_min 1 confidence).

(** [DecisionEngine._generate_reasoning] *)
Definition _generate_reasoning (intent : Intent.t) (context : Context.t)
    (rule : DecisionRule.t) : str :=
  let reasoning_parts :=
    [u "Intention détectée: " ++ IntentType_value (Intent.type intent)] in
  let reasoning_parts :=
    if opt_truthy (Context.time_of_day context)
    then reasoning_parts ++
         [u "Moment de la journée: " ++ str_of_opt (Context.time_of_day context)]
    else reasoning_parts in
  let reasoning_parts :=
    if opt_truthy (Context.location context)
    then reasoning_parts ++
         [u "Localisation: " ++ str_of_opt (Context.location context)]
    else reasoning_parts in
  let reasoning_parts :=
    reasoning_parts ++
    [u "Règle appliquée: " ++ DecisionRule.action rule ++ u " sur " ++
     DecisionRule.target rule] in
  let confidence := _calculate_confidence intent context rule in
  let reasoning_parts :=
    reasoning_parts ++ [u "Confiance: " ++ fmt_2f confidence] in
  join (u ". ") reasoning_parts.

(** Equality of two dicts, by keys and [==] on the values. *)
Definition dict_eqb {V} (eqv : V -> V -> bool) (m1 m2 : gmap str V) : bool :=
  (size m1 =? size m2)%nat &&
  forallb (fun kv => match m2 !! fst kv with
                     | Some w => eqv (snd kv) w
                     | None => false
                     end) (map_to_list m1).

Definition condval_eqb (a b : condval) : bool :=
  match a, b with
  | CType s, CType t => bool_decide (s = t)
  | CVal v, CVal w => py_eq v w
  | _, _ => false
  end.

(** [rule == other], the field-wise equality of the dataclass. *)
Definition rule_eqb (r1 r2 : DecisionRule.t) : bool :=
  dict_eqb condval_eqb (DecisionRule.condition r1) (DecisionRule.condition r2) &&
  str_eqb (DecisionRule.action r1) (DecisionRule.action r2) &&
  str_eqb (DecisionRule.target r1) (DecisionRule.target r2) &&
  dict_eqb py_eq (DecisionRule.parameters r1) (DecisionRule.parameters r2) &&
  (DecisionRule.priority r1 =? DecisionRule.priority r2)%Z &&
  Qeq_bool (DecisionRule.confidence r1) (DecisionRule.confidence r2).

(** [DecisionEngine._generate_alternatives] *)
Fixpoint _generate_alternatives (matching_rules : list DecisionRule.t)
    (selected_rule : DecisionRule.t) : list pyval :=
  match matching_rules with
  | [] => []
  | rule :: rest =>
    if rule_eqb rule selected_rule
    then _generate_alternatives rest selected_rule
    else
      PDict [ (u "action", PStr (DecisionRule.action rule));
              (u "target", PStr (DecisionRule.target rule));
              (u "parameters", dict_val (DecisionRule.parameters rule));
              (u "confidence", PFloat (DecisionRule.confidence rule * (8 # 10)));
              (u "reasoning",
               PStr (u "Alternative: " ++ DecisionRule.action rule ++
                     u " sur " ++ DecisionRule.target rule)) ]
      :: _generate_alternatives rest selected_rule
  end.

(** [DecisionEngine._get_decision_cache_key] *)
Definition _get_decision_cache_key (intent : Intent.t) (context : Context.t)
  : str :=
  let intent_part :=
    IntentType_value (Intent.type intent) ++ u ":" ++
    take 20 (Intent.text intent) in
  let context_part :=
    str_of_opt (Context.user_id context) ++ u ":" ++
    str_of_opt (Context.time_of_day context) in
  u "decision:" ++ intent_part ++ u ":" ++ context_part.

(** [max(rules, key=lambda r: (r.priority, r.confidence))]: the first rule
    whose key no later rule exceeds. *)
Definition key_gt (a b : DecisionRule.t) : bool :=
  (DecisionRule.priority b <? DecisionRule.priority a)%Z ||
  ((DecisionRule.priority a =? DecisionRule.priority b)%Z &&
   Qltb (DecisionRule.confidence b) (DecisionRule.confidence a)).

Fixpoint max_loop (best : DecisionRule.t) (l : list DecisionRule.t)
  : DecisionRule.t :=
  match l with
  | [] => best
  | r :: l' => max_loop (if key_gt r best then r else best) l'
  end.

(** [DecisionEngine._make_local_decision] *)
Definition _make_local_decision (self : t) (intent : Intent.t)
    (context : Context.t) (available_actions : list pyval) (now : datetime)
  : result Decision.t :=
  matching_rules ← _evaluate_rules (rules self) intent context;
  match (matching_rules : list DecisionRule.t) with
  | first :: others =>
    let best_rule := max_loop first others in
    let confidence := _calculate_confidence intent context best_rule in
    let reasoning := _generate_reasoning intent context best_rule in
    let alternatives := _generate_alternatives matching_rules best_rule in
    Ok {| Decision.action := DecisionRule.action best_rule;
          Decision.target := DecisionRule.target best_rule;
          Decision.parameters := DecisionRule.parameters best_rule;
          Decision.confidence := confidence;
          Decision.reasoning := reasoning;
          Decision.alternatives := alternatives;
          Decision.timestamp := now |}
  | [] =>
    Ok {| Decision.action := u "noop";
          Decision.target := [];
          Decision.parameters := ∅;
          Decision.confidence := 1 # 10;
          Decision.reasoning := u "Aucune règle correspondante trouvée";
          Decision.alternatives := [];
          Decision.timestamp := now |}
  end.

(** The body posted to the decision delegate. *)
Record payload := {
  p_intent : Intent.t;
  p_context : Context.t;
  p_available_actions : list pyval;
  p_timestamp : datetime
}.

(** The delegate's JSON answer, each entry read at the type the [Decision]
    field it fills is annotated with; [None] is a missing key.  The
    ["timestamp"] entry is given as [datetime.fromisoformat] reads it. *)
Record api_response := {
  a_action : option str;
  a_target : option str;
  a_parameters : option (gmap str pyval);
  a_confidence : option Q;
  a_reasoning : option str;
  a_alternatives : option (list pyval);
  a_timestamp : option (result datetime)
}.

(** The remote end: what [http_client.post], [raise_for_status] and
    [response.json()] give for a request body. *)
Definition delegate := payload -> result api_response.

(** [DecisionEngine._call_decision_api]: an [httpx.HTTPError] is logged and
    raised again, so the outcome of the exchange is the outcome of the call. *)
Definition _call_decision_api (post : delegate) (intent : Intent.t)
    (context : Context.t) (available_actions : list pyval) (now : datetime)
  : result api_response :=
  let body := {| p_intent := intent; p_context := context;
                 p_available_actions := available_actions;
                 p_timestamp := now |} in
  match post body with
  | Ok data => Ok data
  | Raise e => Raise e
  end.

(** The [Decision(...)] built from the delegate's answer. *)
Definition decision_of_response (decision_data : api_response) (now : datetime)
  : result Decision.t :=
  timestamp ← default (Ok now) (a_timestamp decision_data);
  Ok {| Decision.action := default (u "noop") (a_action decision_data);
        Decision.target := default [] (a_target decision_data);
        Decision.parameters := default ∅ (a_parameters decision_data);
        Decision.confidence := default (5 # 10) (a_confidence decision_data);
        Decision.reasoning :=
          default (u "No reasoning provided") (a_reasoning decision_data);
        Decision.alternatives := default [] (a_alternatives decision_data);
        Decision.timestamp := timestamp |}.

(** [DecisionEngine.make_decision]: the decision and the engine afterwards. *)
Definition make_decision (self : t) (post : delegate) (intent : Intent.t)
    (context : Context.t) (available_actions : list pyval) (now : datetime)
  : result (Decision.t * t) :=
  let cache_key := _get_decision_cache_key intent context in
  match _decision_cache self !! cache_key with
  | Some cached => Ok (cached, self)
  | None =>
    let attempt :=
      decision_data ← _call_decision_api post intent context
                                         available_actions now;
      decision_of_response decision_data now in
    decision ← match attempt with
               | Ok decision => Ok decision
               | Raise e =>
                 _make_local_decision self intent context available_actions now
               end;
    Ok (decision,
        {| rules := rules self;
           factors := factors self;
           _decision_cache := <[cache_key := decision]> (_decision_cache self) |})
  end.

(** What the loop over the entity requirements establishes when it runs to
    its end: every required category is present in the intent and shares a
    value with the expected ones. *)
Definition requirement_met (intent : Intent.t) (req : str * pyval) : Prop :=
  exists entity_values values value,
    Intent.entities intent !! fst req = Some entity_values /\
    py_iter (snd req) = Ok values /\
    In value values /\ py_in_list value entity_values = true.


End DecisionEngine.

(** ** The decision engine on entities of any type

    [Intent.entities] is annotated [Dict[str, Any]]: nothing keeps a caller
    from handing the engine an intent whose entity values are not the lists
    the parser builds.  The functions of the engine that read the entities
    are given here on such intents, with the exceptions Python raises. *)

Module Untyped.

Import Py AIService DecisionEngine.
Local Open Scope Q_scope.

(** The [Intent] dataclass with [entities: Dict[str, Any]]. *)
Module Intent.
Record t := {
  type : IntentType;
  text : str;
  confidence : Q;
  entities : gmap str pyval;
  timestamp : datetime
}.
End Intent.

(** An intent whose entity values are lists, as an intent of this kind. *)
Definition of_typed (intent : AIService.Intent.t) : Intent.t :=
  {| Intent.type := AIService.Intent.type intent;
     Intent.text := AIService.Intent.text intent;
     Intent.confidence := AIService.Intent.confidence intent;
     Intent.entities := PList <$> AIService.Intent.entities intent;
     Intent.timestamp := AIService.Intent.timestamp intent |}.

(** [x in v]: membership in a list, substring of a string, key of a dict;
    any other right operand is a [TypeError]. *)
Definition py_contains (x v : pyval) : result bool :=
  match v with
  | PList l => Ok (py_in_list x l)
  | PStr s =>
    match x with
    | PStr sub => Ok (contains sub s)
    | _ => Raise (TypeError (u "'in <string>' requires string as left operand"))
    end
  | PDict d =>
    match x with
    | PList _ | PDict _ => Raise (TypeError (u "unhashable type"))
    | _ => Ok (existsb (fun kv => py_eq (PStr (fst kv)) x) d)
    end
  | _ => Raise (TypeError (u "argument is not iterable"))
  end.

(** [any(value in entity_values for value in values)]: stops at the first
    value found. *)
Fixpoint any_in (values : list pyval) (entity_values : pyval) : result bool :=
  match values with
  | [] => Ok false
  | value :: rest =>
    found ← py_contains value entity_values;
    if (found : bool) then Ok true else any_in rest entity_values
  end.

(** The loop over [rule.condition["entities"].items()]. *)
Fixpoint entities_loop (intent : Intent.t) (reqs : list (str * pyval))
  : result bool :=
  match reqs with
  | [] => Ok true
  | (entity_type, expected_values) :: reqs' =>
    match Intent.entities intent !! entity_type with
    | None => Ok false
    | Some entity_values =>
      values ← py_iter expected_values;
      found ← any_in values entity_values;
      if negb (found : bool) then Ok false
      else entities_loop intent reqs'
    end
  end.

(** [DecisionEngine._rule_matches] *)
Definition _rule_matches (rule : DecisionRule.t) (intent : Intent.t)
    (context : Context.t) : result bool :=
  let condition := DecisionRule.condition rule in
  if match condition !! u "intent_type" with
     | Some v => type_differs (Intent.type intent) v
     | None => false
     end
  then Ok false
  else
    ents ← match condition !! u "entities" with
           | Some v => reqs ← items v; entities_loop intent reqs
           | None => Ok true
           end;
    if negb (ents : bool) then Ok false
    else
      match condition !! u "context" with
      | Some v => reqs ← items v; Ok (context_loop context reqs)
      | None => Ok true
      end.

(** [DecisionEngine._evaluate_rules] *)
Fixpoint _evaluate_rules (rules : list DecisionRule.t) (intent : Intent.t)
    (context : Context.t) : result (list DecisionRule.t) :=
  match rules with
  | [] => Ok []
  | rule :: rules' =>
    m ← _rule_matches rule intent context;
    matching ← _evaluate_rules rules' intent context;
    Ok (if (m : bool) then rule :: matching else matching)
  end.

(** [DecisionEngine._calculate_energy_factor]: [for action in actions]
    raises [TypeError] when the value under ["action"] cannot be iterated. *)
Definition _calculate_energy_factor (intent : Intent.t) (context : Context.t)
  : result Q :=
  if bool_decide (Intent.type intent = CONTROL) then
    match Intent.entities intent !! u "action" with
    | Some actions =>
      actions ← py_iter actions;
      Ok (if existsb (fun action =>
                        py_in_list action
                          [PStr (u "éteins"); PStr (u "désactive")])
                     actions
          then 9 # 10 else 5 # 10)
    | None => Ok (5 # 10)
    end
  else Ok (5 # 10).

(** [DecisionEngine._calculate_privacy_factor] *)
Definition _calculate_privacy_factor (intent : Intent.t) (context : Context.t)
  : Q :=
  if bool_decide (Intent.type intent = QUERY) then 8 # 10 else 5 # 10.

(** [DecisionEngine._calculate_confidence] *)
Definition _calculate_confidence (intent : Intent.t) (context : Context.t)
    (rule : DecisionRule.t) : result Q :=
  let base_confidence := DecisionRule.confidence rule in
  let intent_factor := Intent.confidence intent * (3 # 10) in
  let context_factor := _calculate_context_factor context * (2 # 10) in
  let time_factor := _calculate_time_factor context * (15 # 100) in
  let preference_factor := _calculate_preference_factor context * (2 # 10) in
  energy ← _calculate_energy_factor intent context;
  let energy_factor := energy * (1 # 10) in
  let privacy_factor := _calculate_privacy_factor intent context * (5 # 100) in
  let confidence :=
    base_confidence *
    (intent_factor + context_factor + time_factor +
     preference_factor + energy_factor + privacy_factor) in
  Ok (py_max (1 # 10) (py_min 1 confidence)).

(** [DecisionEngine._generate_reasoning] *)
Definition _generate_reasoning (intent : Intent.t) (context : Context.t)
    (rule : DecisionRule.t) : result str :=
  let reasoning_parts :=
    [u "Intention détectée: " ++ IntentType_value (Intent.type intent)] in
  let reasoning_parts :=
    if opt_truthy (Context.time_of_day context)
    then reasoning_parts ++
         [u "Moment de la journée: " ++ str_of_opt (Context.time_of_day context)]
    else reasoning_parts in
  let reasoning_parts :=
    if opt_truthy (Context.location context)
    then reasoning_parts ++
         [u "Localisation: " ++ str_of_opt (Context.location context)]
    else reasoning_parts in
  let reasoning_parts :=
    reasoning_parts ++
    [u "Règle appliquée: " ++ DecisionRule.action rule ++ u " sur " ++
     DecisionRule.target rule] in
  confidence ← _calculate_confidence intent context rule;
  let reasoning_parts :=
    reasoning_parts ++ [u "Confiance: " ++ fmt_2f confidence] in
  Ok (join (u ". ") reasoning_parts).

(** [DecisionEngine._get_decision_cache_key] *)
Definition _get_decision_cache_key (intent : Intent.t) (context : Context.t)
  : str :=
  let intent_part :=
    IntentType_value (Intent.type intent) ++ u ":" ++
    take 20 (Intent.text intent) in
  let context_part :=
    str_of_opt (Context.user_id context) ++ u ":" ++
    str_of_opt (Context.time_of_day context) in
  u "decision:" ++ intent_part ++ u ":" ++ context_part.

(** [DecisionEngine._make_local_decision] *)
Definition _make_local_decision (self : DecisionEngine.t) (intent : Intent.t)
    (context : Context.t) (available_actions : list pyval) (now : datetime)
  : result Decision.t :=
  matching_rules ← _evaluate_rules (rules self) intent context;
  match (matching_rules : list DecisionRule.t) with
  | first :: others =>
    let best_rule := max_loop first others in
    confidence ← _calculate_confidence intent context best_rule;
    reasoning ← _generate_reasoning intent context best_rule;
    let alternatives := _generate_alternatives matching_rules best_rule in
    Ok {| Decision.action := DecisionRule.action best_rule;
          Decision.target := DecisionRule.target best_rule;
          Decision.parameters := DecisionRule.parameters best_rule;
          Decision.confidence := confidence;
          Decision.reasoning := reasoning;
          Decision.alternatives := alternatives;
          Decision.timestamp := now |}
  | [] =>
    Ok {| Decision.action := u "noop";
          Decision.target := [];
          Decision.parameters := ∅;
          Decision.confidence := 1 # 10;
          Decision.reasoning := u "Aucune règle correspondante trouvée";
          Decision.alternatives := [];
          Decision.timestamp := now |}
  end.

(** The body posted to the decision delegate. *)
Record payload := {
  p_intent : Intent.t;
  p_context : Context.t;
  p_available_actions : list pyval;
  p_timestamp : datetime
}.

Definition delegate := payload -> result api_response.

(** [DecisionEngine._call_decision_api] *)
Definition _call_decision_api (post : delegate) (intent : Intent.t)
    (context : Context.t) (available_actions : list pyval) (now : datetime)
  : result api_response :=
  let body := {| p_intent := intent; p_context := context;
                 p_available_actions := available_actions;
                 p_timestamp := now |} in
  match post body with
  | Ok data => Ok data
  | Raise e => Raise e
  end.

(** [DecisionEngine.make_decision]: the local decision is taken inside the
    [except] clause, so what it raises leaves the method. *)
Definition make_decision (self : DecisionEngine.t) (post : delegate)
    (intent : Intent.t) (context : Context.t) (available_actions : list pyval)
    (now : datetime) : result (Decision.t * DecisionEngine.t) :=
  let cache_key := _get_decision_cache_key intent context in
  match _decision_cache self !! cache_key with
  | Some cached => Ok (cached, self)
  | None =>
    let attempt :=
      decision_data ← _call_decision_api post intent context
                                         available_actions now;
      decision_of_response decision_data now in
    decision ← match attempt with
               | Ok decision => Ok decision
               | Raise e =>
                 _make_local_decision self intent context available_actions now
               end;
    Ok (decision,
        {| rules := rules self;
           factors := factors self;
           _decision_cache := <[cache_key := decision]> (_decision_cache self) |})
  end.

(** The request of a typed intent, as the delegate receives it. *)
Definition payload_of_typed (body : DecisionEngine.payload) : payload :=
  {| p_intent := of_typed (DecisionEngine.p_intent body);
     p_context := DecisionEngine.p_context body;
     p_available_actions := DecisionEngine.p_available_actions body;
     p_timestamp := DecisionEngine.p_timestamp body |}.

(** The engine does not trip over the ["action"] entity of an intent: the
    intent is not a CONTROL intent, or has no such entity, or its value can
    be iterated (a list, a string, a dict). *)
Definition action_iterable (intent : Intent.t) : Prop :=
  Intent.type intent = CONTROL ->
  forall actions, Intent.entities intent !! u "action" = Some actions ->
                  exists l, py_iter actions = Ok l.

(** A value that is no container: [None], a boolean, a number. *)
Definition scalar (v : pyval) : bool :=
  match v with
  | PNone | PBool _ | PInt _ | PFloat _ => true
  | _ => false
  end.

End Untyped.

(** ** ContextManager (context_manager.py) *)

Module ContextManager.

Module ContextSource.
Record t := {
  name : str;
  priority : Z;
  cache_ttl : Z;
  enabled : bool
}.
End ContextSource.

(** What a call does to the outside, in order: reading a source, and the
    two operations on the shared Redis cache. *)
Inductive event :=
| Fetch (source_name : str)
| RedisGet (key : str)
| RedisSetex (key : str) (ttl : Z) (data : pyval).

(** The Redis server as it answers during one call: for a key, the stored
    text decoded by [json.loads] ([Ok None] when nothing is stored, [Raise]
    when the exchange or the decoding fails).  [None] when the manager was
    built without a client. *)
Definition redis := option (str -> result (option pyval)).

(** The manager object, with the trace of its outside effects. *)
Record t := {
  sources : list ContextSource.t;
  _local_cache : gmap str pyval;
  trace : list event
}.

Definition source (n : string) (p ttl : Z) : ContextSource.t :=
  {| ContextSource.name := u n; ContextSource.priority := p;
     ContextSource.cache_ttl := ttl; ContextSource.enabled := true |}.

(** [ContextManager.__init__] *)
Definition __init__ : t :=
  {| sources :=
       [ source "user_profile" 1 3600;
         source "device_states" 2 30;
         source "environment" 3 300;
         source "weather" 4 1800;
         source "time" 5 60;
         source "history" 6 900 ];
     _local_cache := ∅;
     trace := [] |}.

Definition set_cache (self : t) (c : gmap str pyval) : t :=
  {| sources := sources self; _local_cache := c; trace := trace self |}.

Definition emit (self : t) (e : event) : t :=
  {| sources := sources self; _local_cache := _local_cache self;
     trace := trace self ++ [e] |}.

(** Truth value of an optional string ([None] and [""] are false). *)
Definition str_truthy (o : option str) : bool :=
  match o with
  | Some (_ :: _) => true
  | _ => false
  end.

Definition pstr (s : string) : pyval := PStr (u s).
Definition entry (k : string) (v : pyval) : str * pyval := (u k, v).

(** [ContextManager._get_user_profile] *)
Definition _get_user_profile (user_id : option str) : pyval :=
  if negb (str_truthy user_id) then PDict []
  else
    PDict [ entry "name" (pstr "Utilisateur");
            entry "preferences"
              (PDict [ entry "theme" (pstr "auto");
                       entry "language" (pstr "fr");
                       entry "notifications" (PBool true);
                       entry "auto_optimization" (PBool true) ]);
            entry "favorite_devices"
              (PList [pstr "living_room_light"; pstr "kitchen_thermostat"]);
            entry "routines"
              (PList [pstr "morning"; pstr "evening"; pstr "sleep"]) ].

(** [ContextManager._get_device_states] *)
Definition _get_device_states (user_id : option str) : pyval :=
  PDict [ entry "living_room_light"
            (PDict [entry "on" (PBool false); entry "brightness" (PInt 50)]);
          entry "kitchen_thermostat"
            (PDict [entry "temperature" (PInt 21); entry "mode" (pstr "auto")]);
          entry "bedroom_blind" (PDict [entry "position" (PInt 75)]);
          entry "living_room_tv"
            (PDict [entry "on" (PBool true); entry "source" (pstr "netflix")]) ].

(** [ContextManager._get_environment_data] *)
Definition _get_environment_data (user_id : option str) : pyval :=
  PDict [ entry "location" (pstr "home");
          entry "room_temperature" (PFloat (225 # 10));
          entry "humidity" (PInt 45);
          entry "light_level" (PInt 300);
          entry "noise_level" (PInt 35);
          entry "motion_detected" (PBool true) ].

(** [ContextManager._get_weather_data] *)
Definition _get_weather_data (user_id : option str) : pyval :=
  PDict [ entry "temperature" (PInt 20);
          entry "condition" (pstr "clear");
          entry "humidity" (PInt 50);
          entry "wind_speed" (PInt 10);
          entry "sunrise" (pstr "07:30");
          entry "sunset" (pstr "18:45") ].

(** [ContextManager._get_season] *)
Definition _get_season (month : N) : str :=
  if bool_decide (month ∈ [12; 1; 2]%N) then u "winter"
  else if bool_decide (month ∈ [3; 4; 5]%N) then u "spring"
  else if bool_decide (month ∈ [6; 7; 8]%N) then u "summer"
  else u "autumn".

(** [now.strftime("%A")] *)
Definition day_name (wd : N) : str :=
  match wd with
  | 0%N => u "Monday" | 1%N => u "Tuesday" | 2%N => u "Wednesday"
  | 3%N => u "Thursday" | 4%N => u "Friday" | 5%N => u "Saturday"
  | _ => u "Sunday"
  end.

(** [ContextManager._get_time_data] *)
Definition _get_time_data (now : datetime) : pyval :=
  let current_hour := hour now in
  let time_of_day :=
    if (current_hour <? 6)%N then u "night"
    else if (current_hour <? 12)%N then u "morning"
    else if (current_hour <? 18)%N then u "afternoon"
    else u "evening" in
  PDict [ entry "time_of_day" (PStr time_of_day);
          entry "hour" (PInt (Z.of_N current_hour));
          entry "day_of_week" (PStr (day_name (weekday now)));
          entry "is_weekend" (PBool (5 <=? weekday now)%N);
          entry "season" (PStr (_get_season (month now))) ].

(** [ContextManager._get_history_data] *)
Definition _get_history_data (user_id : option str) : pyval :=
  if negb (str_truthy user_id) then PDict [entry "recent_actions" (PList [])]
  else
    PDict [ entry "recent_actions"
      (PList [ PDict [ entry "action" (pstr "turn_on");
                       entry "device" (pstr "living_room_light");
                       entry "timestamp" (pstr "2025-02-14T20:30:00") ];
               PDict [ entry "action" (pstr "set_temperature");
                       entry "device" (pstr "kitchen_thermostat");
                       entry "value" (PInt 21);
                       entry "timestamp" (pstr "2025-02-14T19:45:00") ];
               PDict [ entry "action" (pstr "activate_scene");
                       entry "scene" (pstr "cinema");
                       entry "timestamp" (pstr "2025-02-14T21:15:00") ] ]) ].

(** [ContextManager._get_cache_key]; the last part is
    [now.strftime("%Y%m%d%H")], the hour bucket. *)
Definition hour_bucket (now : datetime) : str :=
  pad4 (year now) ++ pad2 (month now) ++ pad2 (day now) ++ pad2 (hour now).

Definition _get_cache_key (source_name : str) (user_id : option str)
    (now : datetime) : str :=
  let user_part := if str_truthy user_id then default [] user_id
                   else u "anonymous" in
  let timestamp := hour_bucket now in
  u "context:" ++ source_name ++ u ":" ++ user_part ++ u ":" ++ timestamp.

(** [ContextManager._get_source_ttl] *)
Fixpoint source_ttl (l : list ContextSource.t) (source_name : str) : Z :=
  match l with
  | [] => 300
  | s :: l' =>
    if str_eqb (ContextSource.name s) source_name
    then ContextSource.cache_ttl s
    else source_ttl l' source_name
  end.

Definition _get_source_ttl (self : t) (source_name : str) : Z :=
  source_ttl (sources self) source_name.

(** [ContextManager._get_cached_data]: the local map first, whatever the
    age of the entry, then Redis. *)
Definition _get_cached_data (self : t) (r : redis) (cache_key : str)
  : option pyval * t :=
  match _local_cache self !! cache_key with
  | Some data => (Some data, self)
  | None =>
    match r with
    | Some server =>
      let self := emit self (RedisGet cache_key) in
      match server cache_key with
      | Ok (Some data) =>
        (Some data, set_cache self (<[cache_key := data]> (_local_cache self)))
      | Ok None => (None, self)
      | Raise _ => (None, self)
      end
    | None => (None, self)
    end
  end.

(** [ContextManager._cache_data]; a failure of [setex] is logged only. *)
Definition _cache_data (self : t) (r : redis) (cache_key : str) (data : pyval)
    (ttl : Z) : t :=
  let self := set_cache self (<[cache_key := data]> (_local_cache self)) in
  match r with
  | Some _ => emit self (RedisSetex cache_key ttl data)
  | None => self
  end.

Definition opt_val_truthy (o : option pyval) : bool :=
  match o with
  | Some v => truthy v
  | None => false
  end.

(** The dispatch of [_get_source_data] on the source name: the reader
    called, if any, and what it returns. *)
Definition read_source (source_name : str) (user_id : option str)
    (now : datetime) : option pyval :=
  if str_eqb source_name (u "user_profile") then
    Some (_get_user_profile user_id)
  else if str_eqb source_name (u "device_states") then
    Some (_get_device_states user_id)
  else if str_eqb source_name (u "environment") then
    Some (_get_environment_data user_id)
  else if str_eqb source_name (u "weather") then
    Some (_get_weather_data user_id)
  else if str_eqb source_name (u "time") then
    Some (_get_time_data now)
  else if str_eqb source_name (u "history") then
    Some (_get_history_data user_id)
  else None.

(** [ContextManager._get_source_data] *)
Definition _get_source_data (self : t) (r : redis) (source_name : str)
    (user_id : option str) (now : datetime) : pyval * t :=
  let cache_key := _get_cache_key source_name user_id now in
  let '(cached_data, self) := _get_cached_data self r cache_key in
  if opt_val_truthy cached_data then (default PNone cached_data, self)
  else
    let '(data, self) :=
      match read_source source_name user_id now with
      | Some data => (data, emit self (Fetch source_name))
      | None => (PDict [], self)
      end in
    let self :=
      if truthy data
      then _cache_data self r cache_key data (_get_source_ttl self source_name)
      else self in
    (data, self).

(** [sorted(sources, key=lambda x: x.priority)]: stable. *)
Fixpoint insert_source (s : ContextSource.t) (l : list ContextSource.t)
  : list ContextSource.t :=
  match l with
  | [] => [s]
  | x :: l' =>
    if (ContextSource.priority s <=? ContextSource.priority x)%Z
    then s :: l
    else x :: insert_source s l'
  end.

Definition sorted_sources (l : list ContextSource.t) : list ContextSource.t :=
  foldr insert_source [] l.

(** The loop of [get_context] over the sources: [context_data] keeps the
    truthy answers by source name.  [_get_source_data] raises nothing, so
    the [except] branch of the loop is never taken. *)
Fixpoint gather (self : t) (r : redis) (l : list ContextSource.t)
    (user_id : option str) (now : datetime)
    (context_data : list (str * pyval)) : list (str * pyval) * t :=
  match l with
  | [] => (context_data, self)
  | source :: l' =>
    if negb (ContextSource.enabled source)
    then gather self r l' user_id now context_data
    else
      let '(source_data, self) :=
        _get_source_data self r (ContextSource.name source) user_id now in
      let context_data :=
        if truthy source_data
        then dict_set (ContextSource.name source) source_data context_data
        else context_data in
      gather self r l' user_id now context_data
  end.

(** The [merged] dict of [_merge_context_data]; the last three keys are
    absent until a source sets them. *)
Module Merged.
Record t := {
  device_states : gmap str pyval;
  user_preferences : gmap str pyval;
  recent_actions : pyval;
  location : option pyval;
  weather : option pyval;
  time_of_day : option pyval
}.
End Merged.

Definition merge_one (merged : Merged.t) (source_name : str) (data : pyval)
  : result Merged.t :=
  if str_eqb source_name (u "user_profile") then
    prefs ← py_get data (u "preferences") (PDict []);
    m ← py_update (Merged.user_preferences merged) prefs;
    Ok {| Merged.device_states := Merged.device_states merged;
          Merged.user_preferences := m;
          Merged.recent_actions := Merged.recent_actions merged;
          Merged.location := Merged.location merged;
          Merged.weather := Merged.weather merged;
          Merged.time_of_day := Merged.time_of_day merged |}
  else if str_eqb source_name (u "device_states") then
    m ← py_update (Merged.device_states merged) data;
    Ok {| Merged.device_states := m;
          Merged.user_preferences := Merged.user_preferences merged;
          Merged.recent_actions := Merged.recent_actions merged;
          Merged.location := Merged.location merged;
          Merged.weather := Merged.weather merged;
          Merged.time_of_day := Merged.time_of_day merged |}
  else if str_eqb source_name (u "environment") then
    v ← py_get data (u "location") PNone;
    Ok {| Merged.device_states := Merged.device_states merged;
          Merged.user_preferences := Merged.user_preferences merged;
          Merged.recent_actions := Merged.recent_actions merged;
          Merged.location := Some v;
          Merged.weather := Merged.weather merged;
          Merged.time_of_day := Merged.time_of_day merged |}
  else if str_eqb source_name (u "weather") then
    Ok {| Merged.device_states := Merged.device_states merged;
          Merged.user_preferences := Merged.user_preferences merged;
          Merged.recent_actions := Merged.recent_actions merged;
          Merged.location := Merged.location merged;
          Merged.weather := Some data;
          Merged.time_of_day := Merged.time_of_day merged |}
  else if str_eqb source_name (u "time") then
    v ← py_get data (u "time_of_day") PNone;
    Ok {| Merged.device_states := Merged.device_states merged;
          Merged.user_preferences := Merged.user_preferences merged;
          Merged.recent_actions := Merged.recent_actions merged;
          Merged.location := Merged.location merged;
          Merged.weather := Merged.weather merged;
          Merged.time_of_day := Some v |}
  else if str_eqb source_name (u "history") then
    v ← py_get data (u "recent_actions") (PList []);
    Ok {| Merged.device_states := Merged.device_states merged;
          Merged.user_preferences := Merged.user_preferences merged;
          Merged.recent_actions := v;
          Merged.location := Merged.location merged;
          Merged.weather := Merged.weather merged;
          Merged.time_of_day := Merged.time_of_day merged |}
  else Ok merged.

Fixpoint merge_loop (merged : Merged.t) (context_data : list (str * pyval))
  : result Merged.t :=
  match context_data with
  | [] => Ok merged
  | (source_name, data) :: rest =>
    merged ← merge_one merged source_name data;
    merge_loop merged rest
  end.

(** [ContextManager._merge_context_data] *)
Definition _merge_context_data (context_data : list (str * pyval))
    (user_id : option str) : result Merged.t :=
  merge_loop {| Merged.device_states := ∅;
                Merged.user_preferences := ∅;
                Merged.recent_actions := PList [];
                Merged.location := None;
                Merged.weather := None;
                Merged.time_of_day := None |} context_data.

(** Reading a value at the type a [Context] field is annotated with; the
    dataclass checks nothing, and a value of another type is outside the
    typed model and read as absent. *)
Definition as_opt_str (v : pyval) : option str :=
  match v with
  | PStr s => Some s
  | _ => None
  end.

Definition as_opt_dict (v : pyval) : option (gmap str pyval) :=
  match v with
  | PDict d => Some (update_with ∅ d)
  | _ => None
  end.

Definition as_list (v : pyval) : list pyval :=
  match v with
  | PList l => l
  | _ => []
  end.

(** [ContextManager.get_context] *)
Definition get_context (self : t) (r : redis) (user_id : option str)
    (now : datetime) : result Context.t * t :=
  let '(context_data, self) :=
    gather self r (sorted_sources (sources self)) user_id now [] in
  (merged_data ← _merge_context_data context_data user_id;
   Ok {| Context.user_id := user_id;
         Context.location := Merged.location merged_data ≫= as_opt_str;
         Context.time_of_day := Merged.time_of_day merged_data ≫= as_opt_str;
         Context.weather := Merged.weather merged_data ≫= as_opt_dict;
         Context.device_states := Merged.device_states merged_data;
         Context.user_preferences := Merged.user_preferences merged_data;
         Context.recent_actions := as_list (Merged.recent_actions merged_data);
         Context.timestamp := now |},
   self).

(** [ContextManager.update_context] *)
Definition update_context (context : Context.t) (updates : gmap str pyval)
    (now : datetime) : result Context.t :=
  let device_states_updates := get updates (u "device_states") (PDict []) in
  let user_preferences_updates :=
    get updates (u "user_preferences") (PDict []) in
  let recent_actions_updates := get updates (u "recent_actions") (PList []) in
  merged_device_states ←
    py_update (Context.device_states context) device_states_updates;
  merged_user_preferences ←
    py_update (Context.user_preferences context) user_preferences_updates;
  recent_actions ←
    match recent_actions_updates with
    | PList l => Ok (Context.recent_actions context ++ l)
    | _ => Raise (TypeError (u "can only concatenate list to list"))
    end;
  Ok {| Context.user_id :=
          match updates !! u "user_id" with
          | Some v => as_opt_str v
          | None => Context.user_id context
          end;
        Context.location :=
          match updates !! u "location" with
          | Some v => as_opt_str v
          | None => Context.location context
          end;
        Context.time_of_day :=
          match updates !! u "time_of_day" with
          | Some v => as_opt_str v
          | None => Context.time_of_day context
          end;
        Context.weather :=
          match updates !! u "weather" with
          | Some v => as_opt_dict v
          | None => Context.weather context
          end;
        Context.device_states := merged_device_states;
        Context.user_preferences := merged_user_preferences;
        Context.recent_actions := recent_actions;
        Context.timestamp := now |}.

(** The body of the [try] of [add_action_to_history] on a truthy cached
    entry: the new content of the entry.  The list [actions] of the entry is
    appended to in place, so a [Context] built from that very list earlier
    sees the new action too; the snapshots kept here do not show it. *)
Definition appended_history (cached_data action : pyval) : result pyval :=
  actions ← py_get cached_data (u "recent_actions") (PList []);
  match actions, cached_data with
  | PList l, PDict d =>
    Ok (PDict (dict_set (u "recent_actions") (PList (last10 (l ++ [action]))) d))
  | _, _ => Raise (AttributeError (u "append"))
  end.

(** [ContextManager.add_action_to_history]; any exception of the body is
    logged and dropped. *)
Definition add_action_to_history (self : t) (r : redis) (user_id : option str)
    (action : pyval) (now : datetime) : t :=
  if negb (str_truthy user_id) then self
  else
    let cache_key := _get_cache_key (u "history") user_id now in
    let '(cached_data, self) := _get_cached_data self r cache_key in
    if opt_val_truthy cached_data then
      match appended_history (default PNone cached_data) action with
      | Ok data => _cache_data self r cache_key data 900
      | Raise _ => self
      end
    else self.

(** [ContextManager.clear_cache] *)
Definition clear_cache (self : t) (source_name : option str) : t :=
  if str_truthy source_name then
    let pat := u ":" ++ default [] source_name ++ u ":" in
    set_cache self (filter (fun kv => contains pat (fst kv) = false)
                           (_local_cache self))
  else set_cache self ∅.


(** What a call for source [n] under cache key [k] may do to the outside. *)
Definition event_of (n k : str) (e : event) : Prop :=
  e = Fetch n \/ e = RedisGet k \/ exists ttl data, e = RedisSetex k ttl data.

(** [extends n key self self']: [self'] is [self] after outside effects of
    source [n] under [key] and changes of the cache at [key] only. *)
Definition extends (n key : str) (self self' : t) : Prop :=
  sources self' = sources self /\
  (exists evs, trace self' = trace self ++ evs /\ Forall (event_of n key) evs) /\
  (forall k, k <> key -> _local_cache self' !! k = _local_cache self !! k).


(** Whether [_get_source_data] has a reader for a source name. *)
Definition known_source (n : str) : bool :=
  str_eqb n (u "user_profile") || str_eqb n (u "device_states") ||
  str_eqb n (u "environment") || str_eqb n (u "weather") ||
  str_eqb n (u "time") || str_eqb n (u "history").

(** The readings of one [get_context] that finds nothing cached: the
    enabled sources that have a reader, in the order of the loop. *)
Definition reads (l : list ContextSource.t) : list event :=
  Fetch <$> filter (fun n => known_source n = true)
              (ContextSource.name <$>
               filter (fun s => ContextSource.enabled s = true) l).

(** The order [sorted(..., key=lambda x: x.priority)] establishes. *)
Definition by_priority (a b : ContextSource.t) : Prop :=
  (ContextSource.priority a <= ContextSource.priority b)%Z.

(** *** What a Context shows of the data of a source *)






End ContextManager.

(** ** Protocol layer (protocols/base.py, mqtt.py, http.py, websocket.py) *)

Module Protocols.

Inductive ProtocolState :=
| DISCONNECTED | CONNECTING | CONNECTED | ERROR | RECONNECTING.

#[global] Instance ProtocolState_eq : EqDecision ProtocolState.
Proof. solve_decision. Defined.

Module ProtocolMessage.
Record t := {
  topic : str;
  payload : pyval;
  timestamp : datetime;
  qos : Z;
  retain : bool;
  metadata : gmap str pyval
}.
End ProtocolMessage.

(** A call received by an observer. *)
Inductive notification :=
| on_message (message : ProtocolMessage.t)
| on_state_change (state : ProtocolState) (error : option exn).

(** The base class [Protocol]: observers are told apart by identity; the
    calls they received and the successive values of [state] are recorded. *)
Module Protocol.
Record t := {
  name : str;
  state : ProtocolState;
  observers : list N;
  delivered : list (N * notification);
  states : list ProtocolState
}.

Definition __init__ (name : str) : t :=
  {| name := name; state := DISCONNECTED; observers := [];
     delivered := []; states := [] |}.

Definition add_observer (self : t) (observer : N) : t :=
  if bool_decide (observer ∈ observers self) then self
  else {| name := name self; state := state self;
          observers := observers self ++ [observer];
          delivered := delivered self; states := states self |}.

(** [list.remove]: the first occurrence. *)
Fixpoint remove_first (x : N) (l : list N) : list N :=
  match l with
  | [] => []
  | y :: l' => if (x =? y)%N then l' else y :: remove_first x l'
  end.

Definition remove_observer (self : t) (observer : N) : t :=
  {| name := name self; state := state self;
     observers := remove_first observer (observers self);
     delivered := delivered self; states := states self |}.

(** [Protocol._notify_message]: [gather(..., return_exceptions=True)] keeps
    an observer's failure from the others and from the caller. *)
Definition _notify_message (self : t) (message : ProtocolMessage.t) : t :=
  {| name := name self; state := state self; observers := observers self;
     delivered := delivered self ++
                  map (fun o => (o, on_message message)) (observers self);
     states := states self |}.

(** [Protocol._notify_state_change] *)
Definition _notify_state_change (self : t) (st : ProtocolState)
    (error : option exn) : t :=
  {| name := name self; state := st; observers := observers self;
     delivered := delivered self ++
                  map (fun o => (o, on_state_change st error)) (observers self);
     states := states self ++ [st] |}.

(** The calls one observer received, in order. *)
Definition received (self : t) (observer : N) : list notification :=
  map snd (filter (fun d => fst d = observer) (delivered self)).
End Protocol.

(** The structured answer of [send_command]. *)
Definition answer := gmap str pyval.

(** *** MQTT *)

Module MQTTClient.
Record t := {
  _client : bool;
  _connected : bool;
  _subscriptions : gmap str Z
}.

Definition __init__ : t :=
  {| _client := false; _connected := false; _subscriptions := ∅ |}.

(** [MQTTClient.connect]; [broker] is the outcome of entering the
    [aiomqtt.Client] context.  Every exception is caught here and printed. *)
Definition connect (self : t) (broker : result unit) : bool * t :=
  match broker with
  | Ok _ => (true, {| _client := true; _connected := true;
                      _subscriptions := _subscriptions self |})
  | Raise _ => (false, {| _client := true; _connected := false;
                          _subscriptions := _subscriptions self |})
  end.

(** [MQTTClient.publish]; [net] is the outcome of the client's publish. *)
Definition publish (self : t) (net : result unit) (topic : str)
    (payload : pyval) (qos : pyval) (retain : pyval) : bool :=
  if negb (_connected self) || negb (_client self) then false
  else
    let encoded :=
      match payload with
      | PDict _ | PList _ => json_serializable payload
      | _ => true
      end in
    if negb encoded then false
    else match net with
         | Ok _ => true
         | Raise _ => false
         end.
End MQTTClient.

Module MQTTProtocol.
Record t := {
  base : Protocol.t;
  _client : option MQTTClient.t;
  _listen_task : bool
}.

Definition __init__ : t :=
  {| base := Protocol.__init__ (u "mqtt"); _client := None;
     _listen_task := false |}.

Definition notify (self : t) (st : ProtocolState) (error : option exn) : t :=
  {| base := Protocol._notify_state_change (base self) st error;
     _client := _client self; _listen_task := _listen_task self |}.

(** [add_observer], inherited from [Protocol]. *)
Definition add_observer (self : t) (observer : N) : t :=
  {| base := Protocol.add_observer (base self) observer;
     _client := _client self; _listen_task := _listen_task self |}.

(** [MQTTProtocol.connect].  Nothing in the [try] block raises: the client
    has caught the failure and answers [False], so the [except] branch, the
    one that passes the exception to the observers, is not taken. *)
Definition connect (self : t) (broker : result unit) : bool * t :=
  let self := notify self CONNECTING None in
  let '(connected, client) := MQTTClient.connect MQTTClient.__init__ broker in
  let self := {| base := base self; _client := Some client;
                 _listen_task := _listen_task self |} in
  if connected then
    let self := notify self CONNECTED None in
    (true, {| base := base self; _client := _client self;
              _listen_task := true |})
  else
    (false, notify self ERROR None).

(** [MQTTProtocol.send_command] *)
Definition send_command (self : t) (net : result unit) (device_id : str)
    (command : str) (parameters : gmap str pyval) : result answer :=
  match _client self with
  | None => Raise (RuntimeError (u "Client MQTT non connecté"))
  | Some client =>
    let topic := command in
    let payload := get parameters (u "payload") (PDict []) in
    let qos := get parameters (u "qos") (PInt 0) in
    let retain := get parameters (u "retain") (PBool false) in
    let success := MQTTClient.publish client net topic payload qos retain in
    Ok (<[u "success" := PBool success]>
        (<[u "device_id" := PStr device_id]>
        (<[u "topic" := PStr topic]>
        (<[u "payload" := payload]>
        (<[u "qos" := qos]>
        {[u "retain" := retain]})))))
  end.
End MQTTProtocol.

(** *** HTTP *)

Module HTTPRequest.
Record t := {
  method : str;
  url : pyval;
  headers : pyval;
  data : pyval;
  params : pyval
}.
End HTTPRequest.

Module HTTPResponse.
Record t := {
  status_code : Z;
  headers : list (str * pyval);
  data : str
}.
End HTTPResponse.

(** [str.upper()], on Basic Latin and Latin-1 (other code points are left
    as they are). *)
Definition upper_char (c : N) : str :=
  if ((97 <=? c) && (c <=? 122))%N then [(c - 32)%N]
  else if (c =? 181)%N then [924%N]
  else if (c =? 223)%N then [83%N; 83%N]
  else if (c =? 255)%N then [376%N]
  else if ((224 <=? c) && (c <=? 254) && negb (c =? 247))%N then [(c - 32)%N]
  else [c].

Definition upper (s : str) : str := flat_map upper_char s.

Module HTTPProtocol.
Record t := {
  base : Protocol.t;
  _client : option bool
}.

(** [x or {}] *)
Definition or_empty (v : pyval) : pyval := if truthy v then v else PDict [].

(** [HTTPClient.request]; [net] is the exchange itself.  The flag is the
    wrapped client's own [_client], set by its [connect]. *)
Definition request (client : bool) (net : HTTPRequest.t -> result HTTPResponse.t)
    (req : HTTPRequest.t) : result HTTPResponse.t :=
  if negb client then Raise (RuntimeError (u "Client HTTP non connecté"))
  else net req.

(** [HTTPProtocol.send_command] *)
Definition send_command (self : t)
    (net : HTTPRequest.t -> result HTTPResponse.t) (device_id : str)
    (command : str) (parameters : gmap str pyval) : result answer :=
  match _client self with
  | None => Raise (RuntimeError (u "Client HTTP non connecté"))
  | Some client =>
    let url := get parameters (u "url") (PStr []) in
    let method := match command with [] => u "GET" | _ => upper command end in
    let headers := get parameters (u "headers") (PDict []) in
    let data := get parameters (u "data") PNone in
    let params := get parameters (u "params") (PDict []) in
    if negb (truthy url)
    then Raise (ValueError (u "L'URL est requise pour les commandes HTTP"))
    else
      let req := {| HTTPRequest.method := method;
                    HTTPRequest.url := url;
                    HTTPRequest.headers := or_empty headers;
                    HTTPRequest.data := data;
                    HTTPRequest.params := or_empty params |} in
      match request client net req with
      | Ok response =>
        Ok (<[u "status_code" := PInt (HTTPResponse.status_code response)]>
            (<[u "headers" := PDict (HTTPResponse.headers response)]>
            (<[u "data" := PStr (HTTPResponse.data response)]>
            (<[u "device_id" := PStr device_id]>
            {[u "command" := PStr command]}))))
      | Raise e =>
        Raise (RuntimeError
                 (u "Erreur lors de l'exécution de la commande HTTP"))
      end
  end.
End HTTPProtocol.

(** *** WebSocket *)

Module WebSocketClient.
Record t := { _connection : bool }.

(** [WebSocketClient.send]; [net] is the outcome of the connection's send. *)
Definition send (self : t) (net : result unit) : bool :=
  if negb (_connection self) then false
  else match net with
       | Ok _ => true
       | Raise _ => false
       end.

(** [WebSocketClient.receive]; [net] is the outcome of [recv], decoded. *)
Definition receive (self : t) (net : result str) : pyval :=
  if negb (_connection self) then PNone
  else match net with
       | Ok data => PStr data
       | Raise _ => PNone
       end.
End WebSocketClient.

Module WebSocketProtocol.
Record t := {
  base : Protocol.t;
  url : str;
  _client : option WebSocketClient.t
}.

(** [WebSocketProtocol.send_command]; [json.dumps] of the envelope is
    outside any [try]. *)
Definition send_command (self : t) (net_send : result unit)
    (net_recv : result str) (device_id : str) (command : str)
    (parameters : gmap str pyval) : result answer :=
  match _client self with
  | None => Raise (RuntimeError (u "Client WebSocket non connecté"))
  | Some client =>
    if negb (json_serializable (dict_val parameters))
    then Raise (TypeError (u "Object is not JSON serializable"))
    else
      let success := WebSocketClient.send client net_send in
      if success then
        let wait_for_response :=
          get parameters (u "wait_for_response") (PBool false) in
        if truthy wait_for_response then
          let response := WebSocketClient.receive client net_recv in
          Ok (<[u "success" := PBool true]>
              (<[u "device_id" := PStr device_id]>
              (<[u "command" := PStr command]>
              {[u "response" := response]})))
        else
          Ok (<[u "success" := PBool true]>
              (<[u "device_id" := PStr device_id]>
              {[u "command" := PStr command]}))
      else
        Ok (<[u "success" := PBool false]>
            (<[u "device_id" := PStr device_id]>
            (<[u "command" := PStr command]>
            {[u "error" := PStr (u "Échec de l'envoi du message WebSocket")]})))
  end.
End WebSocketProtocol.

End Protocols.

(** ** Regular expressions (the part of [re] the parser uses)

    Patterns are matched by backtracking, alternatives left to right,
    [IGNORECASE] on literals.  Character classes and case mapping are given
    on Basic Latin and Latin-1, where every character of the parser's tables
    lies; decimal digits of other scripts are not counted as [\d]. *)

Module Re.

Local Open Scope nat_scope.

(** [str.isspace], which is also [\s]. *)
Definition is_space (c : N) : bool :=
  ((9 <=? c) && (c <=? 13) || (28 <=? c) && (c <=? 32) || (c =? 133) ||
   (c =? 160) || (c =? 5760) || (8192 <=? c) && (c <=? 8202) ||
   (c =? 8232) || (c =? 8233) || (c =? 8239) || (c =? 8287) ||
   (c =? 12288))%N.

(** [\d] *)
Definition is_digit (c : N) : bool := ((48 <=? c) && (c <=? 57))%N.

(** [\w]: letters, digits and the underscore. *)
Definition is_word (c : N) : bool :=
  (is_digit c || (65 <=? c) && (c <=? 90) || (97 <=? c) && (c <=? 122) ||
   (c =? 95) || (c =? 170) || (c =? 178) || (c =? 179) || (c =? 181) ||
   (c =? 185) || (c =? 186) || (188 <=? c) && (c <=? 190) ||
   (192 <=? c) && (c <=? 255) && negb (c =? 215) && negb (c =? 247) ||
   (256 <=? c) && negb (is_space c))%N.

(** [str.lower()], one code point at a time. *)
Definition lower_char (c : N) : N :=
  if ((65 <=? c) && (c <=? 90))%N then (c + 32)%N
  else if ((192 <=? c) && (c <=? 222) && negb (c =? 215))%N then (c + 32)%N
  else c.

Definition lower (s : str) : str := map lower_char s.

(** [str.strip()] *)
Fixpoint lstrip (s : str) : str :=
  match s with
  | c :: s' => if is_space c then lstrip s' else s
  | [] => []
  end.

Definition strip (s : str) : str := rev (lstrip (rev (lstrip s))).


Inductive cls := Space | Digit | Dot.

Definition in_cls (c : cls) (ch : N) : bool :=
  match c with
  | Space => is_space ch
  | Digit => is_digit ch
  | Dot => negb (ch =? 10)%N
  end.

Inductive regex :=
| Lit (s : str)                          (* literal text *)
| Chr (c : cls)                          (* one character of a class *)
| Rep (c : cls) (min : nat) (lazy : bool) (* [c*], [c+], [c+?] *)
| Seq (r1 r2 : regex)
| Alt (r1 r2 : regex)
| Grp (i : nat) (r : regex)              (* capturing group number [i] *)
| Eos                                    (* [$] *)
| Bnd.                                   (* [\b] *)

(** Position in the subject: the character before it and what is left; the
    groups captured so far. *)
Definition caps := list (nat * str).
Definition pos := (option N * str)%type.
Definition outcome := (pos * caps)%type.

Fixpoint group (i : nat) (c : caps) : str :=
  match c with
  | [] => []
  | (j, s) :: c' => if (i =? j)%nat then s else group i c'
  end.

Definition ci_eq (a b : N) : bool := (lower_char a =? lower_char b)%N.

Fixpoint starts_with_ci (p s : str) : bool :=
  match p, s with
  | [], _ => true
  | _ :: _, [] => false
  | a :: p', b :: s' => ci_eq a b && starts_with_ci p' s'
  end.

(** After [n] characters. *)
Fixpoint advance (n : nat) (p : pos) : pos :=
  match n, p with
  | S n', (_, c :: s') => advance n' (Some c, s')
  | _, _ => p
  end.

(** Repetition of a class, greedy or lazy, at least [min] times. *)
Fixpoint rep (c : cls) (lazy : bool) (min : nat) (prev : option N) (s : str)
    (k : pos -> option outcome) {struct s} : option outcome :=
  let stop := match min with O => k (prev, s) | S _ => None end in
  match s with
  | ch :: s' =>
    if in_cls c ch then
      let more := rep c lazy (pred min) (Some ch) s' k in
      if lazy
      then match stop with Some r => Some r | None => more end
      else match more with Some r => Some r | None => stop end
    else stop
  | [] => stop
  end.

Definition word_at (o : option N) : bool :=
  match o with
  | Some c => is_word c
  | None => false
  end.

(** Matching at a position, with the rest of the pattern as continuation. *)
Fixpoint m (r : regex) (p : pos) (c : caps)
    (k : pos -> caps -> option outcome) : option outcome :=
  match r with
  | Lit l =>
    if starts_with_ci l (snd p) then k (advance (length l) p) c else None
  | Chr cl =>
    match snd p with
    | ch :: s' => if in_cls cl ch then k (Some ch, s') c else None
    | [] => None
    end
  | Rep cl mn lazy => rep cl lazy mn (fst p) (snd p) (fun p' => k p' c)
  | Seq r1 r2 => m r1 p c (fun p' c' => m r2 p' c' k)
  | Alt r1 r2 =>
    match m r1 p c k with
    | Some o => Some o
    | None => m r2 p c k
    end
  | Grp i r1 =>
    m r1 p c (fun p' c' =>
      k p' ((i, take (length (snd p) - length (snd p')) (snd p)) :: c'))
  | Eos =>
    match snd p with
    | [] => k p c
    | [ch] => if (ch =? 10)%N then k p c else None
    | _ => None
    end
  | Bnd =>
    if xorb (word_at (fst p)) (word_at (head (snd p))) then k p c else None
  end.

Definition match_at (r : regex) (p : pos) : option outcome :=
  m r p [] (fun p' c' => Some (p', c')).

(** Leftmost match at or after a position: where it starts and its outcome. *)
Fixpoint search_from (r : regex) (prev : option N) (s : str)
  : option (str * outcome) :=
  match match_at r (prev, s) with
  | Some o => Some (s, o)
  | None =>
    match s with
    | [] => None
    | ch :: s' => search_from r (Some ch) s'
    end
  end.

(** [re.search(pattern, text, re.IGNORECASE)] as a condition. *)
Definition search (r : regex) (text : str) : bool :=
  match search_from r None text with
  | Some _ => true
  | None => false
  end.

(** Number of groups of a pattern. *)
Fixpoint ngroups (r : regex) : nat :=
  match r with
  | Seq r1 r2 | Alt r1 r2 => ngroups r1 + ngroups r2
  | Grp _ r1 => S (ngroups r1)
  | _ => 0
  end.

(** An element of the list [re.findall] returns: the whole match, the only
    group, or the tuple of the groups. *)
Inductive item :=
| Single (s : str)
| Tuple (l : list str).

Definition item_of (r : regex) (start : str) (o : outcome) : item :=
  match ngroups r with
  | O => Single (take (length start - length (snd (fst o))) start)
  | S O => Single (group 1 (snd o))
  | n => Tuple (map (fun i => group i (snd o)) (seq 1 n))
  end.

(** [re.findall(pattern, text, re.IGNORECASE)]: the matches from left to
    right, each search resuming where the last match ended (one character
    further after an empty match; no pattern of the parser has one). *)
Fixpoint findall_from (fuel : nat) (r : regex) (prev : option N) (s : str)
  : list item :=
  match fuel with
  | O => []
  | S fuel' =>
    match search_from r prev s with
    | None => []
    | Some (start, o) =>
      let '(prev', s') := fst o in
      item_of r start o ::
      (if (length s' <? length start)%nat
       then findall_from fuel' r prev' s'
       else match s' with
            | [] => []
            | ch :: s'' => findall_from fuel' r (Some ch) s''
            end)
    end
  end.

Definition findall (r : regex) (text : str) : list item :=
  findall_from (S (length text)) r None text.

(** [(w1|w2|...)] without the parentheses, [\s+], [\s*], [\d+], [\d*], [.+?]. *)
Fixpoint alts (ws : list string) : regex :=
  match ws with
  | [] => Lit []
  | [w] => Lit (u w)
  | w :: ws' => Alt (Lit (u w)) (alts ws')
  end.


Definition sp1 := Rep Space 1 false.
Definition sp0 := Rep Space 0 false.
Definition d1 := Rep Digit 1 false.
Definition d0 := Rep Digit 0 false.
Definition any1_lazy := Rep Dot 1 true.

Fixpoint seqs (rs : list regex) : regex :=
  match rs with
  | [] => Lit []
  | [r] => r
  | r :: rs' => Seq r (seqs rs')
  end.

End Re.

(** ** IntentParser (intent_parser.py) *)

Module IntentParser.

Import Re.
Local Open Scope Q_scope.

(** [(w1|w2|...)\s+(.+?)(\s|$)] and the variant ending in [(\s|\?)]. *)
Definition head_then_word (ws : list string) : regex :=
  seqs [Grp 1 (alts ws); sp1; Grp 2 any1_lazy; Grp 3 (Alt (Chr Space) Eos)].

Definition head_then_question (ws : list string) : regex :=
  seqs [Grp 1 (alts ws); sp1; Grp 2 any1_lazy;
        Grp 3 (Alt (Chr Space) (Lit (u "?")))].

(** [self.patterns], in insertion order. *)
Definition patterns : list (IntentType * list regex) :=
  [ (CONTROL,
     [ head_then_word ["allume"; "éteins"; "active"; "désactive"; "mets";
                       "change"; "règle"; "ajuste"]%string;
       head_then_word ["lumière"; "lampe"; "éclairage"; "interrupteur"]%string;
       head_then_word ["augmente"; "diminue"; "monte"; "descends"]%string ]);
    (QUERY,
     [ head_then_word ["combien"; "quelle"; "quel"; "quelles"; "quels"; "état";
                       "statut"; "valeur"]%string;
       head_then_word ["température"; "humidité"; "luminosité";
                       "pression"]%string;
       head_then_question ["est-ce que"; "est ce que"; "est-ce";
                           "est ce"]%string ]);
    (SCENE,
     [ head_then_word ["scène"; "mode"; "ambiance"; "atmosphère"]%string;
       head_then_word ["cinéma"; "lecture"; "dîner"; "romantique"; "travail";
                       "relax"]%string;
       head_then_word ["mets"; "active"; "lance"]%string ]);
    (AUTOMATION,
     [ head_then_word ["quand"; "si"; "lorsque"; "dès que"]%string;
       head_then_word ["automatise"; "programme"; "planifie"]%string;
       head_then_word ["routine"; "automatisation"; "scénario"]%string ]) ].

Definition units_alts : regex :=
  alts ["pourcent"; "%"; "degrés"; "°C"; "°F"; "lux"; "hPa"]%string.

(** [self.entity_patterns], in insertion order. *)
Definition entity_patterns : list (str * list regex) :=
  [ (u "device",
     [ Grp 1 (alts ["lumière"; "lampe"; "éclairage"; "interrupteur"; "prise";
                    "capteur"; "thermostat"]%string);
       Grp 1 (alts ["salon"; "cuisine"; "chambre"; "salle de bain"; "bureau";
                    "couloir"; "jardin"]%string) ]);
    (u "action",
     [ Grp 1 (alts ["allume"; "éteins"; "active"; "désactive"; "mets";
                    "change"]%string);
       Grp 1 (alts ["augmente"; "diminue"; "monte"; "descends"; "règle";
                    "ajuste"]%string) ]);
    (u "value",
     [ seqs [Grp 1 d1; sp0; Grp 2 units_alts];
       Grp 1 (alts ["chaud"; "froid"; "clair"; "sombre"; "fort"; "faible";
                    "haut"; "bas"]%string) ]);
    (u "time",
     [ Grp 1 (alts ["maintenant"; "tout de suite"; "immédiatement";
                    "plus tard"]%string);
       Grp 1 (seqs [Lit (u "dans"); sp1; d1; sp1;
                    Grp 2 (alts ["minutes"; "heures"; "jours"]%string)]);
       Grp 1 (seqs [Lit (u "à"); sp1; d1; sp0; Lit (u "h"); sp0; d0]) ]) ].

(** [keyword_mapping] of [_detect_intent_type], in insertion order. *)
Definition keyword_mapping : list (IntentType * list string) :=
  [ (CONTROL, ["allume"; "éteins"; "active"; "désactive"; "mets";
               "change"]%string);
    (QUERY, ["combien"; "quelle"; "quel"; "état"; "statut"; "valeur"]%string);
    (SCENE, ["scène"; "mode"; "ambiance"; "atmosphère"; "cinéma"]%string);
    (AUTOMATION, ["quand"; "si"; "automatise"; "programme";
                  "routine"]%string);
    (ROUTINE, ["routine"; "habitude"; "quotidien"; "matin"; "soir"]%string);
    (DIAGNOSTIC, ["problème"; "erreur"; "ne marche pas";
                  "dysfonctionne"]%string) ].

(** The [scores] dict, by intent type in the order of the enum. *)
Definition scores := list (IntentType * Q).

(** [scores[intent_type] += d] *)
Definition bump (t : IntentType) (d : Q) (sc : scores) : scores :=
  map (fun e => if bool_decide (fst e = t) then (fst e, snd e + d) else e) sc.


(** The two scoring loops: [+0.3] for each pattern found, [+0.2] for each
    keyword contained. *)
Definition pattern_scores (text : str) (sc : scores) : scores :=
  foldl (fun sc e =>
           foldl (fun sc pattern =>
                    if search pattern text then bump (fst e) (3 # 10) sc
                    else sc) sc (snd e))
        sc patterns.

Definition keyword_scores (text : str) (sc : scores) : scores :=
  foldl (fun sc e =>
           foldl (fun sc keyword =>
                    if contains (u keyword) text then bump (fst e) (2 # 10) sc
                    else sc) sc (snd e))
        sc keyword_mapping.

Definition raw_scores (text : str) : scores :=
  keyword_scores text
    (pattern_scores text (map (fun t => (t, 0)) IntentType_members)).

(** The normalisation step. *)
Definition total (sc : scores) : Q := foldl (fun acc e => acc + snd e) 0 sc.

Definition normalise (sc : scores) : scores :=
  let total_score := total sc in
  if Qltb 0 total_score
  then map (fun e => (fst e, snd e / total_score)) sc
  else sc.

(** [max(scores.items(), key=lambda x: x[1])]: the first entry whose score
    no later entry exceeds. *)
Fixpoint best_loop (best : IntentType * Q) (l : scores) : IntentType * Q :=
  match l with
  | [] => best
  | e :: l' => best_loop (if Qltb (snd best) (snd e) then e else best) l'
  end.

Definition best_of (sc : scores) : IntentType * Q :=
  match sc with
  | [] => (CONTROL, 0)
  | e :: l => best_loop e l
  end.

(** [IntentParser._detect_intent_type] *)
Definition _detect_intent_type (text : str) : IntentType * Q :=
  let best_type := best_of (normalise (raw_scores text)) in
  if Qltb (snd best_type) (1 # 10) then (CONTROL, 1 # 10) else best_type.

(** The value kept for a match: the first non-empty group of a tuple. *)
Definition match_value (it : item) : str :=
  match it with
  | Single s => s
  | Tuple l => default [] (find (fun g => negb (bool_decide (g = []))) l)
  end.

(** The inner loops of [_extract_entities] for one category. *)
Definition add_matches (entity_values : list str) (matches : list item)
  : list str :=
  foldl (fun vals it =>
           let value := match_value it in
           if negb (bool_decide (value = [])) &&
              negb (bool_decide (value ∈ vals))
           then vals ++ [value] else vals)
        entity_values matches.

Definition category_values (text : str) (pats : list regex) : list str :=
  foldl (fun vals pattern => add_matches vals (findall pattern text)) [] pats.

(** One turn of the loop of [_extract_entities] over the categories. *)
Definition category_step (text : str) (entities : gmap str (list pyval))
    (e : str * list regex) : gmap str (list pyval) :=
  let entity_values := category_values text (snd e) in
  match entity_values with
  | [] => entities
  | _ => <[fst e := map PStr entity_values]> entities
  end.

(** [int(v)] on a run of digits. *)
Definition int_of (v : str) : Z :=
  foldl (fun acc c => (acc * 10 + (Z.of_N c - 48))%Z) 0%Z v.

(** [IntentParser._extract_entities] *)
Definition _extract_entities (text : str) : gmap str (list pyval) :=
  let entities := foldl (category_step text) ∅ entity_patterns in
  let numeric_values := findall (seqs [Bnd; d1; Bnd]) text in
  let entities :=
    match numeric_values with
    | [] => entities
    | _ => <[u "numeric" :=
               map (fun it => PInt (int_of (match_value it))) numeric_values]>
           entities
    end in
  let units := findall (Grp 1 units_alts) text in
  match units with
  | [] => entities
  | _ => <[u "units" := map (fun it => PStr (match_value it)) units]> entities
  end.

(** [IntentParser.parse] *)
Definition parse (text : str) (user_id : option str) (now : datetime)
  : Intent.t :=
  let text_lower := strip (lower text) in
  let '(intent_type, confidence) := _detect_intent_type text_lower in
  let entities := _extract_entities text_lower in
  {| Intent.type := intent_type;
     Intent.text := text;
     Intent.confidence := confidence;
     Intent.entities := entities;
     Intent.timestamp := now |}.



(** A suggested action.  The description is kept as the fixed text and the
    value the f-string inserts after it (the empty string when it inserts
    none). *)
Module Suggestion.
Record t := {
  action : str;
  description : str * pyval;
  parameters : option (gmap str pyval);
  confidence : Q
}.
End Suggestion.

(** [intent.entities.get('device', ["l'appareil"])[0]]; [None] is the
    [IndexError] of an empty list.  (The backslash the source writes inside
    the f-string expression is accepted by Python 3.12 and later.) *)
Definition first_device (intent : Intent.t) : option pyval :=
  head (get (Intent.entities intent) (u "device") [PStr (u "l'appareil")]).

(** The loop of [get_suggested_actions] over the actions of a CONTROL
    intent. *)
Fixpoint control_suggestions (intent : Intent.t) (actions : list pyval)
    (suggestions : list Suggestion.t) : option (list Suggestion.t) :=
  match actions with
  | [] => Some suggestions
  | action :: rest =>
    if py_in_list action [PStr (u "allume"); PStr (u "active")] then
      device ← first_device intent;
      control_suggestions intent rest
        (suggestions ++
         [{| Suggestion.action := u "turn_on";
             Suggestion.description := (u "Allumer ", device);
             Suggestion.parameters := None;
             Suggestion.confidence := Intent.confidence intent |}])
    else if py_in_list action [PStr (u "éteins"); PStr (u "désactive")] then
      device ← first_device intent;
      control_suggestions intent rest
        (suggestions ++
         [{| Suggestion.action := u "turn_off";
             Suggestion.description := (u "Éteindre ", device);
             Suggestion.parameters := None;
             Suggestion.confidence := Intent.confidence intent |}])
    else control_suggestions intent rest suggestions
  end.

(** [IntentParser.get_suggested_actions] *)
Definition get_suggested_actions (intent : Intent.t)
  : option (list Suggestion.t) :=
  match Intent.type intent with
  | CONTROL =>
    match Intent.entities intent !! u "action" with
    | Some actions => control_suggestions intent actions []
    | None => Some []
    end
  | QUERY =>
    Some [{| Suggestion.action := u "query_status";
             Suggestion.description :=
               (u "Récupérer le statut des appareils", PStr []);
             Suggestion.parameters := None;
             Suggestion.confidence := Intent.confidence intent |}]
  | SCENE =>
    match Intent.entities intent !! u "scene" with
    | Some scenes =>
      Some (map (fun scene =>
                   {| Suggestion.action := u "activate_scene";
                      Suggestion.description := (u "Activer la scène ", scene);
                      Suggestion.parameters := Some {[u "scene_name" := scene]};
                      Suggestion.confidence := Intent.confidence intent |})
                scenes)
    | None => Some []
    end
  | _ => Some []
  end.


(** The keys [_extract_entities] can set. *)
Definition entity_keys : list str :=
  [u "device"; u "action"; u "value"; u "time"; u "numeric"; u "units"].

(** What every suggestion made for a parsed text satisfies. *)
Definition suggestion_ok (intent : Intent.t) (s : Suggestion.t) : Prop :=
  Suggestion.action s ∈ [u "turn_on"; u "turn_off"; u "query_status"] /\
  Suggestion.confidence s = Intent.confidence intent.

End IntentParser.

(** ** The action-to-payload table as the specification gives it *)

Module CommandTable.

(** The fixed table: one payload per known action, [{}] for any other. *)
Definition payload_of (action : str) (parameters : gmap str pyval)
  : gmap str pyval :=
  if decide (action = u "turn_on") then {[u "on" := PBool true]}
  else if decide (action = u "turn_off") then {[u "on" := PBool false]}
  else if decide (action = u "set_brightness") then
    {[u "bri" := default (PInt 100) (parameters !! u "brightness")]}
  else if decide (action = u "set_color") then
    <[u "hue" := default (PInt 0) (parameters !! u "hue")]>
    {[u "sat" := default (PInt 100) (parameters !! u "saturation")]}
  else if decide (action = u "query_status") then
    {[u "query" := PStr (u "status")]}
  else ∅.

End CommandTable.

(** ** Further operations of the same modules *)

(** *** DecisionEngine.evaluate_decision_quality *)

Module DecisionQuality.

Local Open Scope Q_scope.

(** A value used in float arithmetic: a number, or a [TypeError]. *)
Definition as_number (v : pyval) : result Q :=
  match num_view v with
  | Some q => Ok q
  | None => Raise (TypeError (u "unsupported operand type(s)"))
  end.

(** The body of the [try]: the adjusted score. *)
Definition quality_score (decision : Decision.t) (outcome : gmap str pyval)
  : result Q :=
  let success_factor :=
    if truthy (get outcome (u "success") (PBool false)) then 1 else 0 in
  user_satisfaction ←
    as_number (get outcome (u "user_satisfaction") (PFloat (5 # 10)));
  efficiency ← as_number (get outcome (u "efficiency") (PFloat (5 # 10)));
  energy_saved ← as_number (get outcome (u "energy_saved") (PFloat 0));
  let score :=
    success_factor * (4 # 10) +
    user_satisfaction * (3 # 10) +
    efficiency * (2 # 10) +
    py_min energy_saved 1 * (1 # 10) in
  Ok (score * Decision.confidence decision).

(** [DecisionEngine.evaluate_decision_quality]: any exception of the body
    is logged and answered by 0.5. *)
Definition evaluate_decision_quality (decision : Decision.t)
    (outcome : gmap str pyval) : Q :=
  match quality_score decision outcome with
  | Ok adjusted_score => adjusted_score
  | Raise _ => 5 # 10
  end.

(** A number between 0 and 1. *)
Definition in_unit (v : pyval) : Prop :=
  exists q, num_view v = Some q /\ 0 <= q /\ q <= 1.

End DecisionQuality.

(** *** AIService.make_decision and its fallback *)

Module AIServiceCalls.

Import DecisionEngine.
Local Open Scope Q_scope.

(** [str(e)] *)
Definition exn_msg (e : exn) : str :=
  match e with
  | RuntimeError m | ValueError m | TypeError m | AttributeError m
  | HTTPError m | OSError m => m
  end.

(** [AIService._fallback_decision]; the time stamp it writes is read back
    by [make_decision] as the same instant. *)
Definition _fallback_decision (intent : Intent.t) (context : Context.t)
    (available_actions : list pyval) (now : datetime) : api_response :=
  let text_lower := Re.lower (Intent.text intent) in
  let '(action, target, reasoning) :=
    if bool_decide (Intent.type intent = CONTROL) &&
       contains (u "light") text_lower
    then
      (if contains (u "allume") text_lower then u "turn_on" else u "turn_off",
       u "living_room_light",
       u "Contrôle basique de lumière basé sur l'intention")
    else if bool_decide (Intent.type intent = QUERY) then
      (u "query_status", u "all_devices", u "Requête de statut des devices")
    else (u "noop", [], u "Aucune action appropriée trouvée") in
  {| a_action := Some action;
     a_target := Some target;
     a_parameters := Some ∅;
     a_confidence := Some (6 # 10);
     a_reasoning := Some reasoning;
     a_alternatives := Some [];
     a_timestamp := Some (Ok now) |}.

(** [AIService._call_decision_api]: an [httpx.HTTPError] is answered by
    the local fallback, any other exception goes up. *)
Definition _call_decision_api (post : delegate) (intent : Intent.t)
    (context : Context.t) (available_actions : list pyval) (now : datetime)
  : result api_response :=
  let body := {| p_intent := intent; p_context := context;
                 p_available_actions := available_actions;
                 p_timestamp := now |} in
  match post body with
  | Ok data => Ok data
  | Raise (HTTPError _) =>
    Ok (_fallback_decision intent context available_actions now)
  | Raise e => Raise e
  end.

(** [AIService.make_decision] *)
Definition make_decision (post : delegate) (intent : Intent.t)
    (context : Context.t) (available_actions : list pyval) (now : datetime)
  : Decision.t :=
  let attempt :=
    decision_data ← _call_decision_api post intent context
                                       available_actions now;
    decision_of_response decision_data now in
  match attempt with
  | Ok decision => decision
  | Raise e =>
    {| Decision.action := u "noop";
       Decision.target := [];
       Decision.parameters := ∅;
       Decision.confidence := 1 # 10;
       Decision.reasoning := u "Erreur: " ++ exn_msg e;
       Decision.alternatives := [];
       Decision.timestamp := now |}
  end.

(** A device manager: its [set_device_state], when it has one. *)
Definition device_manager := option (str -> gmap str pyval -> result pyval).

(** The outcome of [execute_decision]: the entries of the dict it returns
    (the decision and the result of the execution), and the calls the
    device manager received. *)
Module Execution.
Record t := {
  decision : Decision.t;
  execution_result : pyval;
  timestamp : datetime;
  sent : list (str * gmap str pyval)
}.
End Execution.

Definition error_result (message : str) : pyval :=
  PDict [(u "status", PStr (u "error")); (u "message", PStr message)].

(** [AIService.execute_decision]: an exception of the device manager is
    caught and reported in the result. *)
Definition execute_decision (decision : Decision.t)
    (manager : device_manager) (now : datetime) : Execution.t :=
  let command := _decision_to_command decision in
  match manager with
  | Some set_device_state =>
    {| Execution.decision := decision;
       Execution.execution_result :=
         match set_device_state (Decision.target decision) command with
         | Ok result => result
         | Raise e => error_result (exn_msg e)
         end;
       Execution.timestamp := now;
       Execution.sent := [(Decision.target decision, command)] |}
  | None =>
    {| Execution.decision := decision;
       Execution.execution_result :=
         error_result (u "Device manager non compatible");
       Execution.timestamp := now;
       Execution.sent := [] |}
  end.

(** Whether a rule with no entity and no context entry accepts a type. *)
Definition accepts_type (ty : IntentType) (rule : DecisionRule.t) : bool :=
  negb match DecisionRule.condition rule !! u "intent_type" with
       | Some v => type_differs ty v
       | None => false
       end.

(** The action and the target the built-in rules lead to, by intent type. *)
Definition decided_by_type (t : IntentType) : str * str :=
  match t with
  | CONTROL => (u "turn_on", u "living_room_light")
  | QUERY => (u "query_status", u "all_devices")
  | SCENE => (u "activate_scene", u "living_room")
  | AUTOMATION => (u "create_automation", u "system")
  | DIAGNOSTIC => (u "diagnose", u "system")
  | ROUTINE => (u "noop", [])
  end.

End AIServiceCalls.

(** *** Connections, publications and subscriptions *)

Module Transport.

Import Protocols.

(** [MQTTClient.disconnect]; a failure on leaving the client context is
    printed, and the [finally] clause runs either way. *)
Definition client_disconnect (self : MQTTClient.t) (net : result unit)
  : MQTTClient.t :=
  if MQTTClient._client self && MQTTClient._connected self
  then {| MQTTClient._client := false; MQTTClient._connected := false;
          MQTTClient._subscriptions := MQTTClient._subscriptions self |}
  else self.

(** [MQTTClient.subscribe]; [net] is the outcome of the client's call. *)
Definition client_subscribe (self : MQTTClient.t) (net : result unit)
    (topic : str) (qos : Z) : bool * MQTTClient.t :=
  if negb (MQTTClient._connected self) || negb (MQTTClient._client self)
  then (false, self)
  else match net with
       | Ok _ =>
         (true, {| MQTTClient._client := MQTTClient._client self;
                   MQTTClient._connected := MQTTClient._connected self;
                   MQTTClient._subscriptions :=
                     <[topic := qos]> (MQTTClient._subscriptions self) |})
       | Raise _ => (false, self)
       end.

(** [MQTTClient.unsubscribe] *)
Definition client_unsubscribe (self : MQTTClient.t) (net : result unit)
    (topic : str) : bool * MQTTClient.t :=
  if negb (MQTTClient._connected self) || negb (MQTTClient._client self)
  then (false, self)
  else match net with
       | Ok _ =>
         (true, {| MQTTClient._client := MQTTClient._client self;
                   MQTTClient._connected := MQTTClient._connected self;
                   MQTTClient._subscriptions :=
                     delete topic (MQTTClient._subscriptions self) |})
       | Raise _ => (false, self)
       end.

Definition set_client (self : MQTTProtocol.t) (c : option MQTTClient.t)
  : MQTTProtocol.t :=
  {| MQTTProtocol.base := MQTTProtocol.base self;
     MQTTProtocol._client := c;
     MQTTProtocol._listen_task := MQTTProtocol._listen_task self |}.

(** [MQTTProtocol.disconnect]: the listen task is cancelled and awaited,
    the client closed and dropped, the observers told. *)
Definition disconnect (self : MQTTProtocol.t) (net : result unit)
  : MQTTProtocol.t :=
  let self := {| MQTTProtocol.base := MQTTProtocol.base self;
                 MQTTProtocol._client := MQTTProtocol._client self;
                 MQTTProtocol._listen_task := false |} in
  let self :=
    match MQTTProtocol._client self with
    | Some client =>
      let closed := client_disconnect client net in
      set_client self None
    | None => self
    end in
  MQTTProtocol.notify self DISCONNECTED None.

(** [MQTTProtocol.publish] *)
Definition publish (self : MQTTProtocol.t) (net : result unit) (topic : str)
    (payload : pyval) (qos : Z) (retain : bool) : bool :=
  match MQTTProtocol._client self with
  | None => false
  | Some client =>
    MQTTClient.publish client net topic payload (PInt qos) (PBool retain)
  end.

(** [MQTTProtocol.subscribe] *)
Definition subscribe (self : MQTTProtocol.t) (net : result unit) (topic : str)
    (qos : Z) : bool * MQTTProtocol.t :=
  match MQTTProtocol._client self with
  | None => (false, self)
  | Some client =>
    let '(ok, client) := client_subscribe client net topic qos in
    (ok, set_client self (Some client))
  end.

(** [MQTTProtocol.unsubscribe] *)
Definition unsubscribe (self : MQTTProtocol.t) (net : result unit)
    (topic : str) : bool * MQTTProtocol.t :=
  match MQTTProtocol._client self with
  | None => (false, self)
  | Some client =>
    let '(ok, client) := client_unsubscribe client net topic in
    (ok, set_client self (Some client))
  end.

(** The subscriptions the protocol's client holds. *)
Definition subscriptions (self : MQTTProtocol.t) : gmap str Z :=
  match MQTTProtocol._client self with
  | Some client => MQTTClient._subscriptions client
  | None => ∅
  end.

Definition http_notify (self : HTTPProtocol.t) (st : ProtocolState)
    (error : option exn) : HTTPProtocol.t :=
  {| HTTPProtocol.base :=
       Protocol._notify_state_change (HTTPProtocol.base self) st error;
     HTTPProtocol._client := HTTPProtocol._client self |}.

(** [HTTPProtocol.connect]; [setup] is the outcome of importing [httpx] and
    building its client, the only thing [HTTPClient.connect] does before it
    answers [True].  A failure there is not caught by the client: it reaches
    the [except] branch, which hands it to the observers. *)
Definition http_connect (self : HTTPProtocol.t) (setup : result unit)
  : bool * HTTPProtocol.t :=
  let self := http_notify self CONNECTING None in
  match setup with
  | Ok _ =>
    let self := {| HTTPProtocol.base := HTTPProtocol.base self;
                   HTTPProtocol._client := Some true |} in
    (true, http_notify self CONNECTED None)
  | Raise e =>
    let self := {| HTTPProtocol.base := HTTPProtocol.base self;
                   HTTPProtocol._client := Some false |} in
    (false, http_notify self ERROR (Some e))
  end.

(** [HTTPProtocol.publish]: a POST to the topic taken as URL. *)
Definition http_publish (self : HTTPProtocol.t)
    (net : HTTPRequest.t -> result HTTPResponse.t) (topic : str)
    (payload : pyval) : bool :=
  match HTTPProtocol._client self with
  | None => false
  | Some client =>
    let req := {| HTTPRequest.method := u "POST";
                  HTTPRequest.url := PStr topic;
                  HTTPRequest.headers := PDict [];
                  HTTPRequest.data := payload;
                  HTTPRequest.params := PDict [] |} in
    match HTTPProtocol.request client net req with
    | Ok response => (HTTPResponse.status_code response <? 400)%Z
    | Raise _ => false
    end
  end.

End Transport.

(** ** Sample inputs *)

Module Samples.

Import DecisionEngine.

Definition t0 : datetime :=
  {| year := 2025; month := 2; day := 14; hour := 20; minute := 30;
     second := 0; weekday := 4 |}.

(** Later in the same hour. *)
Definition t1 : datetime :=
  {| year := 2025; month := 2; day := 14; hour := 20; minute := 59;
     second := 30; weekday := 4 |}.

(** A context with nothing set. *)
Definition ctx0 : Context.t :=
  {| Context.user_id := None; Context.location := None;
     Context.time_of_day := None; Context.weather := None;
     Context.device_states := ∅; Context.user_preferences := ∅;
     Context.recent_actions := []; Context.timestamp := t0 |}.

(** The parser's reading of a request to switch the light off. *)
Definition intent_eteins : Intent.t :=
  IntentParser.parse (u "éteins la lumière du salon") None t0.

(** The same request at another confidence. *)
Definition intent_eteins_low : Intent.t :=
  {| Intent.type := Intent.type intent_eteins;
     Intent.text := Intent.text intent_eteins;
     Intent.confidence := 1 # 2;
     Intent.entities := Intent.entities intent_eteins;
     Intent.timestamp := t0 |}.

(** Two requests that differ after their twentieth character. *)
Definition intent_salon : Intent.t :=
  IntentParser.parse (u "allume la lumière du salon") None t0.

(** The first rule of the engine, [turn_on]. *)
Definition turn_on_rule : DecisionRule.t :=
  match _initialize_rules with
  | r :: _ => r
  | [] => {| DecisionRule.condition := ∅; DecisionRule.action := [];
             DecisionRule.target := []; DecisionRule.parameters := ∅;
             DecisionRule.priority := 0; DecisionRule.confidence := 0 |}
  end.

(** A delegate that answers HTTP 500 to every request. *)
Definition down : delegate :=
  fun _ => Raise (HTTPError (u "500 Internal Server Error")).

(** A delegate that answers with a confidence of 5. *)
Definition overconfident : delegate :=
  fun _ => Ok {| a_action := Some (u "turn_on");
                 a_target := Some (u "living_room_light");
                 a_parameters := None;
                 a_confidence := Some (5 # 1);
                 a_reasoning := None;
                 a_alternatives := None;
                 a_timestamp := None |}.

(** The decision and the engine after a first call. *)
Definition after (r : result (Decision.t * DecisionEngine.t))
  : Decision.t * DecisionEngine.t :=
  match r with
  | Ok p => p
  | Raise _ =>
    ({| Decision.action := []; Decision.target := [];
        Decision.parameters := ∅; Decision.confidence := 0;
        Decision.reasoning := []; Decision.alternatives := [];
        Decision.timestamp := t0 |}, __init__)
  end.

(** A user, a context gathered for her on a new manager, and the manager
    afterwards. *)
Definition alice : option str := Some (u "alice").

Definition gathered : result Context.t * ContextManager.t :=
  ContextManager.get_context ContextManager.__init__ None alice t0.

(** The history entry cached for her, and its actions. *)
Definition history_items : list (str * pyval) :=
  match ContextManager._get_history_data alice with
  | PDict d => d
  | _ => []
  end.

Definition history_actions : list pyval :=
  match assoc (u "recent_actions") history_items with
  | Some (PList l) => l
  | _ => []
  end.

Definition one_action : pyval :=
  PDict [(u "action", PStr (u "turn_off"));
         (u "device", PStr (u "living_room_light"))].

(** Eight more actions, and an update that carries them. *)
Definition eight_actions : list pyval :=
  map (fun n => PDict [(u "action", PStr (u "toggle")); (u "step", PInt n)])
      [1; 2; 3; 4; 5; 6; 7; 8]%Z.

Definition more_actions : gmap str pyval :=
  {[u "recent_actions" := PList eight_actions]}.



(** A manager whose weather source has been switched off. *)
Definition without_weather : ContextManager.t :=
  {| ContextManager.sources :=
       map (fun s =>
              if str_eqb (ContextManager.ContextSource.name s) (u "weather")
              then {| ContextManager.ContextSource.name :=
                        ContextManager.ContextSource.name s;
                      ContextManager.ContextSource.priority :=
                        ContextManager.ContextSource.priority s;
                      ContextManager.ContextSource.cache_ttl :=
                        ContextManager.ContextSource.cache_ttl s;
                      ContextManager.ContextSource.enabled := false |}
              else s)
           (ContextManager.sources ContextManager.__init__);
     ContextManager._local_cache := ∅;
     ContextManager.trace := [] |}.

(** The outcome of a successful execution that saved twice the reference
    energy, and one whose satisfaction is a text. *)
Definition good_outcome : gmap str pyval :=
  <[u "success" := PBool true]>
  (<[u "user_satisfaction" := PFloat (9 # 10)]>
  {[u "energy_saved" := PInt 2]}).

Definition odd_outcome : gmap str pyval :=
  {[u "user_satisfaction" := PStr (u "high")]}.

(** An MQTT protocol with two observers, never connected, and a broker
    that refuses the connection. *)
Definition observed_mqtt : Protocols.MQTTProtocol.t :=
  Protocols.MQTTProtocol.add_observer
    (Protocols.MQTTProtocol.add_observer Protocols.MQTTProtocol.__init__ 1%N)
    2%N.

Definition unreachable : result unit :=
  Raise (OSError (u "Connection refused")).

(** A message received from the broker, and an HTTP protocol with one
    observer, not connected yet. *)
Definition lamp_message : Protocols.ProtocolMessage.t :=
  {| Protocols.ProtocolMessage.topic := u "home/lamp/state";
     Protocols.ProtocolMessage.payload := PStr (u "on");
     Protocols.ProtocolMessage.timestamp := t0;
     Protocols.ProtocolMessage.qos := 0;
     Protocols.ProtocolMessage.retain := false;
     Protocols.ProtocolMessage.metadata := ∅ |}.

Definition observed_http : Protocols.HTTPProtocol.t :=
  {| Protocols.HTTPProtocol.base :=
       Protocols.Protocol.add_observer
         (Protocols.Protocol.__init__ (u "http")) 7%N;
     Protocols.HTTPProtocol._client := None |}.



(** A delegate that cannot be reached at all. *)
Definition no_route : delegate :=
  fun _ => Raise (OSError (u "No route to host")).

(** A request in English to switch a light on, read as a CONTROL intent. *)
Definition light_on_request : Intent.t :=
  {| Intent.type := CONTROL;
     Intent.text := u "Turn on the light";
     Intent.confidence := 8 # 10;
     Intent.entities := ∅;
     Intent.timestamp := t0 |}.

(** A device manager that accepts every command. *)
Definition obliging_manager : AIServiceCalls.device_manager :=
  Some (fun _ _ => Ok (PDict [(u "status", PStr (u "ok"))])).

(** A first call on a new engine, the delegate being down. *)
Definition first_call : Decision.t * DecisionEngine.t :=
  after (make_decision __init__ down intent_salon ctx0 [] t0).

(** The request of [intent_eteins] with a number where the list of actions
    should be, and a delegate that answers HTTP 500 to every request. *)
Definition bad_intent : Untyped.Intent.t :=
  {| Untyped.Intent.type := CONTROL;
     Untyped.Intent.text := u "éteins la lumière du salon";
     Untyped.Intent.confidence := 8 # 10;
     Untyped.Intent.entities := {[u "action" := PInt 5]};
     Untyped.Intent.timestamp := t0 |}.

Definition unavailable : Untyped.delegate :=
  fun _ => Raise (HTTPError (u "500 Internal Server Error")).

End Samples.

(** * Properties *)

(** ** Comparisons and strings *)

Module PyFacts.

Local Open Scope Q_scope.

Lemma Qltb_lt a b : Qltb a b = true <-> a < b.
Proof.
  unfold Qltb. rewrite negb_true_iff, <- not_true_iff_false, Qle_bool_iff.
  split; [apply Qnot_le_lt | apply Qlt_not_le].
Qed.

Lemma Qltb_ge a b : Qltb a b = false <-> b <= a.
Proof. unfold Qltb. by rewrite negb_false_iff, Qle_bool_iff. Qed.

End PyFacts.

(** ** Strings and patterns *)

Module ReProps.

Import Re.
Local Open Scope nat_scope.

Lemma starts_with_app sub b : starts_with sub (sub ++ b) = true.
Proof.
  induction sub as [|a sub IH]; simpl; [done|]. by rewrite N.eqb_refl.
Qed.


Lemma contains_unfold sub s :
  contains sub s =
  starts_with sub s ||
  match s with [] => false | _ :: s' => contains sub s' end.
Proof. by destruct s. Qed.

Lemma contains_app sub a b : contains sub (a ++ sub ++ b) = true.
Proof.
  induction a as [|x a IH]; simpl.
  - by rewrite contains_unfold, starts_with_app.
  - rewrite IH. apply orb_true_r.
Qed.
















End ReProps.

(** ** Command translation *)

Module CommandTableProps.

Import CommandTable.

Lemma get_default {V} (d : gmap str V) k v : get d k v = default v (d !! k).
Proof. unfold get. by destruct (d !! k). Qed.

Ltac other_key :=
  first [ congruence | intros E; vm_compute in E; discriminate ].

(** The row of [turn_on], whatever the rest of the decision. *)
Lemma turn_on_payload d :
  Decision.action d = u "turn_on" ->
  _decision_to_command d = {[u "on" := PBool true]}.
Proof.
  intros H. unfold _decision_to_command.
  by rewrite get_default, H, lookup_insert_eq.
Qed.

(** An action outside the table gives the empty payload. *)
Lemma unknown_action_payload d :
  Decision.action d ∉
    [u "turn_on"; u "turn_off"; u "set_brightness"; u "set_color";
     u "query_status"] ->
  _decision_to_command d = ∅.
Proof.
  intros H. unfold _decision_to_command. rewrite get_default.
  repeat (apply not_elem_of_cons in H as [? H]).
  by rewrite !lookup_insert_ne, lookup_empty by congruence.
Qed.

(** C8. For every Decision, [_decision_to_command] is the fixed table:
    [turn_on] gives [{on: true}], [turn_off] gives [{on: false}],
    [set_brightness] gives [{bri: brightness or 100}], [set_color] gives
    [{hue, sat}], [query_status] gives [{query: "status"}], and any other
    action gives the empty payload. *)
Theorem decision_to_command_table (decision : Decision.t) :
  _decision_to_command decision =
  payload_of (Decision.action decision) (Decision.parameters decision).
Proof.
  unfold _decision_to_command, payload_of.
  rewrite !get_default.
  repeat case_decide;
    try match goal with H : Decision.action _ = _ |- _ => rewrite H end;
    repeat (rewrite lookup_insert_ne by other_key);
    rewrite ?lookup_insert_eq, ?lookup_empty; done.
Qed.

End CommandTableProps.

(** ** Decision engine *)

Module DecisionEngineProps.

Import DecisionEngine Samples PyFacts.
Local Open Scope Q_scope.

(** *** Rule matching *)

Lemma entities_loop_sound intent reqs :
  entities_loop intent reqs = Ok true -> Forall (requirement_met intent) reqs.
Proof.
  induction reqs as [|[entity_type expected_values] reqs IH]; simpl; intros H.
  - constructor.
  - destruct (Intent.entities intent !! entity_type) as [vals|] eqn:E;
      [|discriminate].
    destruct (py_iter expected_values) as [vs|] eqn:Hit; [|discriminate].
    simpl in H.
    destruct (existsb _ vs) eqn:Hex; simpl in H; [|discriminate].
    constructor; [|by apply IH].
    apply existsb_exists in Hex as (v & Hin & Hv).
    exists vals, vs, v. simpl. auto.
Qed.

(** A rule whose condition has an ["entities"] entry matches only when
    every requirement of that entry is met. *)
Lemma rule_matches_entities rule intent context v :
  DecisionRule.condition rule !! u "entities" = Some v ->
  _rule_matches rule intent context = Ok true ->
  exists reqs, v = CVal (PDict reqs) /\ Forall (requirement_met intent) reqs.
Proof.
  unfold _rule_matches. intros -> H.
  destruct (match DecisionRule.condition rule !! u "intent_type" with
            | Some w => _ | None => _ end); [discriminate|].
  destruct v as [|[]]; try discriminate. simpl in H.
  destruct (entities_loop intent d) as [[]|] eqn:E; try discriminate.
  eauto using entities_loop_sound.
Qed.

(** A rule whose condition has neither an ["entities"] nor a ["context"]
    entry is decided by the intent type alone, and raises nothing. *)
Lemma rule_matches_type_only rule intent context :
  DecisionRule.condition rule !! u "entities" = None ->
  DecisionRule.condition rule !! u "context" = None ->
  _rule_matches rule intent context =
  Ok (negb match DecisionRule.condition rule !! u "intent_type" with
           | Some v => type_differs (Intent.type intent) v
           | None => false
           end).
Proof.
  unfold _rule_matches. intros -> ->.
  by destruct (match DecisionRule.condition rule !! u "intent_type" with
               | Some w => _ | None => _ end).
Qed.

Lemma builtin_conditions :
  Forall (fun rule =>
            DecisionRule.condition rule !! u "entities" = None /\
            DecisionRule.condition rule !! u "context" = None)
         _initialize_rules.
Proof. repeat constructor. Qed.

(** The built-in [turn_on] rule keeps its expected actions under the key
    ["entities.action"], which [_rule_matches] never reads: the rule matches
    every CONTROL intent. *)
Lemma turn_on_matches_every_control intent context :
  Intent.type intent = CONTROL ->
  _rule_matches turn_on_rule intent context = Ok true.
Proof.
  intros H. rewrite rule_matches_type_only by reflexivity.
  replace (DecisionRule.condition turn_on_rule !! u "intent_type")
    with (Some (CType CONTROL)) by reflexivity.
  simpl. by rewrite H.
Qed.

(** C1 (at the failing input). The request "éteins la lumière du salon" is
    parsed as a CONTROL intent whose action entities are only ["éteins"];
    the built-in [turn_on] rule, which expects ["allume"] or ["active"],
    matches it all the same, and local evaluation decides [turn_on]. *)
Theorem turn_on_rule_matches_eteins :
  Intent.type intent_eteins = CONTROL /\
  Intent.entities intent_eteins !! u "action" = Some [PStr (u "éteins")] /\
  _rule_matches turn_on_rule intent_eteins ctx0 = Ok true /\
  match _make_local_decision __init__ intent_eteins ctx0 [] t0 with
  | Ok d => Decision.action d = u "turn_on"
  | Raise _ => False
  end.
Proof. vm_compute. repeat split; reflexivity. Qed.

(** *** Confidence *)

(** The clamp [max(0.1, min(1.0, x))] lands in [0.1, 1.0] for every [x]. *)
Lemma clamp_in_range x :
  1 # 10 <= py_max (1 # 10) (py_min 1 x) /\ py_max (1 # 10) (py_min 1 x) <= 1.
Proof.
  unfold py_max, py_min.
  destruct (Qltb x 1) eqn:E1.
  - apply Qltb_lt in E1.
    destruct (Qltb (1 # 10) x) eqn:E2.
    + apply Qltb_lt in E2. split; lra.
    + split; lra.
  - destruct (Qltb (1 # 10) 1) eqn:E2.
    + split; lra.
    + apply Qltb_ge in E2. lra.
Qed.

(** The confidence computed for a rule is in range whatever the intent,
    the context and the rule, so whatever the six factor values. *)
Lemma calculate_confidence_in_range intent context rule :
  1 # 10 <= _calculate_confidence intent context rule /\
  _calculate_confidence intent context rule <= 1.
Proof. apply clamp_in_range. Qed.

(** With every factor at its lowest, and at its highest: an intent of
    confidence 0 under a rule of base confidence 0, and an intent of
    confidence 1000 under a rule of base confidence 1000. *)
Example confidence_at_extremes :
  _calculate_confidence
    {| Intent.type := CONTROL; Intent.text := []; Intent.confidence := 0;
       Intent.entities := ∅; Intent.timestamp := t0 |} ctx0
    {| DecisionRule.condition := ∅; DecisionRule.action := [];
       DecisionRule.target := []; DecisionRule.parameters := ∅;
       DecisionRule.priority := 0; DecisionRule.confidence := 0 |} == 1 # 10 /\
  _calculate_confidence
    {| Intent.type := CONTROL; Intent.text := []; Intent.confidence := 1000;
       Intent.entities := ∅; Intent.timestamp := t0 |} ctx0
    {| DecisionRule.condition := ∅; DecisionRule.action := [];
       DecisionRule.target := []; DecisionRule.parameters := ∅;
       DecisionRule.priority := 0; DecisionRule.confidence := 1000 |} == 1.
Proof. split; reflexivity. Qed.

(** C4 (as amended). Every Decision produced by local rule evaluation has its
    confidence in [0.1, 1.0], for all intents, contexts and rule sets: the
    selected rule's confidence is clamped, and the no-match decision carries
    0.1. *)
Theorem local_decision_confidence_in_range self intent context
    available_actions now :
  match _make_local_decision self intent context available_actions now with
  | Ok d => 1 # 10 <= Decision.confidence d /\ Decision.confidence d <= 1
  | Raise _ => True
  end.
Proof.
  unfold _make_local_decision.
  destruct (_evaluate_rules (rules self) intent context) as [matching|];
    simpl; [|done].
  destruct matching; simpl.
  - split; lra.
  - apply calculate_confidence_in_range.
Qed.

(** C4 (counterexample). A decision built from the delegate's answer keeps
    the confidence of the answer: with a delegate answering 5,
    [make_decision] returns a Decision of confidence 5. *)
Lemma delegate_confidence_not_clamped :
  match make_decision __init__ overconfident intent_eteins ctx0 [] t0 with
  | Ok (d, _) => ~ Decision.confidence d <= 1
  | Raise _ => False
  end.
Proof. vm_compute. intros H. apply H. reflexivity. Qed.

(** *** The decision cache *)







End DecisionEngineProps.

(** ** Context manager *)

Module ContextManagerProps.

Import ContextManager Samples.
Local Open Scope nat_scope.

(** *** The history of recent actions *)

Lemma last10_length {A} (l : list A) : length (last10 l) <= 10.
Proof. unfold last10. rewrite length_drop. lia. Qed.

Lemma last10_short {A} (l : list A) : length l <= 10 -> last10 l = l.
Proof.
  unfold last10. intros H.
  replace (length l - 10) with 0 by lia. done.
Qed.

Lemma last10_suffix {A} (l : list A) : last10 l `suffix_of` l.
Proof. unfold last10. apply suffix_drop. Qed.

(** [update_context] appends the update's actions to the context's. *)
Lemma update_context_recent_actions context updates now context' :
  update_context context updates now = Ok context' ->
  exists l,
    get updates (u "recent_actions") (PList []) = PList l /\
    Context.recent_actions context' = Context.recent_actions context ++ l.
Proof.
  unfold update_context. intros H.
  destruct (py_update (Context.device_states context) _); [|discriminate].
  destruct (py_update (Context.user_preferences context) _); [|discriminate].
  simpl in H.
  destruct (get updates (u "recent_actions") (PList [])); try discriminate.
  simpl in H. injection H as <-. eauto.
Qed.

(** [add_action_to_history] on a cached history entry: the entry keeps its
    other items, and its actions become the last 10 of the old ones followed
    by the new one. *)
Lemma add_action_cached self r user_id action now d old :
  str_truthy user_id = true ->
  _local_cache self !! _get_cache_key (u "history") user_id now
    = Some (PDict d) ->
  d <> [] ->
  py_get (PDict d) (u "recent_actions") (PList []) = Ok (PList old) ->
  _local_cache (add_action_to_history self r user_id action now)
    !! _get_cache_key (u "history") user_id now
  = Some (PDict (dict_set (u "recent_actions")
                          (PList (last10 (old ++ [action]))) d)).
Proof.
  intros Hu Hc Hd Hold. unfold add_action_to_history, _get_cached_data.
  rewrite Hu, Hc. simpl.
  destruct d as [|kv d']; [done|]. simpl.
  unfold appended_history. rewrite Hold. simpl.
  unfold _cache_data. destruct r; simpl; apply lookup_insert_eq.
Qed.

(** C2 (as amended). [update_context] returns a Context whose recent actions
    are the prior ones, in their order, followed by the update's (no cap on
    the length); [add_action_to_history] replaces the cached history by the
    last 10 of the cached actions followed by the new one, so the cached
    list has at most 10 entries, ends with the new action after the kept
    ones in their order, and has the prior list as a prefix when that list
    had fewer than 10 entries. *)
Theorem recent_actions_append_and_window context updates now self r user_id
    action d old :
  str_truthy user_id = true ->
  _local_cache self !! _get_cache_key (u "history") user_id now
    = Some (PDict d) ->
  d <> [] ->
  py_get (PDict d) (u "recent_actions") (PList []) = Ok (PList old) ->
  match update_context context updates now with
  | Ok context' =>
    exists l,
      get updates (u "recent_actions") (PList []) = PList l /\
      Context.recent_actions context' = Context.recent_actions context ++ l
  | Raise _ => True
  end /\
  exists kept,
    _local_cache (add_action_to_history self r user_id action now)
      !! _get_cache_key (u "history") user_id now
    = Some (PDict (dict_set (u "recent_actions") (PList kept) d)) /\
    kept = last10 (old ++ [action]) /\
    length kept <= 10 /\
    kept `suffix_of` (old ++ [action]) /\
    (length old < 10 -> kept = old ++ [action]).
Proof.
  intros Hu Hc Hd Hold. split.
  - destruct (update_context context updates now) eqn:E; [|done].
    eauto using update_context_recent_actions.
  - exists (last10 (old ++ [action])).
    split; [by apply add_action_cached|].
    split; [done|].
    split; [apply last10_length|].
    split; [apply last10_suffix|].
    intros Hlt. apply last10_short. rewrite length_app. simpl. lia.
Qed.

Lemma recent_actions_append_and_window_witness :
  exists kept,
    _local_cache (add_action_to_history (snd gathered) None alice one_action t1)
      !! _get_cache_key (u "history") alice t1
    = Some (PDict (dict_set (u "recent_actions") (PList kept) history_items)) /\
    kept = history_actions ++ [one_action].
Proof.
  destruct (recent_actions_append_and_window ctx0 more_actions t1
              (snd gathered) None alice one_action
              history_items history_actions)
    as [_ (kept & Hc & _ & _ & _ & Hshort)].
  - reflexivity.
  - vm_compute. reflexivity.
  - discriminate.
  - reflexivity.
  - exists kept. split; [exact Hc|]. apply Hshort. vm_compute. lia.
Defined.

(** C2 (counterexample). The context gathered for a user has 3 recent
    actions; updating it with 8 more gives a Context with 11. *)
Lemma update_context_exceeds_ten :
  match fst gathered with
  | Ok context =>
    match update_context context more_actions t1 with
    | Ok context' =>
      length (Context.recent_actions context') = 11 /\
      ~ length (Context.recent_actions context') <= 10
    | Raise _ => False
    end
  | Raise _ => False
  end.
Proof. vm_compute. split; [reflexivity|lia]. Qed.

(** On a full history the oldest action goes: the prior list is then not a
    prefix of the new one. *)
Lemma last10_full {A} (old : list A) (a : A) :
  length old = 10 -> last10 (old ++ [a]) = drop 1 old ++ [a].
Proof.
  intros H. unfold last10. rewrite length_app, H. simpl length.
  replace (10 + 1 - 10) with 1 by lia.
  rewrite drop_app_le by lia. done.
Qed.

(** *** The local cache *)

(** The cache key reads the clock through the hour bucket only. *)
Lemma cache_key_bucket name user_id now1 now2 :
  hour_bucket now2 = hour_bucket now1 ->
  _get_cache_key name user_id now2 = _get_cache_key name user_id now1.
Proof. unfold _get_cache_key. by intros ->. Qed.

Lemma extends_refl n key self : extends n key self self.
Proof.
  split; [done|]. split; [|done]. exists []. by rewrite app_nil_r.
Qed.

Lemma extends_trans n key s1 s2 s3 :
  extends n key s1 s2 -> extends n key s2 s3 -> extends n key s1 s3.
Proof.
  intros (Hs1 & (e1 & Ht1 & Hf1) & Hc1) (Hs2 & (e2 & Ht2 & Hf2) & Hc2).
  split; [congruence|]. split.
  - exists (e1 ++ e2). rewrite Ht2, Ht1, app_assoc.
    split; [done|]. by apply Forall_app.
  - intros k Hk. rewrite Hc2, Hc1; done.
Qed.

Lemma extends_emit n key self e :
  event_of n key e -> extends n key self (emit self e).
Proof.
  intros He. split; [done|]. split; [|done].
  exists [e]. split; [done|]. by constructor.
Qed.

Lemma extends_store n key self data :
  extends n key self (set_cache self (<[key := data]> (_local_cache self))).
Proof.
  split; [done|]. split.
  - exists []. simpl. by rewrite app_nil_r.
  - intros k Hk. simpl. by rewrite lookup_insert_ne.
Qed.

Lemma extends_cache_data n key self r data ttl :
  extends n key self (_cache_data self r key data ttl).
Proof.
  unfold _cache_data. destruct r.
  - eapply extends_trans; [apply extends_store|].
    apply extends_emit. right. right. eauto.
  - apply extends_store.
Qed.

Lemma cache_data_lookup self r key data ttl :
  _local_cache (_cache_data self r key data ttl) !! key = Some data.
Proof. unfold _cache_data. destruct r; simpl; apply lookup_insert_eq. Qed.

Lemma extends_get_cached n key self r :
  extends n key self (snd (_get_cached_data self r key)).
Proof.
  unfold _get_cached_data.
  destruct (_local_cache self !! key); [apply extends_refl|].
  destruct r as [server|]; [|apply extends_refl].
  assert (extends n key self (emit self (RedisGet key)))
    by (apply extends_emit; right; left; done).
  destruct (server key) as [[data|]|]; simpl; [|done..].
  eapply extends_trans; [eassumption|]. apply (extends_store n key (emit _ _)).
Qed.

(** A call of [_get_source_data] either finds a truthy entry in the local
    map, which it returns, touching nothing; or works under its own key. *)
Lemma source_data_cases self r n user_id now :
  let key := _get_cache_key n user_id now in
  let res := _get_source_data self r n user_id now in
  (exists d, _local_cache self !! key = Some d /\ truthy d = true /\
             res = (d, self)) \/
  ((forall d, _local_cache self !! key = Some d -> truthy d = false) /\
   extends n key self (snd res) /\
   (truthy (fst res) = true -> _local_cache (snd res) !! key = Some (fst res))).
Proof.
  intros key res. subst res. unfold _get_source_data. fold key.
  pose proof (extends_get_cached n key self r) as Hext.
  destruct (_get_cached_data self r key) as [cached self1] eqn:Hg.
  simpl in Hext.
  assert (Hlocal : forall d, _local_cache self !! key = Some d ->
                             cached = Some d /\ self1 = self).
  { intros d Hd. unfold _get_cached_data in Hg. rewrite Hd in Hg.
    by injection Hg as <- <-. }
  assert (Hstored : forall d, cached = Some d ->
                              _local_cache self1 !! key = Some d).
  { intros d ->. unfold _get_cached_data in Hg.
    destruct (_local_cache self !! key) eqn:E.
    - by injection Hg as <- <-.
    - destruct r as [server|]; [|discriminate].
      destruct (server key) as [[data|]|]; try discriminate.
      injection Hg as <- <-. simpl. apply lookup_insert_eq. }
  destruct (opt_val_truthy cached) eqn:Ht.
  - destruct cached as [d|]; [|discriminate]. simpl in Ht.
    destruct (_local_cache self !! key) as [d'|] eqn:E.
    + left. destruct (Hlocal _ eq_refl) as [[= ->] ->]. eauto.
    + right. simpl. split; [discriminate|]. split; [done|]. eauto.
  - right. split.
    { intros d Hd. destruct (Hlocal _ Hd) as [-> _]. done. }
    destruct (read_source n user_id now) as [data|]; simpl.
    + assert (extends n key self (emit self1 (Fetch n))).
      { eapply extends_trans; [eassumption|].
        apply extends_emit. left. done. }
      destruct (truthy data) eqn:Hd; simpl.
      * split; [|intros _; apply cache_data_lookup].
        eapply extends_trans; [eassumption|]. apply extends_cache_data.
      * split; [done|discriminate].
    + split; [done|discriminate].
Qed.

(** A truthy entry of the local map survives any call of
    [_get_source_data], which answers with it when it is the entry of the
    source asked for, and then does nothing to the outside. *)
Lemma source_data_keeps self r n user_id now k d :
  _local_cache self !! k = Some d ->
  truthy d = true ->
  let res := _get_source_data self r n user_id now in
  _local_cache (snd res) !! k = Some d /\
  sources (snd res) = sources self /\
  (_get_cache_key n user_id now = k -> res = (d, self)) /\
  (_get_cache_key n user_id now <> k ->
   extends n (_get_cache_key n user_id now) self (snd res)).
Proof.
  intros Hk Hd res.
  destruct (source_data_cases self r n user_id now)
    as [(d' & Hc & Ht & E)|(Hf & Hext & _)]; fold res in E || fold res in Hext.
  - rewrite E. simpl. split; [done|]. split; [done|]. split.
    + intros Heq. rewrite Heq, Hk in Hc. by injection Hc as ->.
    + intros _. apply extends_refl.
  - assert (_get_cache_key n user_id now <> k) as Hne.
    { intros Heq. rewrite Heq in Hf. specialize (Hf _ Hk). congruence. }
    destruct Hext as (Hs & Hev & Hc).
    split; [by rewrite Hc|]. split; [done|]. split; [done|].
    intros _. by split.
Qed.

(** Whatever a call stores or finds under its key and returns as truthy
    data is in the local map afterwards. *)
Lemma fetched_data_is_cached self r n user_id now :
  let res := _get_source_data self r n user_id now in
  truthy (fst res) = true ->
  _local_cache (snd res) !! _get_cache_key n user_id now = Some (fst res).
Proof.
  intros res. subst res.
  destruct (source_data_cases self r n user_id now)
    as [(d & Hc & Ht & ->)|(_ & _ & H)]; auto.
Qed.

Lemma assoc_dict_set_eq {V} k (v : V) d : assoc k (dict_set k v d) = Some v.
Proof.
  induction d as [|[k' v'] d IH]; simpl.
  - unfold str_eqb. by rewrite bool_decide_eq_true_2.
  - unfold str_eqb at 1. case_bool_decide; simpl.
    + unfold str_eqb. by rewrite bool_decide_eq_true_2.
    + unfold str_eqb at 1. by rewrite bool_decide_eq_false_2.
Qed.

Lemma assoc_dict_set_ne {V} k k' (v : V) d :
  k <> k' -> assoc k (dict_set k' v d) = assoc k d.
Proof.
  intros Hne. induction d as [|[k'' v''] d IH]; simpl.
  - unfold str_eqb. by rewrite bool_decide_eq_false_2.
  - unfold str_eqb at 1. case_bool_decide; simpl.
    + subst k''. unfold str_eqb. by rewrite !bool_decide_eq_false_2.
    + by rewrite IH.
Qed.


(** The loop leaves the cached entry of a source in [context_data] under
    the name of the source, when the source is enabled. *)
Lemma gather_data r user_id now name d l :
  forall self context_data,
    _local_cache self !! _get_cache_key name user_id now = Some d ->
    truthy d = true ->
    assoc name context_data = Some d \/
    (exists s, s ∈ l /\ ContextSource.name s = name /\
               ContextSource.enabled s = true) ->
    assoc name (fst (gather self r l user_id now context_data)) = Some d.
Proof.
  induction l as [|s l IH]; intros self cd Hk Hd Hor; simpl.
  - destruct Hor as [|(s & Hin & _)]; [done|]. by apply elem_of_nil in Hin.
  - destruct (ContextSource.enabled s) eqn:Hen; simpl.
    + pose proof (source_data_keeps self r (ContextSource.name s) user_id now
                    _ d Hk Hd) as (Hk1 & _ & Hhit & _).
      destruct (_get_source_data self r (ContextSource.name s) user_id now)
        as [sd self1]. simpl in *.
      apply IH; [done..|].
      destruct (decide (ContextSource.name s = name)) as [Hn|Hn].
      * left. rewrite Hn in Hhit. injection (Hhit eq_refl) as -> _.
        rewrite Hd, Hn. apply assoc_dict_set_eq.
      * destruct Hor as [Ha|(s' & Hin & Hn' & Hen')].
        -- left. destruct (truthy sd); [|done].
           by rewrite assoc_dict_set_ne.
        -- right. exists s'. apply elem_of_cons in Hin as [->|Hin]; [done|].
           done.
    + apply IH; [done..|].
      destruct Hor as [Ha|(s' & Hin & Hn' & Hen')]; [by left|right].
      exists s'. apply elem_of_cons in Hin as [->|Hin]; [congruence|done].
Qed.

Lemma insert_source_perm s l : insert_source s l ≡ₚ s :: l.
Proof.
  induction l as [|x l IH]; simpl; [done|].
  destruct (_ <=? _)%Z; [done|]. rewrite IH. apply Permutation_swap.
Qed.

Lemma sorted_sources_perm l : sorted_sources l ≡ₚ l.
Proof.
  induction l as [|s l IH]; simpl; [done|].
  by rewrite insert_source_perm, IH.
Qed.

Lemma get_context_state self r user_id now :
  snd (get_context self r user_id now) =
  snd (gather self r (sorted_sources (sources self)) user_id now []).
Proof.
  unfold get_context. by destruct (gather _ _ _ _ _ _).
Qed.


Lemma assoc_dict_set {V} k k' (v : V) d :
  assoc k (dict_set k' v d) = if decide (k = k') then Some v else assoc k d.
Proof.
  case_decide as E; [subst; apply assoc_dict_set_eq|by apply assoc_dict_set_ne].
Qed.

(** What the loop of [get_context] hands over as the data of a source is
    truthy and, when the loop ends, in the local map under the key of the
    source: the entry the later calls are served from. *)
Lemma gathered_data_is_cached r user_id now l :
  forall self context_data name d,
    (forall n d', assoc n context_data = Some d' ->
                  _local_cache self !! _get_cache_key n user_id now = Some d' /\
                  truthy d' = true) ->
    assoc name (fst (gather self r l user_id now context_data)) = Some d ->
    _local_cache (snd (gather self r l user_id now context_data))
      !! _get_cache_key name user_id now = Some d /\
    truthy d = true.
Proof.
  induction l as [|s l IH]; intros self cd name d Hinv Ha; simpl in *.
  - by apply Hinv.
  - destruct (ContextSource.enabled s); simpl in *; [|by apply (IH self cd)].
    pose proof (fetched_data_is_cached self r (ContextSource.name s)
                  user_id now) as Hnew.
    assert (Hold : forall n d',
               assoc n cd = Some d' ->
               _local_cache
                 (snd (_get_source_data self r (ContextSource.name s)
                         user_id now))
                 !! _get_cache_key n user_id now = Some d' /\
               truthy d' = true).
    { intros n d' Hn. destruct (Hinv n d' Hn) as [Hc Ht]. split; [|done].
      by apply source_data_keeps. }
    destruct (_get_source_data self r (ContextSource.name s) user_id now)
      as [sd self1]. simpl in *.
    apply (IH self1 _ name d); [|exact Ha].
    intros n d' Hn. destruct (truthy sd) eqn:Hsd; [|by apply Hold].
    rewrite assoc_dict_set in Hn. case_decide as E; [|by apply Hold].
    injection Hn as <-. subst n. split; [by apply Hnew|done].
Qed.

(** *** The returned Context *)

Lemma cache_key_inj n1 n2 user_id now :
  _get_cache_key n1 user_id now = _get_cache_key n2 user_id now -> n1 = n2.
Proof.
  unfold _get_cache_key. intros H.
  apply app_inv_head in H. by apply app_inv_tail in H.
Qed.


(** *** One entry per source *)



(** *** Each source writes its own entry *)





(** *** The merge succeeds on what the sources give *)













End ContextManagerProps.

(** ** Protocol layer *)

Module ProtocolsProps.

Import Protocols Samples.
Local Open Scope nat_scope.

(** *** Connection to an unreachable broker *)

Lemma received_app self st error observer :
  Protocol.received (Protocol._notify_state_change self st error) observer =
  Protocol.received self observer ++
  map snd (filter (fun d => fst d = observer)
             (map (fun o => (o, on_state_change st error))
                  (Protocol.observers self))).
Proof.
  unfold Protocol.received. simpl. by rewrite filter_app, map_app.
Qed.

(** One broadcast reaches a registered observer once. *)
Lemma broadcast_once (l : list N) (n : notification) observer :
  NoDup l -> observer ∈ l ->
  map snd (filter (fun d => fst d = observer) (map (fun o => (o, n)) l)) = [n].
Proof.
  induction 1 as [|x l Hx Hnd IH]; intros Hin.
  - by apply elem_of_nil in Hin.
  - simpl. rewrite filter_cons. simpl.
    destruct (decide (x = observer)) as [->|Hne]; simpl.
    + f_equal. clear IH Hin Hnd. induction l as [|y l IH]; [done|].
      simpl. rewrite filter_cons. simpl.
      apply not_elem_of_cons in Hx as [Hy Hx].
      destruct (decide (y = observer)); [congruence|]. by apply IH.
    + apply IH. apply elem_of_cons in Hin as [->|]; done.
Qed.

Lemma add_observer_nodup self observer :
  NoDup (Protocol.observers self) ->
  NoDup (Protocol.observers (Protocol.add_observer self observer)).
Proof.
  intros H. unfold Protocol.add_observer. case_bool_decide; [done|]. simpl.
  apply NoDup_app. split; [done|]. split.
  - intros x Hx Hx'. apply list_elem_of_singleton in Hx'. by subst.
  - apply NoDup_singleton.
Qed.

(** C5 (as amended). [connect()] on a protocol in state DISCONNECTED, the
    broker refusing the connection: the state goes DISCONNECTED, CONNECTING,
    ERROR, [connect()] returns false, and every registered observer receives
    the CONNECTING notification and then exactly one ERROR notification,
    whose error is [None]: the exception was caught by the client. *)
Theorem connect_unreachable_broker self e :
  Protocol.state (MQTTProtocol.base self) = DISCONNECTED ->
  NoDup (Protocol.observers (MQTTProtocol.base self)) ->
  let res := MQTTProtocol.connect self (Raise e) in
  fst res = false /\
  Protocol.state (MQTTProtocol.base (snd res)) = ERROR /\
  Protocol.states (MQTTProtocol.base (snd res)) =
    Protocol.states (MQTTProtocol.base self) ++ [CONNECTING; ERROR] /\
  forall observer,
    observer ∈ Protocol.observers (MQTTProtocol.base self) ->
    Protocol.received (MQTTProtocol.base (snd res)) observer =
    Protocol.received (MQTTProtocol.base self) observer ++
    [on_state_change CONNECTING None; on_state_change ERROR None].
Proof.
  intros _ Hnd. simpl.
  split; [done|]. split; [done|]. split; [by rewrite <- app_assoc|].
  intros observer Hin.
  rewrite !received_app. simpl.
  rewrite !broadcast_once by done. by rewrite <- app_assoc.
Qed.

Lemma connect_unreachable_broker_witness :
  let res := MQTTProtocol.connect observed_mqtt unreachable in
  fst res = false /\
  Protocol.state (MQTTProtocol.base (snd res)) = ERROR /\
  Protocol.states (MQTTProtocol.base (snd res)) = [CONNECTING; ERROR] /\
  Protocol.received (MQTTProtocol.base (snd res)) 2%N =
  [on_state_change CONNECTING None; on_state_change ERROR None].
Proof.
  destruct (connect_unreachable_broker observed_mqtt
              (OSError (u "Connection refused")))
    as (H1 & H2 & H3 & H4).
  - reflexivity.
  - apply add_observer_nodup, add_observer_nodup, NoDup_nil_2.
  - split; [exact H1|]. split; [exact H2|]. split; [exact H3|].
    apply (H4 2%N). vm_compute. apply list_elem_of_further, list_elem_of_here.
Defined.

(** C5 (counterexample). The ERROR notification an observer receives after
    a refused connection carries no error. *)
Lemma error_notification_without_error :
  let got :=
    Protocol.received
      (MQTTProtocol.base (snd (MQTTProtocol.connect observed_mqtt unreachable)))
      1%N in
  got = [on_state_change CONNECTING None; on_state_change ERROR None] /\
  ~ exists error, on_state_change ERROR (Some error) ∈ got.
Proof.
  intros got.
  assert (E : got = [on_state_change CONNECTING None;
                     on_state_change ERROR None]) by reflexivity.
  split; [exact E|].
  intros [error H]. rewrite E in H.
  repeat (apply elem_of_cons in H as [H|H]; [discriminate H|]).
  by apply elem_of_nil in H.
Qed.

(** *** Outcome of [send_command] *)



End ProtocolsProps.

(** ** Intent parser *)

Module IntentParserProps.

Import Re IntentParser ReProps PyFacts Samples.
Local Open Scope Q_scope.

(** *** Entities *)




Lemma category_step_other text m e k :
  k <> fst e -> category_step text m e !! k = m !! k.
Proof.
  intros Hk. unfold category_step.
  destruct (category_values text (snd e)); [done|].
  by rewrite lookup_insert_ne.
Qed.

Lemma categories_other text l : forall m k,
  k ∉ map fst l -> foldl (category_step text) m l !! k = m !! k.
Proof.
  induction l as [|e l IH]; intros m k Hk; simpl; [done|].
  simpl in Hk. apply not_elem_of_cons in Hk as [Hk1 Hk2].
  rewrite IH by done. by apply category_step_other.
Qed.



(** *** Scores *)

Lemma bump_fst t d sc : map fst (bump t d sc) = map fst sc.
Proof.
  unfold bump. induction sc as [|e sc IH]; simpl; [done|].
  rewrite IH. by case_bool_decide.
Qed.

(** The two scoring loops change the scores, not the types they are kept
    under nor their order. *)
Lemma scoring_fst {A} (c : A -> bool) (d : Q) (l : list (IntentType * list A)) :
  forall sc,
    map fst (foldl (fun sc e =>
                      foldl (fun sc x => if c x then bump (fst e) d sc else sc)
                            sc (snd e)) sc l)
    = map fst sc.
Proof.
  induction l as [|e l IH]; intros sc; simpl; [done|].
  rewrite IH. generalize sc. clear.
  induction (snd e) as [|x xs IH]; intros sc; simpl; [done|].
  rewrite IH. destruct (c x); [apply bump_fst|done].
Qed.

Lemma raw_scores_fst text : map fst (raw_scores text) = IntentType_members.
Proof.
  unfold raw_scores, keyword_scores, pattern_scores.
  rewrite (scoring_fst (fun keyword => contains (u keyword) text)).
  rewrite (scoring_fst (fun pattern => search pattern text)).
  done.
Qed.



Lemma normalise_fst sc : map fst (normalise sc) = map fst sc.
Proof.
  unfold normalise. destruct (Qltb 0 (total sc)); [|done].
  by rewrite map_map.
Qed.


(** The confidence returned with the type is never below 0.1. *)
Lemma detect_confidence text : 1 # 10 <= snd (_detect_intent_type text).
Proof.
  unfold _detect_intent_type.
  destruct (Qltb _ (1 # 10)) eqn:E; simpl.
  - apply Qle_refl.
  - by apply Qltb_ge.
Qed.






End IntentParserProps.

(** ** Decision engine, further properties *)

Module DecisionEngineMore.

Import DecisionEngine DecisionQuality AIServiceCalls Samples PyFacts.
Import DecisionEngineProps.
Local Open Scope Q_scope.

(** *** Rule selection *)







(** *** The built-in rule table *)

(** What the table gives for each type: the first rule of greatest key
    among those that accept the type, none for ROUTINE. *)
Lemma builtin_best ty :
  match List.filter (accepts_type ty) _initialize_rules with
  | first :: others =>
    (DecisionRule.action (max_loop first others),
     DecisionRule.target (max_loop first others)) = decided_by_type ty /\
    ty <> ROUTINE
  | [] => ty = ROUTINE
  end.
Proof. destruct ty; vm_compute; try done; split; done. Qed.

(** *** Factors *)

Lemma py_min_le_l a b : py_min a b <= a.
Proof.
  unfold py_min. destruct (Qltb b a) eqn:E.
  - apply Qltb_lt in E. by apply Qlt_le_weak.
  - apply Qle_refl.
Qed.

Lemma py_min_le_r a b : py_min a b <= b.
Proof.
  unfold py_min. destruct (Qltb b a) eqn:E.
  - apply Qle_refl.
  - by apply Qltb_ge in E.
Qed.

Lemma py_max_lub a b c : a <= c -> b <= c -> py_max a b <= c.
Proof. unfold py_max. by destruct (Qltb a b). Qed.

Lemma py_max_ge_r a b : b <= py_max a b.
Proof.
  unfold py_max. destruct (Qltb a b) eqn:E.
  - apply Qle_refl.
  - by apply Qltb_ge in E.
Qed.

Lemma py_max_ge_l a b : a <= py_max a b.
Proof.
  unfold py_max. destruct (Qltb a b) eqn:E.
  - apply Qltb_lt in E. by apply Qlt_le_weak.
  - apply Qle_refl.
Qed.

Lemma context_factor_range context :
  5 # 10 <= _calculate_context_factor context /\
  _calculate_context_factor context <= 1.
Proof.
  unfold _calculate_context_factor. split; [|apply py_min_le_l].
  unfold py_min.
  destruct (opt_truthy _), (match Context.weather context with
                            | Some w => _ | None => _ end),
           (dict_truthy (Context.device_states context)),
           (dict_truthy (Context.user_preferences context));
    match goal with |- context [Qltb ?a ?b] => destruct (Qltb a b) end;
    by vm_compute.
Qed.

Lemma time_factor_range context :
  5 # 10 <= _calculate_time_factor context /\
  _calculate_time_factor context <= 9 # 10.
Proof.
  unfold _calculate_time_factor.
  destruct (negb _); [by vm_compute|].
  rewrite CommandTableProps.get_default.
  destruct (_ !! _) as [q|] eqn:E; simpl; [|by vm_compute].
  repeat (apply lookup_insert_Some in E as [[_ <-]|[_ E]]; [by vm_compute|]).
  apply lookup_singleton_Some in E as [_ <-]. by vm_compute.
Qed.

Lemma preference_factor_range context :
  5 # 10 <= _calculate_preference_factor context /\
  _calculate_preference_factor context <= 9 # 10.
Proof.
  unfold _calculate_preference_factor.
  destruct (negb _); [by vm_compute|]. destruct (truthy _); by vm_compute.
Qed.

Lemma energy_factor_range intent context :
  5 # 10 <= _calculate_energy_factor intent context /\
  _calculate_energy_factor intent context <= 9 # 10.
Proof.
  unfold _calculate_energy_factor.
  case_bool_decide; [|by vm_compute].
  destruct (_ !! _); [|by vm_compute]. destruct (existsb _ _); by vm_compute.
Qed.

Lemma privacy_factor_range intent context :
  5 # 10 <= _calculate_privacy_factor intent context /\
  _calculate_privacy_factor intent context <= 8 # 10.
Proof.
  unfold _calculate_privacy_factor. case_bool_decide; by vm_compute.
Qed.

(** The energy bonus is for CONTROL intents and the privacy bonus for QUERY
    intents: no intent has both. *)
Lemma energy_privacy_range intent context :
  _calculate_energy_factor intent context * (1 # 10) +
  _calculate_privacy_factor intent context * (5 # 100) <= 115 # 1000.
Proof.
  unfold _calculate_energy_factor, _calculate_privacy_factor.
  destruct (Intent.type intent); simpl;
    try (destruct (_ !! _); [destruct (existsb _ _)|]); by vm_compute.
Qed.

(** X3. The six weights add up to 1 and the five factors computed from the
    context and the intent type lie between 0.5 and 0.9 or 1: for an intent
    confidence in [0, 1] and a rule of base confidence [b >= 0], the
    decision's confidence is at least 35% of [b] (capped at 1) and at most
    93% of [b] (or the floor 0.1). *)
Theorem confidence_below_base intent context rule :
  0 <= Intent.confidence intent -> Intent.confidence intent <= 1 ->
  0 <= DecisionRule.confidence rule ->
  _calculate_confidence intent context rule
    <= py_max (1 # 10) (DecisionRule.confidence rule * (93 # 100)) /\
  py_min 1 (DecisionRule.confidence rule * (35 # 100))
    <= _calculate_confidence intent context rule.
Proof.
  intros Hi0 Hi1 Hb. unfold _calculate_confidence.
  destruct (context_factor_range context) as [Hc0 Hc1].
  destruct (time_factor_range context) as [Ht0 Ht1].
  destruct (preference_factor_range context) as [Hp0 Hp1].
  destruct (energy_factor_range intent context) as [He0 He1].
  destruct (privacy_factor_range intent context) as [Hv0 Hv1].
  pose proof (energy_privacy_range intent context) as Hev.
  set (w := Intent.confidence intent * (3 # 10) +
            _calculate_context_factor context * (2 # 10) +
            _calculate_time_factor context * (15 # 100) +
            _calculate_preference_factor context * (2 # 10) +
            _calculate_energy_factor intent context * (1 # 10) +
            _calculate_privacy_factor intent context * (5 # 100)).
  assert (Hw1 : w <= 93 # 100) by (unfold w; lra).
  assert (Hw0 : 35 # 100 <= w) by (unfold w; lra).
  set (b := DecisionRule.confidence rule) in *.
  assert (Hup : b * w <= b * (93 # 100)).
  { rewrite !(Qmult_comm b). by apply Qmult_le_compat_r. }
  assert (Hlo : b * (35 # 100) <= b * w).
  { rewrite !(Qmult_comm b). by apply Qmult_le_compat_r. }
  split.
  - apply py_max_lub; [apply py_max_ge_l|].
    eapply Qle_trans; [apply py_min_le_r|].
    eapply Qle_trans; [exact Hup|]. apply py_max_ge_r.
  - eapply Qle_trans; [|apply py_max_ge_r].
    unfold py_min.
    destruct (Qltb (b * (35 # 100)) 1) eqn:E1, (Qltb (b * w) 1) eqn:E2;
      try apply Qltb_lt in E1; try apply Qltb_lt in E2;
      try apply Qltb_ge in E1; try apply Qltb_ge in E2; lra.
Qed.

Lemma confidence_below_base_witness :
  _calculate_confidence intent_eteins ctx0 turn_on_rule
    <= py_max (1 # 10) (DecisionRule.confidence turn_on_rule * (93 # 100)).
Proof.
  apply (confidence_below_base intent_eteins ctx0 turn_on_rule);
    vm_compute; discriminate.
Defined.

(** *** Quality of a decision *)

(** X4. For an outcome whose satisfaction and efficiency lie in [0, 1] and
    whose saved energy is not negative (a missing entry takes its default),
    the quality of a decision lies between 0 and the decision's confidence:
    the energy term is capped at 1, and the four weights add up to 1. *)
Theorem quality_between_zero_and_confidence decision outcome :
  0 <= Decision.confidence decision ->
  in_unit (get outcome (u "user_satisfaction") (PFloat (5 # 10))) ->
  in_unit (get outcome (u "efficiency") (PFloat (5 # 10))) ->
  (exists e, num_view (get outcome (u "energy_saved") (PFloat 0)) = Some e /\
             0 <= e) ->
  0 <= evaluate_decision_quality decision outcome /\
  evaluate_decision_quality decision outcome <= Decision.confidence decision.
Proof.
  intros Hc (s & Hs & Hs0 & Hs1) (f & Hf & Hf0 & Hf1) (e & He & He0).
  unfold evaluate_decision_quality, quality_score, as_number.
  rewrite Hs, Hf, He. simpl.
  set (c := Decision.confidence decision) in *.
  assert (Hm0 : 0 <= py_min e 1).
  { unfold py_min. destruct (Qltb 1 e); [by vm_compute|done]. }
  pose proof (py_min_le_r e 1) as Hm1.
  set (m := py_min e 1) in *.
  set (k := if truthy _ then 1 else 0).
  assert (Hk : 0 <= k /\ k <= 1) by (unfold k; destruct (truthy _); by vm_compute).
  destruct Hk as [Hk0 Hk1].
  set (score := k * (4 # 10) + s * (3 # 10) + f * (2 # 10) + m * (1 # 10)).
  assert (H0 : 0 <= score) by (unfold score; lra).
  assert (H1 : score <= 1) by (unfold score; lra).
  split.
  - by apply Qmult_le_0_compat.
  - rewrite <- (Qmult_1_l c) at 2. by apply Qmult_le_compat_r.
Qed.

(** X5. An outcome in which the satisfaction, the efficiency or the saved
    energy is not a number (a text, a list, [None]) gives the quality 0.5,
    whatever the decision and the rest of the outcome: the [TypeError] of
    the arithmetic is caught. *)
Lemma quality_of_malformed_outcome decision outcome key :
  key ∈ [u "user_satisfaction"; u "efficiency"; u "energy_saved"] ->
  (exists v, outcome !! key = Some v /\ num_view v = None) ->
  evaluate_decision_quality decision outcome = 5 # 10.
Proof.
  intros Hk (v & Hv & Hn).
  unfold evaluate_decision_quality, quality_score, as_number.
  rewrite !CommandTableProps.get_default.
  repeat (apply elem_of_cons in Hk as [->|Hk]);
    [| | |by apply elem_of_nil in Hk]; rewrite Hv; simpl; rewrite Hn; simpl.
  - reflexivity.
  - clear; destruct (num_view (default _ (outcome !! u "user_satisfaction")));
      reflexivity.
  - clear; destruct (num_view (default _ (outcome !! u "user_satisfaction")));
      simpl; [|reflexivity].
    destruct (num_view (default _ (outcome !! u "efficiency"))); reflexivity.
Qed.

Lemma quality_between_zero_and_confidence_witness :
  0 <= evaluate_decision_quality (fst first_call) good_outcome /\
  evaluate_decision_quality (fst first_call) good_outcome
    <= Decision.confidence (fst first_call).
Proof.
  apply (quality_between_zero_and_confidence (fst first_call) good_outcome).
  - vm_compute. discriminate.
  - exists (9 # 10). repeat split; vm_compute; discriminate.
  - exists (5 # 10). repeat split; vm_compute; discriminate.
  - exists 2. repeat split; vm_compute; discriminate.
Defined.

Lemma quality_of_malformed_outcome_witness :
  evaluate_decision_quality (fst first_call) odd_outcome = 5 # 10.
Proof.
  apply (quality_of_malformed_outcome (fst first_call) odd_outcome
           (u "user_satisfaction")).
  - apply list_elem_of_here.
  - exists (PStr (u "high")). split; reflexivity.
Defined.

(** *** The service's own fallback *)

(** X7. [AIService.make_decision] when the decision API answers with an HTTP
    error: the decision has confidence 0.6, no parameter and no alternative.
    For a CONTROL intent whose text mentions [light], the target is
    [living_room_light] and the action is [turn_on] when the text contains
    [allume] and [turn_off] in every other case, whatever else the text
    says; a QUERY intent gives [query_status] on [all_devices]; everything
    else, a CONTROL intent that does not mention [light] included, gives
    [noop]. *)
Theorem service_decision_on_http_error post intent context available_actions
    now msg :
  (forall body, post body = Raise (HTTPError msg)) ->
  let d := AIServiceCalls.make_decision post intent context available_actions
             now in
  let text_lower := Re.lower (Intent.text intent) in
  Decision.confidence d = 6 # 10 /\
  Decision.parameters d = ∅ /\
  Decision.alternatives d = [] /\
  (Decision.action d, Decision.target d) =
    match Intent.type intent with
    | CONTROL =>
      if contains (u "light") text_lower
      then (if contains (u "allume") text_lower
            then u "turn_on" else u "turn_off", u "living_room_light")
      else (u "noop", [])
    | QUERY => (u "query_status", u "all_devices")
    | _ => (u "noop", [])
    end.
Proof.
  intros Hpost d text_lower. subst d.
  unfold AIServiceCalls.make_decision, AIServiceCalls._call_decision_api.
  rewrite Hpost. unfold _fallback_decision. fold text_lower.
  destruct (Intent.type intent); simpl;
    destruct (contains (u "light") text_lower); simpl;
    try destruct (contains (u "allume") text_lower); done.
Qed.

Lemma service_decision_on_http_error_witness :
  let d := AIServiceCalls.make_decision down light_on_request ctx0 [] t0 in
  Decision.confidence d = 6 # 10 /\
  (Decision.action d, Decision.target d)
    = (u "turn_off", u "living_room_light").
Proof.
  destruct (service_decision_on_http_error down light_on_request ctx0 [] t0
              (u "500 Internal Server Error")) as (Hc & _ & _ & Ha).
  - intros body. reflexivity.
  - split; [exact Hc|exact Ha].
Defined.

(** X8. [AIService.make_decision] when the exchange fails with anything but
    an HTTP error, or when the answer's time stamp cannot be read: the
    exception does not leave the method; the decision is [noop] on no target
    at confidence 0.1, and its reasoning quotes the exception. *)
Theorem service_decision_on_other_error post intent context available_actions
    now e :
  (forall body, post body = Raise e) \/
  (exists data, (forall body, post body = Ok data) /\
                a_timestamp data = Some (Raise e)) ->
  (forall m, e <> HTTPError m) ->
  let d := AIServiceCalls.make_decision post intent context available_actions
             now in
  Decision.action d = u "noop" /\
  Decision.target d = [] /\
  Decision.confidence d = 1 # 10 /\
  Decision.reasoning d = u "Erreur: " ++ exn_msg e.
Proof.
  intros Hpost Hne d. subst d.
  unfold AIServiceCalls.make_decision, AIServiceCalls._call_decision_api.
  destruct Hpost as [Hpost|(data & Hpost & Hts)]; rewrite Hpost.
  - destruct e as [m|m|m|m|m|m]; try done. by destruct (Hne m).
  - simpl. unfold decision_of_response. rewrite Hts. done.
Qed.

Lemma service_decision_on_other_error_witness :
  let d := AIServiceCalls.make_decision no_route intent_salon ctx0 [] t0 in
  Decision.action d = u "noop" /\ Decision.confidence d = 1 # 10.
Proof.
  destruct (service_decision_on_other_error no_route intent_salon ctx0 [] t0
              (OSError (u "No route to host"))) as (Ha & _ & Hc & _).
  - left. intros body. reflexivity.
  - intros m. discriminate.
  - split; [exact Ha|exact Hc].
Defined.

(** *** Execution *)

(** X9. A decision whose action is not in the command table ([noop], the
    action of every decision made on an error, among them) is executed all
    the same: a device manager that has [set_device_state] is called once,
    with the target of the decision and the empty command, and its answer,
    or the exception it raised, is the result; a manager without that method
    is not called and the result is an error. *)
Theorem unknown_action_is_sent_empty decision manager now :
  Decision.action decision ∉
    [u "turn_on"; u "turn_off"; u "set_brightness"; u "set_color";
     u "query_status"] ->
  let run := execute_decision decision manager now in
  match manager with
  | Some set_device_state =>
    Execution.sent run = [(Decision.target decision, ∅)] /\
    Execution.execution_result run =
      match set_device_state (Decision.target decision) ∅ with
      | Ok result => result
      | Raise e => error_result (exn_msg e)
      end
  | None =>
    Execution.sent run = [] /\
    Execution.execution_result run =
      error_result (u "Device manager non compatible")
  end.
Proof.
  intros Ha run. subst run. unfold execute_decision.
  rewrite (CommandTableProps.unknown_action_payload decision Ha).
  by destruct manager.
Qed.

Lemma unknown_action_is_sent_empty_witness :
  Execution.sent
    (execute_decision
       (AIServiceCalls.make_decision no_route intent_salon ctx0 [] t0)
       obliging_manager t1)
  = [([], ∅)].
Proof.
  destruct (unknown_action_is_sent_empty
              (AIServiceCalls.make_decision no_route intent_salon ctx0 [] t0)
              obliging_manager t1) as [H _].
  - apply (bool_decide_unpack _). vm_compute. exact I.
  - exact H.
Defined.

End DecisionEngineMore.

(** ** The decision engine on entities of any type *)

Module UntypedProps.

Import DecisionEngine AIServiceCalls Samples DecisionEngineProps.
Import DecisionEngineMore.
Local Open Scope Q_scope.

(** *** The intents with list-valued entities *)

Lemma any_in_list values l :
  Untyped.any_in values (PList l)
  = Ok (existsb (fun value => py_in_list value l) values).
Proof.
  induction values as [|v values IH]; simpl; [done|].
  destruct (py_in_list v l); [done|]. exact IH.
Qed.

Lemma entities_loop_of_typed intent reqs :
  Untyped.entities_loop (Untyped.of_typed intent) reqs
  = entities_loop intent reqs.
Proof.
  induction reqs as [|[entity_type expected_values] reqs IH]; simpl; [done|].
  rewrite lookup_fmap.
  destruct (Intent.entities intent !! entity_type) as [vals|]; simpl; [|done].
  destruct (py_iter expected_values) as [vs|]; simpl; [|done].
  rewrite any_in_list. simpl. by rewrite IH.
Qed.

Lemma rule_matches_of_typed rule intent context :
  Untyped._rule_matches rule (Untyped.of_typed intent) context
  = _rule_matches rule intent context.
Proof.
  unfold Untyped._rule_matches, _rule_matches. simpl.
  destruct (match DecisionRule.condition rule !! u "intent_type" with
            | Some w => _ | None => _ end); [done|].
  destruct (DecisionRule.condition rule !! u "entities") as [v|]; [|done].
  destruct (items v) as [reqs|]; simpl; [|done].
  by rewrite entities_loop_of_typed.
Qed.

Lemma evaluate_rules_of_typed rules intent context :
  Untyped._evaluate_rules rules (Untyped.of_typed intent) context
  = _evaluate_rules rules intent context.
Proof.
  induction rules as [|rule rules IH]; simpl; [done|].
  by rewrite rule_matches_of_typed, IH.
Qed.

Lemma energy_factor_of_typed intent context :
  Untyped._calculate_energy_factor (Untyped.of_typed intent) context
  = Ok (_calculate_energy_factor intent context).
Proof.
  unfold Untyped._calculate_energy_factor, _calculate_energy_factor. simpl.
  destruct (bool_decide _); [|done]. rewrite lookup_fmap.
  by destruct (Intent.entities intent !! u "action").
Qed.

Lemma confidence_of_typed intent context rule :
  Untyped._calculate_confidence (Untyped.of_typed intent) context rule
  = Ok (_calculate_confidence intent context rule).
Proof.
  unfold Untyped._calculate_confidence. by rewrite energy_factor_of_typed.
Qed.

Lemma reasoning_of_typed intent context rule :
  Untyped._generate_reasoning (Untyped.of_typed intent) context rule
  = Ok (_generate_reasoning intent context rule).
Proof.
  unfold Untyped._generate_reasoning. by rewrite confidence_of_typed.
Qed.

(** On an intent whose entity values are lists the two embeddings of the
    local decision agree. *)
Lemma local_decision_of_typed self intent context available_actions now :
  Untyped._make_local_decision self (Untyped.of_typed intent) context
    available_actions now
  = _make_local_decision self intent context available_actions now.
Proof.
  unfold Untyped._make_local_decision, _make_local_decision.
  rewrite evaluate_rules_of_typed.
  destruct (_evaluate_rules _ _ _) as [[|first others]|]; simpl; [done| |done].
  by rewrite confidence_of_typed, reasoning_of_typed.
Qed.

Lemma cache_key_of_typed intent context :
  Untyped._get_decision_cache_key (Untyped.of_typed intent) context
  = _get_decision_cache_key intent context.
Proof. reflexivity. Qed.

(** The same for [make_decision], the delegate seeing the same request. *)
Lemma make_decision_of_typed self post intent context available_actions now :
  Untyped.make_decision self post (Untyped.of_typed intent) context
    available_actions now
  = DecisionEngine.make_decision self
      (fun body => post (Untyped.payload_of_typed body))
      intent context available_actions now.
Proof.
  unfold Untyped.make_decision, DecisionEngine.make_decision.
  rewrite cache_key_of_typed, local_decision_of_typed.
  reflexivity.
Qed.

(** *** Rules without entity requirements *)

Lemma untyped_rule_matches_type_only rule intent context :
  DecisionRule.condition rule !! u "entities" = None ->
  DecisionRule.condition rule !! u "context" = None ->
  Untyped._rule_matches rule intent context =
  Ok (accepts_type (Untyped.Intent.type intent) rule).
Proof.
  unfold Untyped._rule_matches, accepts_type. intros -> ->.
  by destruct (match DecisionRule.condition rule !! u "intent_type" with
               | Some w => _ | None => _ end).
Qed.

Lemma untyped_evaluate_by_type rules intent context :
  Forall (fun rule =>
            DecisionRule.condition rule !! u "entities" = None /\
            DecisionRule.condition rule !! u "context" = None) rules ->
  Untyped._evaluate_rules rules intent context =
  Ok (List.filter (accepts_type (Untyped.Intent.type intent)) rules).
Proof.
  induction 1 as [|rule rules [He Hc] _ IH]; [done|].
  cbn [Untyped._evaluate_rules List.filter].
  rewrite (untyped_rule_matches_type_only _ _ _ He Hc), IH. done.
Qed.

(** *** The energy factor *)

Lemma energy_factor_returns intent context :
  Untyped.action_iterable intent ->
  exists q, Untyped._calculate_energy_factor intent context = Ok q.
Proof.
  intros Hit. unfold Untyped._calculate_energy_factor.
  case_bool_decide as Hty; [|by eexists].
  destruct (Untyped.Intent.entities intent !! u "action") as [v|] eqn:E;
    [|by eexists].
  destruct (Hit Hty v E) as [l ->]. by eexists.
Qed.

Lemma energy_factor_raises intent context v :
  Untyped.Intent.type intent = CONTROL ->
  Untyped.Intent.entities intent !! u "action" = Some v ->
  Untyped.scalar v = true ->
  Untyped._calculate_energy_factor intent context
  = Raise (TypeError (u "object is not iterable")).
Proof.
  intros Hty E Hv. unfold Untyped._calculate_energy_factor.
  rewrite Hty, E. by destruct v.
Qed.

Lemma local_decision_returns self intent context available_actions now :
  rules self = _initialize_rules ->
  Untyped.action_iterable intent ->
  exists d,
    Untyped._make_local_decision self intent context available_actions now
      = Ok d /\
    (Decision.action d, Decision.target d) =
      decided_by_type (Untyped.Intent.type intent) /\
    (Untyped.Intent.type intent = ROUTINE ->
     Decision.confidence d = 1 # 10 /\ Decision.alternatives d = []).
Proof.
  intros Hr Hit. unfold Untyped._make_local_decision.
  rewrite Hr, (untyped_evaluate_by_type _ _ _ builtin_conditions).
  pose proof (builtin_best (Untyped.Intent.type intent)) as Hb.
  destruct (List.filter _ _) as [|first others].
  - eexists. split; [reflexivity|]. rewrite Hb. done.
  - destruct Hb as [Hb Hne].
    unfold Untyped._generate_reasoning, Untyped._calculate_confidence.
    destruct (energy_factor_returns intent context Hit) as [q ->].
    eexists. split; [reflexivity|]. split; [exact Hb|]. done.
Qed.

Lemma local_decision_raises self intent context available_actions now v :
  rules self = _initialize_rules ->
  Untyped.Intent.type intent = CONTROL ->
  Untyped.Intent.entities intent !! u "action" = Some v ->
  Untyped.scalar v = true ->
  Untyped._make_local_decision self intent context available_actions now
  = Raise (TypeError (u "object is not iterable")).
Proof.
  intros Hr Hty E Hv. unfold Untyped._make_local_decision.
  rewrite Hr, (untyped_evaluate_by_type _ _ _ builtin_conditions), Hty.
  destruct (List.filter (accepts_type CONTROL) _initialize_rules)
    as [|first others] eqn:Ef; [by vm_compute in Ef|].
  cbn [mbind result_bind bind].
  unfold Untyped._calculate_confidence.
  by rewrite (energy_factor_raises intent context v).
Qed.

Lemma untyped_make_decision_miss self post intent context available_actions
    now :
  _decision_cache self !! Untyped._get_decision_cache_key intent context
    = None ->
  (forall body, raises (post body)) ->
  Untyped.make_decision self post intent context available_actions now =
  (decision ← Untyped._make_local_decision self intent context
                available_actions now;
   Ok (decision,
       {| rules := rules self;
          factors := factors self;
          _decision_cache :=
            <[Untyped._get_decision_cache_key intent context := decision]>
            (_decision_cache self) |})).
Proof.
  intros Hmiss Hdown. unfold Untyped.make_decision. rewrite Hmiss.
  unfold Untyped._call_decision_api.
  match goal with |- context [post ?b] => specialize (Hdown b);
    destruct (post b); [destruct Hdown|] end.
  reflexivity.
Qed.

Lemma local_decision_raise_inv self intent context available_actions now e :
  rules self = _initialize_rules ->
  Untyped._make_local_decision self intent context available_actions now
    = Raise e ->
  Untyped.Intent.type intent = CONTROL /\
  exists v m, Untyped.Intent.entities intent !! u "action" = Some v /\
              raises (py_iter v) /\ e = TypeError m.
Proof.
  intros Hr H.
  destruct (decide (Untyped.Intent.type intent = CONTROL)) as [Hty|Hty].
  - split; [done|].
    destruct (Untyped.Intent.entities intent !! u "action") as [v|] eqn:E.
    + destruct (py_iter v) as [l|e'] eqn:Hv.
      * destruct (local_decision_returns self intent context available_actions
                    now Hr) as (d & Hd & _); [|congruence].
        intros _ v' Hv'. rewrite E in Hv'. injection Hv' as <-. eauto.
      * exists v. revert H. unfold Untyped._make_local_decision.
        rewrite Hr, (untyped_evaluate_by_type _ _ _ builtin_conditions), Hty.
        destruct (List.filter (accepts_type CONTROL) _initialize_rules)
          as [|first others] eqn:Ef; [by vm_compute in Ef|].
        cbn [mbind result_bind bind].
        unfold Untyped._calculate_confidence, Untyped._calculate_energy_factor.
        rewrite bool_decide_eq_true_2, E, Hv by done.
        cbn [mbind result_bind bind]. intros [= <-].
        destruct v; try discriminate; simpl in Hv; injection Hv as <-;
          eexists; (split; [reflexivity|]); split; done.
    + destruct (local_decision_returns self intent context available_actions
                  now Hr) as (d & Hd & _); [|congruence].
      intros _ v' Hv'. congruence.
  - destruct (local_decision_returns self intent context available_actions
                now Hr) as (d & Hd & _); [|congruence].
    intros Hty'. done.
Qed.

(** C3 (as amended). When every call to the delegate fails and the decision
    cache has no entry under the key of (intent, context), [make_decision]
    has the outcome of [_make_local_decision] for the same arguments: the
    Decision local evaluation returns, which it stores under that key, or
    the exception local evaluation raises, which leaves the method because
    the fallback runs inside the [except] clause.  With the built-in rules
    local evaluation returns a Decision when the intent is not a CONTROL
    intent, has no ["action"] entity, or has one that can be iterated (every
    intent the parser builds), and raises [TypeError] when the ["action"]
    entity of a CONTROL intent is [None], a boolean or a number. *)
Theorem fallback_is_local_decision self post intent context
    available_actions now :
  _decision_cache self !! Untyped._get_decision_cache_key intent context
    = None ->
  (forall body, raises (post body)) ->
  let local :=
    Untyped._make_local_decision self intent context available_actions now in
  let answer :=
    Untyped.make_decision self post intent context available_actions now in
  (forall d, local = Ok d ->
     answer = Ok (d, {| rules := rules self;
                        factors := factors self;
                        _decision_cache :=
                          <[Untyped._get_decision_cache_key intent context := d]>
                          (_decision_cache self) |})) /\
  (forall e, local = Raise e -> answer = Raise e) /\
  (rules self = _initialize_rules -> Untyped.action_iterable intent ->
   exists d, local = Ok d) /\
  (rules self = _initialize_rules ->
   Untyped.Intent.type intent = CONTROL ->
   forall v, Untyped.Intent.entities intent !! u "action" = Some v ->
             Untyped.scalar v = true ->
             exists m, answer = Raise (TypeError m)).
Proof.
  intros Hmiss Hdown local answer. subst local answer.
  rewrite untyped_make_decision_miss by done.
  split; [by intros d ->|]. split; [by intros e ->|]. split.
  - intros Hr Hit.
    destruct (local_decision_returns self intent context available_actions now
                Hr Hit) as (d & Hd & _).
    eauto.
  - intros Hr Hty v E Hv.
    rewrite (local_decision_raises self intent context available_actions now v)
      by done.
    by eexists.
Qed.

Lemma fallback_is_local_decision_witness :
  exists d,
    Untyped._make_local_decision __init__ (Untyped.of_typed intent_eteins)
      ctx0 [] t0 = Ok d /\
    Untyped.make_decision __init__ unavailable (Untyped.of_typed intent_eteins)
      ctx0 [] t0 =
    Ok (d, {| rules := rules __init__;
              factors := factors __init__;
              _decision_cache :=
                <[_get_decision_cache_key intent_eteins ctx0 := d]>
                (_decision_cache __init__) |}).
Proof.
  destruct (fallback_is_local_decision __init__ unavailable
              (Untyped.of_typed intent_eteins) ctx0 [] t0)
    as (Hok & _ & Hret & _).
  - reflexivity.
  - intros body. exact I.
  - destruct Hret as [d Hd].
    + reflexivity.
    + intros _ actions Ha. vm_compute in Ha. injection Ha as <-.
      eexists. reflexivity.
    + exists d. split; [exact Hd|]. exact (Hok d Hd).
Defined.

(** C3 (counterexample). With a delegate that fails at every call:
    on an engine that has already decided the same request at confidence 1,
    a second call at confidence 1/2 returns the cached Decision and not the
    one local evaluation produces for the second intent; and on a new engine
    a CONTROL intent whose ["action"] entity is the number 5 makes
    [make_decision] raise [TypeError]. *)
Lemma fallback_returns_cached_or_raises :
  let engine :=
    snd (after (Untyped.make_decision __init__ unavailable
                  (Untyped.of_typed intent_eteins) ctx0 [] t0)) in
  (forall body, raises (unavailable body)) /\
  match Untyped.make_decision engine unavailable
          (Untyped.of_typed intent_eteins_low) ctx0 [] t0,
        Untyped._make_local_decision engine
          (Untyped.of_typed intent_eteins_low) ctx0 [] t0 with
  | Ok (d, _), Ok d' => d <> d'
  | _, _ => False
  end /\
  Untyped.make_decision __init__ unavailable bad_intent ctx0 [] t0
  = Raise (TypeError (u "object is not iterable")).
Proof.
  split; [intros body; exact I|]. split.
  - vm_compute. intros H. discriminate H.
  - vm_compute. reflexivity.
Qed.

(** X2. With the built-in rules, the outcome of a local decision depends on
    the intent type and, for a CONTROL intent, on whether its ["action"]
    entity can be iterated.  When it can (or the intent is not CONTROL, or
    has no such entity) a Decision is returned whose action and target are
    fixed by the type alone: every CONTROL intent is decided [turn_on],
    whatever its action words, and a ROUTINE intent, for which there is no
    rule, gets the [noop] decision at confidence 0.1 with no alternative.
    When the ["action"] entity of a CONTROL intent is [None], a boolean or
    a number, [TypeError] is raised. *)
Theorem builtin_decision_by_type self intent context available_actions now :
  rules self = _initialize_rules ->
  let local :=
    Untyped._make_local_decision self intent context available_actions now in
  (Untyped.action_iterable intent ->
   exists d,
     local = Ok d /\
     (Decision.action d, Decision.target d) =
       decided_by_type (Untyped.Intent.type intent) /\
     (Untyped.Intent.type intent = ROUTINE ->
      Decision.confidence d = 1 # 10 /\ Decision.alternatives d = [])) /\
  (Untyped.Intent.type intent = CONTROL ->
   forall v, Untyped.Intent.entities intent !! u "action" = Some v ->
             Untyped.scalar v = true ->
             exists m, local = Raise (TypeError m)).
Proof.
  intros Hr local. subst local. split.
  - intros Hit. by apply local_decision_returns.
  - intros Hty v E Hv. eexists. by eapply local_decision_raises.
Qed.

Lemma builtin_decision_by_type_witness :
  (exists d,
     Untyped._make_local_decision __init__ (Untyped.of_typed intent_eteins)
       ctx0 [] t0 = Ok d /\
     (Decision.action d, Decision.target d)
       = (u "turn_on", u "living_room_light")) /\
  exists m,
    Untyped._make_local_decision __init__ bad_intent ctx0 [] t0
    = Raise (TypeError m).
Proof.
  destruct (builtin_decision_by_type __init__ (Untyped.of_typed intent_eteins)
              ctx0 [] t0) as [Hret _]; [reflexivity|].
  destruct (builtin_decision_by_type __init__ bad_intent ctx0 [] t0)
    as [_ Hraise]; [reflexivity|].
  split.
  - destruct Hret as (d & Hd & Ha & _).
    + intros _ actions Ha. vm_compute in Ha. injection Ha as <-.
      eexists. reflexivity.
    + exists d. split; [exact Hd|exact Ha].
  - apply (Hraise eq_refl (PInt 5)); reflexivity.
Defined.

(** X6. [make_decision] on an engine that holds the built-in rules,
    whatever the delegate does (an answer, an error of any kind, a time
    stamp that cannot be read) and whatever the cache holds.  When the
    ["action"] entity of the intent can be iterated (or the intent is not
    CONTROL, or has no such entity) the call returns a Decision, the rules
    are the same afterwards, and the decision returned is the one the cache
    holds under the key of (intent, context) from then on.  The call raises
    only when the cache has no entry under the key, the intent is a CONTROL
    intent and its ["action"] entity cannot be iterated; the exception is
    the [TypeError] of the local evaluation. *)
Theorem make_decision_raises_only_on_entities self post intent context
    available_actions now :
  rules self = _initialize_rules ->
  let key := Untyped._get_decision_cache_key intent context in
  let answer :=
    Untyped.make_decision self post intent context available_actions now in
  (Untyped.action_iterable intent ->
   exists d self',
     answer = Ok (d, self') /\
     rules self' = _initialize_rules /\
     _decision_cache self' !! key = Some d) /\
  (forall e, answer = Raise e ->
     _decision_cache self !! key = None /\
     Untyped.Intent.type intent = CONTROL /\
     exists v m, Untyped.Intent.entities intent !! u "action" = Some v /\
                 raises (py_iter v) /\ e = TypeError m).
Proof.
  intros Hr key answer. subst answer. unfold Untyped.make_decision. fold key.
  destruct (_decision_cache self !! key) as [cached|] eqn:Hc.
  - split; [|done]. intros _. by exists cached, self.
  - match goal with |- context [match ?a with Ok _ => _ | Raise _ => _ end] =>
      destruct a as [decision|e0] end.
    + split; [|done]. intros _. simpl.
      eexists _, _. split; [reflexivity|]. simpl.
      split; [exact Hr|]. by rewrite lookup_insert_eq.
    + split.
      * intros Hit.
        destruct (local_decision_returns self intent context available_actions
                    now Hr Hit) as (d & -> & _). simpl.
        eexists _, _. split; [reflexivity|]. simpl.
        split; [exact Hr|]. by rewrite lookup_insert_eq.
      * intros e He. split; [done|].
        destruct (Untyped._make_local_decision self intent context
                    available_actions now) as [d|e'] eqn:Hl;
          [discriminate He|].
        simpl in He. injection He as <-.
        by apply (local_decision_raise_inv self intent context
                    available_actions now).
Qed.

Lemma make_decision_raises_only_on_entities_witness :
  exists d self',
    Untyped.make_decision __init__ unavailable (Untyped.of_typed intent_salon)
      ctx0 [] t0 = Ok (d, self') /\
    rules self' = _initialize_rules.
Proof.
  destruct (make_decision_raises_only_on_entities __init__ unavailable
              (Untyped.of_typed intent_salon) ctx0 [] t0) as [Hret _].
  - reflexivity.
  - destruct Hret as (d & self' & H & Hr & _).
    + intros _ actions Ha. vm_compute in Ha. injection Ha as <-.
      eexists. reflexivity.
    + exists d, self'. split; [exact H|exact Hr].
Defined.

End UntypedProps.

(** ** Context manager: cache, history, updates and the loop over the sources *)

Module ContextManagerMore.

Import ContextManager Samples ReProps ContextManagerProps.
Local Open Scope nat_scope.

(** *** Clearing the cache *)

Lemma cache_key_contains name user_id now :
  contains (u ":" ++ name ++ u ":") (_get_cache_key name user_id now) = true.
Proof.
  unfold _get_cache_key.
  set (rest := (if str_truthy user_id then default [] user_id
                else u "anonymous") ++ u ":" ++ hour_bucket now).
  replace (u "context:" ++ name ++ u ":" ++ rest)
    with (u "context" ++ (u ":" ++ name ++ u ":") ++ rest).
  - apply contains_app.
  - change (u "context:") with (u "context" ++ u ":").
    by rewrite <- !app_assoc.
Qed.

Lemma clear_cache_lookup self source_name name user_id now :
  source_name = None \/ source_name = Some name ->
  _local_cache (clear_cache self source_name)
    !! _get_cache_key name user_id now = None.
Proof.
  intros Hs. unfold clear_cache.
  destruct (str_truthy source_name) eqn:Ht; [|done].
  destruct Hs as [->| ->]; [done|].
  apply map_lookup_filter_None. right. intros d _.
  cbn [fst default from_option id]. rewrite cache_key_contains. done.
Qed.

(** X10. [clear_cache] with the name of a source removes the entries of that
    source from the local map, for every user and every hour, keeps every
    entry whose key does not contain [:name:], and reaches neither the
    sources nor Redis: what Redis holds stays there. *)
Theorem clear_cache_drops_source self name :
  name <> [] ->
  let cleared := clear_cache self (Some name) in
  (forall user_id now,
     _local_cache cleared !! _get_cache_key name user_id now = None) /\
  (forall k, contains (u ":" ++ name ++ u ":") k = false ->
             _local_cache cleared !! k = _local_cache self !! k) /\
  sources cleared = sources self /\
  trace cleared = trace self.
Proof.
  intros Hn cleared. split; [|split].
  - intros user_id now. apply clear_cache_lookup. by right.
  - intros k Hk. subst cleared. unfold clear_cache.
    destruct name as [|c name]; [done|].
    cbn [str_truthy set_cache _local_cache default from_option id].
    destruct (_local_cache self !! k) as [d|] eqn:E.
    + apply map_lookup_filter_Some. done.
    + apply map_lookup_filter_None. by left.
  - subst cleared. unfold clear_cache. by destruct name.
Qed.

(** X11. After [clear_cache], for all the sources or for one, the next
    request for the data of a cleared source does not find it in the local
    map.  Without Redis the source is read again; with a Redis that still
    holds (truthy) data under the key, that data is served and stored in
    the local map again, and the source is not read. *)
Theorem cleared_source_is_read_again self source_name name user_id now data :
  source_name = None \/ source_name = Some name ->
  read_source name user_id now = Some data ->
  let cleared := clear_cache self source_name in
  let key := _get_cache_key name user_id now in
  (let res := _get_source_data cleared None name user_id now in
   fst res = data /\ trace (snd res) = trace self ++ [Fetch name]) /\
  (forall server d,
     server key = Ok (Some d) -> truthy d = true ->
     let res := _get_source_data cleared (Some server) name user_id now in
     fst res = d /\
     trace (snd res) = trace self ++ [RedisGet key] /\
     _local_cache (snd res) !! key = Some d).
Proof.
  intros Hs Hread cleared key.
  pose proof (clear_cache_lookup self source_name name user_id now Hs) as Hc.
  fold cleared key in Hc.
  assert (Ht : trace cleared = trace self).
  { subst cleared. unfold clear_cache. by destruct (str_truthy _). }
  split.
  - unfold _get_source_data, _get_cached_data. fold key. rewrite Hc, Hread.
    cbn [opt_val_truthy fst snd]. unfold _cache_data.
    destruct (truthy data); simpl; by rewrite Ht.
  - intros server d Hd Htr.
    unfold _get_source_data, _get_cached_data. fold key. rewrite Hc, Hd.
    cbn [opt_val_truthy]. rewrite Htr. simpl.
    split; [done|]. split; [by rewrite Ht|]. apply lookup_insert_eq.
Qed.

Lemma cleared_source_is_read_again_witness :
  let cleared := clear_cache (snd gathered) (Some (u "weather")) in
  let res := _get_source_data cleared None (u "weather") alice t1 in
  fst res = _get_weather_data alice /\
  trace (snd res) = trace (snd gathered) ++ [Fetch (u "weather")].
Proof.
  destruct (cleared_source_is_read_again (snd gathered) (Some (u "weather"))
              (u "weather") alice t1 (_get_weather_data alice)) as [H _].
  - by right.
  - reflexivity.
  - exact H.
Defined.

Lemma clear_cache_drops_source_witness :
  _local_cache (clear_cache (snd gathered) (Some (u "weather")))
    !! _get_cache_key (u "weather") alice t0 = None.
Proof.
  destruct (clear_cache_drops_source (snd gathered) (u "weather")) as [H _].
  - discriminate.
  - apply (H alice t0).
Defined.


(** *** The history of actions *)

Lemma truthy_dict_set k v d : truthy (PDict (dict_set k v d)) = true.
Proof. destruct d as [|[k' v'] d]; simpl; [done|]. by destruct (str_eqb k k'). Qed.

Lemma add_action_sources self r user_id action now :
  sources (add_action_to_history self r user_id action now) = sources self.
Proof.
  unfold add_action_to_history.
  destruct (str_truthy user_id); [|done]. simpl.
  unfold _get_cached_data.
  destruct (_local_cache self !! _) as [c|].
  - destruct (opt_val_truthy _); [|done].
    destruct (appended_history _ _); [|done].
    unfold _cache_data. by destruct r.
  - destruct r as [server|]; [|done].
    destruct (server _) as [[c|]|]; simpl; try done.
    destruct (truthy c); [|done].
    destruct (appended_history _ _); [|done]. done.
Qed.

(** X12. An action added to a cached history is what the history source
    answers from then on, in the same hour: the entry with the last 10 of
    the cached actions followed by the new one is returned as the data of
    the source, without reading the source again and without changing the
    manager, and it is the data [get_context] gathers for the source. *)
Theorem added_action_is_served self r user_id action now1 now2 d old :
  str_truthy user_id = true ->
  _local_cache self !! _get_cache_key (u "history") user_id now1
    = Some (PDict d) ->
  d <> [] ->
  py_get (PDict d) (u "recent_actions") (PList []) = Ok (PList old) ->
  hour_bucket now2 = hour_bucket now1 ->
  let self' := add_action_to_history self r user_id action now1 in
  let entry :=
    PDict (dict_set (u "recent_actions") (PList (last10 (old ++ [action]))) d) in
  _get_source_data self' r (u "history") user_id now2 = (entry, self') /\
  ((exists s, s ∈ sources self /\ ContextSource.name s = u "history" /\
              ContextSource.enabled s = true) ->
   assoc (u "history")
     (fst (gather self' r (sorted_sources (sources self')) user_id now2 []))
   = Some entry).
Proof.
  intros Hu Hc Hd Hold Hb self' entry.
  pose proof (add_action_cached self r user_id action now1 d old
                Hu Hc Hd Hold) as Hnew.
  fold self' entry in Hnew.
  rewrite <- (cache_key_bucket (u "history") user_id now1 now2 Hb) in Hnew.
  pose proof (truthy_dict_set (u "recent_actions")
                (PList (last10 (old ++ [action]))) d) as Ht.
  fold entry in Ht.
  split.
  - unfold _get_source_data, _get_cached_data. rewrite Hnew.
    cbn [opt_val_truthy]. rewrite Ht. done.
  - intros (s & Hin & Hn & Hen).
    apply gather_data; [done..|]. right. exists s. split; [|done].
    subst self'. by rewrite sorted_sources_perm, add_action_sources.
Qed.

Lemma added_action_is_served_witness :
  let self' := add_action_to_history (snd gathered) None alice one_action t0 in
  _get_source_data self' None (u "history") alice t1 =
  (PDict (dict_set (u "recent_actions")
            (PList (last10 (history_actions ++ [one_action]))) history_items),
   self').
Proof.
  destruct (added_action_is_served (snd gathered) None alice one_action t0 t1
              history_items history_actions) as [H _].
  - reflexivity.
  - reflexivity.
  - discriminate.
  - reflexivity.
  - reflexivity.
  - exact H.
Defined.

(** X13. An action added for an anonymous user, or for a user whose history
    is in no cache, is dropped: the local map and the sources stay as they
    are, nothing is written to Redis, and the only outside effect is the
    look-up in Redis, when there is one and the user is named. *)
Theorem action_without_history_is_dropped self r user_id action now :
  str_truthy user_id = false \/
  (_local_cache self !! _get_cache_key (u "history") user_id now = None /\
   forall server, r = Some server ->
     server (_get_cache_key (u "history") user_id now) = Ok None \/
     raises (server (_get_cache_key (u "history") user_id now))) ->
  let self' := add_action_to_history self r user_id action now in
  _local_cache self' = _local_cache self /\
  sources self' = sources self /\
  (trace self' = trace self \/
   str_truthy user_id = true /\ is_Some r /\
   trace self' = trace self ++
     [RedisGet (_get_cache_key (u "history") user_id now)]).
Proof.
  intros H self'. split; [|split; [apply add_action_sources|]];
    subst self'; unfold add_action_to_history;
    (destruct H as [->|[Hn Hr]]; [by (try left)|]);
    (destruct (str_truthy user_id); [|by (try left)]);
    cbn [negb]; unfold _get_cached_data; rewrite Hn;
    (destruct r as [server|]; [|by (try left)]);
    (destruct (Hr server eq_refl) as [Hs|Hs];
     [rewrite Hs|destruct (server _) as [o|e]; [destruct Hs|]]);
    simpl; try done; right; split; [done| |done|]; split; try done;
    by eexists.
Qed.

Lemma action_without_history_is_dropped_witness :
  _local_cache (add_action_to_history __init__ None alice one_action t0)
    = _local_cache __init__.
Proof.
  destruct (action_without_history_is_dropped __init__ None alice one_action
              t0) as [H _].
  - right. split; [reflexivity|]. intros server Hs. discriminate Hs.
  - exact H.
Defined.

(** *** Updating a context *)





(** An update whose [device_states] is not a dict raises. *)
Lemma update_context_bad_states context updates now v :
  updates !! u "device_states" = Some v ->
  (forall d, v <> PDict d) ->
  raises (update_context context updates now).
Proof.
  intros Hv Hd. unfold update_context, get. rewrite Hv.
  destruct v; try done. by destruct (Hd d).
Qed.

(** *** The loop over the sources *)

Lemma source_data_extends self r n user_id now :
  extends n (_get_cache_key n user_id now) self
    (snd (_get_source_data self r n user_id now)).
Proof.
  destruct (source_data_cases self r n user_id now)
    as [(d & _ & _ & ->)|(_ & H & _)]; [apply extends_refl|done].
Qed.

Lemma gather_skips r user_id now n l :
  forall self context_data,
    Forall (fun s => ContextSource.name s = n ->
                     ContextSource.enabled s = false) l ->
    assoc n context_data = None ->
    let g := gather self r l user_id now context_data in
    assoc n (fst g) = None /\
    _local_cache (snd g) !! _get_cache_key n user_id now
      = _local_cache self !! _get_cache_key n user_id now /\
    exists evs, trace (snd g) = trace self ++ evs /\
                Forall (fun e => ~ event_of n (_get_cache_key n user_id now) e)
                       evs.
Proof.
  induction l as [|s l IH]; intros self cd Hl Hcd; simpl.
  - split; [done|]. split; [done|]. exists []. by rewrite app_nil_r.
  - apply Forall_cons in Hl as [Hs Hl].
    destruct (ContextSource.enabled s) eqn:Hen; simpl; [|by apply IH].
    assert (Hne : ContextSource.name s <> n).
    { intros E. specialize (Hs E). congruence. }
    pose proof (source_data_extends self r (ContextSource.name s) user_id now)
      as (_ & (evs1 & Ht1 & Hf1) & Hc1).
    destruct (_get_source_data self r (ContextSource.name s) user_id now)
      as [sd self1]. cbn [fst snd] in *.
    destruct (IH self1 (if truthy sd
                        then dict_set (ContextSource.name s) sd cd else cd) Hl)
      as (Ha & Hc & evs2 & Ht2 & Hf2).
    { destruct (truthy sd); [|done]. by rewrite assoc_dict_set_ne. }
    assert (Hk : _get_cache_key n user_id now
                 <> _get_cache_key (ContextSource.name s) user_id now).
    { intros E. by apply cache_key_inj in E. }
    split; [done|]. split; [by rewrite Hc; apply Hc1|].
    exists (evs1 ++ evs2). rewrite Ht2, Ht1, app_assoc. split; [done|].
    apply Forall_app. split; [|done].
    eapply Forall_impl; [exact Hf1|].
    set (k1 := _get_cache_key (ContextSource.name s) user_id now) in *.
    set (k2 := _get_cache_key n user_id now) in *.
    clearbody k1 k2.
    intros e [He|[He|(ttl & data & He)]] [He'|[He'|(ttl' & data' & He')]];
      subst e; try discriminate; injection He'; congruence.
Qed.

(** X15. A source that is disabled is left alone by [get_context]: it is not
    read, Redis is neither asked for its entry nor given one, the local map
    keeps what it had under its key, and the source contributes nothing to
    the data that are merged. *)
Theorem disabled_source_is_not_read self r user_id now n :
  (forall s, s ∈ sources self -> ContextSource.name s = n ->
             ContextSource.enabled s = false) ->
  let key := _get_cache_key n user_id now in
  let after := snd (get_context self r user_id now) in
  (exists evs,
     trace after = trace self ++ evs /\
     (Fetch n ∉ evs) /\ (RedisGet key ∉ evs) /\
     forall ttl data, RedisSetex key ttl data ∉ evs) /\
  _local_cache after !! key = _local_cache self !! key /\
  assoc n (fst (gather self r (sorted_sources (sources self)) user_id now []))
    = None.
Proof.
  intros Hdis key after.
  destruct (gather_skips r user_id now n (sorted_sources (sources self))
              self []) as (Ha & Hc & evs & Ht & Hf); [|done|].
  { apply Forall_forall. intros s Hin. apply Hdis.
    by rewrite sorted_sources_perm in Hin. }
  subst after. rewrite get_context_state.
  split; [|by split].
  exists evs. split; [done|]. rewrite Forall_forall in Hf.
  repeat split; [| |intros ttl data]; intros Hin; apply (Hf _ Hin).
  - by left.
  - right. by left.
  - right. right. eauto.
Qed.

Lemma disabled_source_is_not_read_witness :
  assoc (u "weather")
    (fst (gather without_weather None (sorted_sources (sources without_weather))
            alice t0 [])) = None.
Proof.
  destruct (disabled_source_is_not_read without_weather None alice t0
              (u "weather")) as (_ & _ & H).
  - intros s Hin Hn. vm_compute in Hin.
    repeat (apply elem_of_cons in Hin as [->|Hin];
            [first [reflexivity|vm_compute in Hn; discriminate Hn]|]).
    by apply elem_of_nil in Hin.
  - exact H.
Defined.

(** *** Order of the readings *)

Lemma read_source_known n user_id now :
  is_Some (read_source n user_id now) <-> known_source n = true.
Proof.
  unfold read_source, known_source.
  repeat (destruct (str_eqb n _); [split; [done|by eexists]|]).
  split; [by intros [? ?]|done].
Qed.

Lemma insert_source_sorted s l :
  StronglySorted by_priority l -> StronglySorted by_priority (insert_source s l).
Proof.
  induction 1 as [|x l Hl IH Hx]; simpl.
  - by repeat constructor.
  - destruct (_ <=? _)%Z eqn:E.
    + apply Z.leb_le in E. constructor; [by constructor|].
      constructor; [done|]. eapply Forall_impl; [exact Hx|].
      unfold by_priority. intros y Hy. lia.
    + apply Z.leb_gt in E. constructor; [done|].
      rewrite insert_source_perm. constructor; [|done].
      unfold by_priority. lia.
Qed.

Lemma sorted_sources_sorted l : StronglySorted by_priority (sorted_sources l).
Proof.
  induction l as [|s l IH]; simpl; [constructor|by apply insert_source_sorted].
Qed.

Lemma insert_source_stable p s l :
  filter (fun x => ContextSource.priority x = p) (insert_source s l) =
  filter (fun x => ContextSource.priority x = p) (s :: l).
Proof.
  induction l as [|x l IH]; simpl; [done|].
  destruct (_ <=? _)%Z eqn:E; [done|]. apply Z.leb_gt in E.
  rewrite (filter_cons _ x (insert_source s l)), IH.
  rewrite !filter_cons.
  destruct (decide (ContextSource.priority x = p)),
           (decide (ContextSource.priority s = p)); try done; lia.
Qed.

Lemma sorted_sources_stable p l :
  filter (fun x => ContextSource.priority x = p) (sorted_sources l) =
  filter (fun x => ContextSource.priority x = p) l.
Proof.
  induction l as [|s l IH]; simpl; [done|].
  by rewrite insert_source_stable, !filter_cons, IH.
Qed.

Lemma gather_reads user_id now l :
  forall self context_data,
    NoDup (ContextSource.name <$>
           filter (fun s => ContextSource.enabled s = true) l) ->
    (forall s, s ∈ l -> ContextSource.enabled s = true ->
       _local_cache self
         !! _get_cache_key (ContextSource.name s) user_id now = None) ->
    trace (snd (gather self None l user_id now context_data))
    = trace self ++ reads l.
Proof.
  unfold reads.
  induction l as [|s l IH]; intros self cd Hnd Hc.
  - simpl. by rewrite app_nil_r.
  - cbn [gather].
    destruct (ContextSource.enabled s) eqn:Hen; cbn [negb].
    + rewrite filter_cons_True in Hnd |- * by done.
      rewrite fmap_cons in Hnd |- *. apply NoDup_cons in Hnd as [Hs Hnd].
      pose proof (Hc s (list_elem_of_here _ _) Hen) as Hmiss.
      assert (Hstep :
        let res := _get_source_data self None (ContextSource.name s)
                     user_id now in
        trace (snd res) = trace self ++
          (if known_source (ContextSource.name s)
           then [Fetch (ContextSource.name s)] else []) /\
        forall k, k <> _get_cache_key (ContextSource.name s) user_id now ->
                  _local_cache (snd res) !! k = _local_cache self !! k).
      { unfold _get_source_data, _get_cached_data. rewrite Hmiss.
        cbn [opt_val_truthy].
        pose proof (read_source_known (ContextSource.name s) user_id now) as Hk.
        destruct (read_source _ _ _) as [data|].
        - rewrite (proj1 Hk) by by eexists.
          unfold _cache_data.
          destruct (truthy data); simpl; (split; [done|]); [|done].
          intros k Hne. by rewrite lookup_insert_ne.
        - destruct (known_source _).
          + destruct (proj2 Hk eq_refl) as [? ?]. done.
          + simpl. by rewrite app_nil_r. }
      destruct (_get_source_data self None (ContextSource.name s) user_id now)
        as [sd self1]. cbn [fst snd] in Hstep. destruct Hstep as [Ht1 Hc1].
      rewrite IH; [|done|].
      * rewrite Ht1, <- app_assoc. f_equal.
        rewrite filter_cons. by destruct (known_source _).
      * intros s' Hin Hen'. rewrite Hc1.
        -- apply Hc; [by apply list_elem_of_further|done].
        -- intros E. apply cache_key_inj in E. apply Hs.
           rewrite <- E. apply list_elem_of_fmap_2.
           by apply list_elem_of_filter.
    + rewrite filter_cons_False in Hnd |- * by congruence.
      apply IH; [done|]. intros s' Hin. apply Hc.
      by apply list_elem_of_further.
Qed.

(** X16. On a manager whose local map is empty, used without Redis, and whose
    enabled sources have distinct names, [get_context] reads every enabled
    source that has a reader exactly once and in the order of the
    priorities, lowest number first, sources of equal priority in the
    order of the list; a source without a reader and a disabled source are
    not read. *)
Theorem sources_are_read_in_priority_order self user_id now :
  _local_cache self = ∅ ->
  NoDup (ContextSource.name <$>
         filter (fun s => ContextSource.enabled s = true) (sources self)) ->
  let order := sorted_sources (sources self) in
  StronglySorted by_priority order /\
  (forall p, filter (fun s => ContextSource.priority s = p) order =
             filter (fun s => ContextSource.priority s = p) (sources self)) /\
  trace (snd (get_context self None user_id now)) = trace self ++ reads order.
Proof.
  intros Hc Hnd order.
  split; [apply sorted_sources_sorted|].
  split; [intros p; apply sorted_sources_stable|].
  rewrite get_context_state. apply gather_reads.
  - subst order. by rewrite sorted_sources_perm.
  - intros s _ _. rewrite Hc. apply lookup_empty.
Qed.

Lemma sources_are_read_in_priority_order_witness :
  trace (snd (get_context __init__ None alice t0)) =
  map Fetch [u "user_profile"; u "device_states"; u "environment";
             u "weather"; u "time"; u "history"].
Proof.
  destruct (sources_are_read_in_priority_order __init__ alice t0)
    as (_ & _ & H).
  - reflexivity.
  - apply (bool_decide_unpack _). vm_compute. exact I.
  - exact H.
Defined.

End ContextManagerMore.

(** ** Protocols: observers, connections, subscriptions *)

Module ProtocolsMore.

Import Protocols Transport Samples ProtocolsProps.
Local Open Scope nat_scope.

(** *** Observers *)

Lemma broadcast_none (l : list N) (n : notification) observer :
  observer ∉ l ->
  map snd (filter (fun d => fst d = observer) (map (fun o => (o, n)) l)) = [].
Proof.
  induction l as [|x l IH]; intros Hin; [done|].
  apply not_elem_of_cons in Hin as [Hne Hin].
  simpl. rewrite filter_cons. simpl.
  destruct (decide (x = observer)); [congruence|]. by apply IH.
Qed.

Lemma remove_first_subset x l y : y ∈ Protocol.remove_first x l -> y ∈ l.
Proof.
  induction l as [|z l IH]; simpl; [done|].
  destruct (x =? z)%N; [by apply list_elem_of_further|].
  intros H. apply elem_of_cons in H as [->|H]; [apply list_elem_of_here|].
  by apply list_elem_of_further, IH.
Qed.

Lemma remove_first_nodup x l :
  NoDup l -> NoDup (Protocol.remove_first x l) /\ x ∉ Protocol.remove_first x l.
Proof.
  induction 1 as [|z l Hz Hl [IH1 IH2]]; simpl.
  - split; [constructor|]. apply not_elem_of_nil.
  - destruct (x =? z)%N eqn:E.
    + apply N.eqb_eq in E. subst. done.
    + apply N.eqb_neq in E. split.
      * constructor; [|done]. intros H. by apply remove_first_subset in H.
      * apply not_elem_of_cons. done.
Qed.

Lemma remove_first_other x l y :
  y <> x -> y ∈ l -> y ∈ Protocol.remove_first x l.
Proof.
  intros Hne. induction l as [|z l IH]; simpl; [done|].
  intros H. destruct (x =? z)%N eqn:E.
  - apply N.eqb_eq in E. subst.
    apply elem_of_cons in H as [->|H]; done.
  - apply elem_of_cons in H as [->|H]; [apply list_elem_of_here|].
    by apply list_elem_of_further, IH.
Qed.

(** X17. A message that arrives is handed once to each registered observer
    and to nobody else, and leaves the state of the protocol as it is. *)
Theorem message_reaches_each_observer_once self message observer :
  NoDup (Protocol.observers self) ->
  let self' := Protocol._notify_message self message in
  Protocol.received self' observer =
    Protocol.received self observer ++
    (if bool_decide (observer ∈ Protocol.observers self)
     then [on_message message] else []) /\
  Protocol.state self' = Protocol.state self /\
  Protocol.observers self' = Protocol.observers self.
Proof.
  intros Hnd self'. split; [|done].
  unfold Protocol.received. simpl. rewrite filter_app, map_app. f_equal.
  case_bool_decide.
  - by apply broadcast_once.
  - by apply broadcast_none.
Qed.

(** X18. Registering an observer twice registers it once, and an observer
    that was removed receives nothing any more, of state changes and of
    messages alike, while the remaining observers still receive each
    notification once. *)
Theorem removed_observer_receives_nothing self observer st error message :
  NoDup (Protocol.observers self) ->
  let removed := Protocol.remove_observer self observer in
  NoDup (Protocol.observers removed) /\
  Protocol.received (Protocol._notify_state_change removed st error) observer
    = Protocol.received self observer /\
  Protocol.received (Protocol._notify_message removed message) observer
    = Protocol.received self observer /\
  (forall other, other <> observer -> other ∈ Protocol.observers self ->
     Protocol.received (Protocol._notify_state_change removed st error) other
       = Protocol.received self other ++ [on_state_change st error]) /\
  Protocol.add_observer (Protocol.add_observer self observer) observer
    = Protocol.add_observer self observer.
Proof.
  intros Hnd removed.
  destruct (remove_first_nodup observer _ Hnd) as [Hnd' Hout].
  split; [done|]. split; [|split; [|split]].
  - rewrite received_app. subst removed. simpl.
    rewrite broadcast_none by done. apply app_nil_r.
  - unfold Protocol.received. simpl. rewrite filter_app, map_app.
    rewrite broadcast_none by done. apply app_nil_r.
  - intros other Hne Hin. rewrite received_app. subst removed. simpl.
    rewrite broadcast_once; [done..|]. by apply remove_first_other.
  - unfold Protocol.add_observer at 1.
    rewrite bool_decide_eq_true_2; [done|].
    unfold Protocol.add_observer. case_bool_decide; [done|]. simpl.
    apply elem_of_app. right. apply list_elem_of_here.
Qed.

Lemma message_reaches_each_observer_once_witness :
  Protocol.received
    (Protocol._notify_message (MQTTProtocol.base observed_mqtt) lamp_message)
    2%N = [on_message lamp_message].
Proof.
  destruct (message_reaches_each_observer_once
              (MQTTProtocol.base observed_mqtt) lamp_message 2%N) as [H _].
  - apply add_observer_nodup, add_observer_nodup, NoDup_nil_2.
  - exact H.
Defined.

Lemma removed_observer_receives_nothing_witness :
  Protocol.received
    (Protocol._notify_message
       (Protocol.remove_observer (MQTTProtocol.base observed_mqtt) 2%N)
       lamp_message) 2%N = [].
Proof.
  destruct (removed_observer_receives_nothing
              (MQTTProtocol.base observed_mqtt) 2%N ERROR None lamp_message)
    as (_ & _ & H & _).
  - apply add_observer_nodup, add_observer_nodup, NoDup_nil_2.
  - exact H.
Defined.

(** *** Connecting and disconnecting *)

(** X19. [connect()] with a broker that accepts the connection returns true;
    the state goes through CONNECTING to CONNECTED, each registered
    observer is told of both, in that order and without an error; the
    protocol holds a connected client and has started its listening task. *)
Theorem connect_reachable_broker self :
  NoDup (Protocol.observers (MQTTProtocol.base self)) ->
  let res := MQTTProtocol.connect self (Ok tt) in
  fst res = true /\
  Protocol.state (MQTTProtocol.base (snd res)) = CONNECTED /\
  Protocol.states (MQTTProtocol.base (snd res)) =
    Protocol.states (MQTTProtocol.base self) ++ [CONNECTING; CONNECTED] /\
  MQTTProtocol._listen_task (snd res) = true /\
  (exists client, MQTTProtocol._client (snd res) = Some client /\
                  MQTTClient._connected client = true) /\
  forall observer,
    observer ∈ Protocol.observers (MQTTProtocol.base self) ->
    Protocol.received (MQTTProtocol.base (snd res)) observer =
    Protocol.received (MQTTProtocol.base self) observer ++
    [on_state_change CONNECTING None; on_state_change CONNECTED None].
Proof.
  intros Hnd. simpl.
  split; [done|]. split; [done|]. split; [by rewrite <- app_assoc|].
  split; [done|]. split; [by eexists|].
  intros observer Hin.
  rewrite !received_app. simpl.
  rewrite !broadcast_once by done. by rewrite <- app_assoc.
Qed.

Lemma connect_reachable_broker_witness :
  let res := MQTTProtocol.connect observed_mqtt (Ok tt) in
  fst res = true /\
  Protocol.received (MQTTProtocol.base (snd res)) 1%N =
  [on_state_change CONNECTING None; on_state_change CONNECTED None].
Proof.
  destruct (connect_reachable_broker observed_mqtt)
    as (H1 & _ & _ & _ & _ & H).
  - apply add_observer_nodup, add_observer_nodup, NoDup_nil_2.
  - split; [exact H1|]. apply (H 1%N). vm_compute. apply list_elem_of_here.
Defined.

(** X20. [disconnect()], from any state and whatever closing the connection
    does: the client is dropped and the listening task stopped, the state is
    DISCONNECTED and each observer is told so once.  From then on [publish],
    [subscribe] and [unsubscribe] answer false without reaching the broker,
    and [send_command] raises [RuntimeError]. *)
Theorem nothing_is_sent_after_disconnect self net :
  NoDup (Protocol.observers (MQTTProtocol.base self)) ->
  let self' := disconnect self net in
  Protocol.state (MQTTProtocol.base self') = DISCONNECTED /\
  MQTTProtocol._client self' = None /\
  MQTTProtocol._listen_task self' = false /\
  (forall observer,
     observer ∈ Protocol.observers (MQTTProtocol.base self) ->
     Protocol.received (MQTTProtocol.base self') observer =
     Protocol.received (MQTTProtocol.base self) observer ++
     [on_state_change DISCONNECTED None]) /\
  (forall net' topic payload qos retain,
     publish self' net' topic payload qos retain = false) /\
  (forall net' topic qos,
     subscribe self' net' topic qos = (false, self') /\
     unsubscribe self' net' topic = (false, self')) /\
  (forall net' device_id command parameters,
     MQTTProtocol.send_command self' net' device_id command parameters
     = Raise (RuntimeError (u "Client MQTT non connecté"))).
Proof.
  intros Hnd self'.
  assert (Hc : MQTTProtocol._client self' = None).
  { subst self'. unfold disconnect. simpl.
    by destruct (MQTTProtocol._client self). }
  assert (Hb : MQTTProtocol.base self' =
               Protocol._notify_state_change (MQTTProtocol.base self)
                 DISCONNECTED None).
  { subst self'. unfold disconnect. simpl.
    by destruct (MQTTProtocol._client self). }
  split; [by rewrite Hb|]. split; [done|]. split.
  { subst self'. unfold disconnect. simpl.
    by destruct (MQTTProtocol._client self). }
  split.
  { intros observer Hin. rewrite Hb, received_app.
    by rewrite broadcast_once. }
  split; [intros; unfold publish; by rewrite Hc|].
  split; [intros; unfold subscribe, unsubscribe; by rewrite Hc|].
  intros. unfold MQTTProtocol.send_command. by rewrite Hc.
Qed.

Lemma nothing_is_sent_after_disconnect_witness :
  let self' :=
    disconnect (snd (MQTTProtocol.connect observed_mqtt (Ok tt))) (Ok tt) in
  Protocol.state (MQTTProtocol.base self') = DISCONNECTED /\
  MQTTProtocol.send_command self' (Ok tt) (u "lamp") (u "home/lamp/set") ∅
  = Raise (RuntimeError (u "Client MQTT non connecté")).
Proof.
  destruct (nothing_is_sent_after_disconnect
              (snd (MQTTProtocol.connect observed_mqtt (Ok tt))) (Ok tt))
    as (H1 & _ & _ & _ & _ & _ & H).
  - apply (bool_decide_unpack _). vm_compute. exact I.
  - split; [exact H1|]. apply H.
Defined.

(** X21. After a connection that the broker refused the protocol still holds
    a client, one that is not connected: [publish] answers false, and
    [send_command] does not raise as it does before any [connect], it
    returns a result that says [success: False], without reaching the
    broker. *)
Theorem send_command_after_refused_connection self e net device_id command
    parameters :
  let self' := snd (MQTTProtocol.connect self (Raise e)) in
  (forall topic payload qos retain,
     publish self' net topic payload qos retain = false) /\
  exists answer,
    MQTTProtocol.send_command self' net device_id command parameters
      = Ok answer /\
    answer !! u "success" = Some (PBool false) /\
    answer !! u "device_id" = Some (PStr device_id) /\
    answer !! u "topic" = Some (PStr command).
Proof.
  intros self'. split; [done|].
  eexists. split; [reflexivity|]. done.
Qed.

(** *** Subscriptions *)

(** X22. The subscriptions the client records follow the broker: a
    subscription is recorded with its quality of service exactly when the
    client is connected and the broker accepts it, an unsubscription removes
    the topic under the same condition, and in every other case the answer
    is false and the record is unchanged.  A new [connect] starts from an
    empty record, whatever was subscribed before. *)
Theorem subscriptions_follow_the_broker self net topic qos :
  let accepted :=
    match MQTTProtocol._client self, net with
    | Some client, Ok _ =>
      MQTTClient._connected client && MQTTClient._client client
    | _, _ => false
    end in
  let sub := subscribe self net topic qos in
  let unsub := unsubscribe self net topic in
  fst sub = accepted /\
  fst unsub = accepted /\
  subscriptions (snd sub) =
    (if accepted then <[topic := qos]> (subscriptions self)
     else subscriptions self) /\
  subscriptions (snd unsub) =
    (if accepted then delete topic (subscriptions self)
     else subscriptions self) /\
  forall broker, subscriptions (snd (MQTTProtocol.connect self broker)) = ∅.
Proof.
  intros accepted sub unsub. subst accepted sub unsub.
  assert (Hnew : forall broker,
             subscriptions (snd (MQTTProtocol.connect self broker)) = ∅)
    by (by intros []).
  unfold subscribe, unsubscribe, subscriptions, client_subscribe,
    client_unsubscribe.
  destruct self as [base [[c k subs]|] task]; simpl.
  - destruct k, c, net; simpl; repeat (split; [done|]); exact Hnew.
  - repeat (split; [done|]); exact Hnew.
Qed.

(** *** HTTP *)

(** X23. [HTTPProtocol.connect]: when the HTTP client can be set up the
    answer is true and the observers are told CONNECTING, then CONNECTED;
    when it cannot, the answer is false, the state is ERROR and the
    observers are told CONNECTING, then ERROR together with the exception
    itself.  After such a failure [publish] answers false and [send_command]
    raises, whatever the server would do. *)
Theorem http_connect_outcomes self setup :
  NoDup (Protocol.observers (HTTPProtocol.base self)) ->
  let res := http_connect self setup in
  let final := match setup with Ok _ => CONNECTED | Raise _ => ERROR end in
  let error := match setup with Ok _ => None | Raise e => Some e end in
  fst res = bool_decide (final = CONNECTED) /\
  Protocol.state (HTTPProtocol.base (snd res)) = final /\
  (forall observer,
     observer ∈ Protocol.observers (HTTPProtocol.base self) ->
     Protocol.received (HTTPProtocol.base (snd res)) observer =
     Protocol.received (HTTPProtocol.base self) observer ++
     [on_state_change CONNECTING None; on_state_change final error]) /\
  (raises setup ->
   forall net topic payload device_id command parameters,
     http_publish (snd res) net topic payload = false /\
     raises (HTTPProtocol.send_command (snd res) net device_id command
               parameters)).
Proof.
  intros Hnd res final error. subst res final error.
  destruct setup as [[]|e]; simpl.
  - split; [done|]. split; [done|]. split; [|done].
    intros observer Hin. rewrite !received_app. simpl.
    rewrite !broadcast_once by done. by rewrite <- app_assoc.
  - split; [done|]. split; [done|]. split.
    + intros observer Hin. rewrite !received_app. simpl.
      rewrite !broadcast_once by done. by rewrite <- app_assoc.
    + intros _ net topic payload device_id command parameters.
      split; [done|].
      unfold HTTPProtocol.send_command. simpl.
      by destruct (truthy _).
Qed.

Lemma http_connect_outcomes_witness :
  let res := http_connect observed_http unreachable in
  fst res = false /\
  Protocol.received (HTTPProtocol.base (snd res)) 7%N =
  [on_state_change CONNECTING None;
   on_state_change ERROR (Some (OSError (u "Connection refused")))].
Proof.
  destruct (http_connect_outcomes observed_http unreachable) as (H1 & _ & H & _).
  - apply (bool_decide_unpack _). vm_compute. exact I.
  - split; [exact H1|]. apply (H 7%N). vm_compute. apply list_elem_of_here.
Defined.

(** X24. [HTTPProtocol.publish] answers true exactly when the protocol has a
    client that was set up, the POST to the topic taken as URL gets an
    answer, and the status of the answer is below 400; no failure of the
    exchange leaves the method. *)
Theorem http_publish_succeeds_iff self net topic payload :
  http_publish self net topic payload = true <->
  HTTPProtocol._client self = Some true /\
  exists response,
    net {| HTTPRequest.method := u "POST";
           HTTPRequest.url := PStr topic;
           HTTPRequest.headers := PDict [];
           HTTPRequest.data := payload;
           HTTPRequest.params := PDict [] |} = Ok response /\
    (HTTPResponse.status_code response < 400)%Z.
Proof.
  unfold http_publish, HTTPProtocol.request.
  destruct (HTTPProtocol._client self) as [[]|]; simpl.
  - destruct (net _) as [response|e]; simpl.
    + rewrite Z.ltb_lt. split; [by eauto|]. by intros (_ & r & [= <-] & H).
    + split; [done|]. by intros (_ & r & H & _).
  - split; [done|]. by intros [[=] _].
  - split; [done|]. by intros [[=] _].
Qed.

End ProtocolsMore.

(** ** Intent parser: confidence, entities, validation, suggestions *)

Module IntentParserMore.

Import Re IntentParser ReProps PyFacts Samples IntentParserProps.
Local Open Scope Q_scope.

(** *** Confidence *)

Lemma bump_nonneg t d sc :
  0 <= d -> Forall (fun e => 0 <= snd e) sc ->
  Forall (fun e => 0 <= snd e) (bump t d sc).
Proof.
  intros Hd. unfold bump. induction 1 as [|e sc He _ IH]; simpl; [done|].
  constructor; [|done]. case_bool_decide; simpl; [|done].
  rewrite <- (Qplus_0_r 0). by apply Qplus_le_compat.
Qed.

Lemma scoring_nonneg {A} (c : A -> bool) (d : Q)
    (l : list (IntentType * list A)) :
  0 <= d ->
  forall sc,
    Forall (fun e => 0 <= snd e) sc ->
    Forall (fun e => 0 <= snd e)
      (foldl (fun sc e =>
                foldl (fun sc x => if c x then bump (fst e) d sc else sc)
                      sc (snd e)) sc l).
Proof.
  intros Hd. induction l as [|e l IH]; intros sc Hsc; simpl; [done|].
  apply IH. revert sc Hsc.
  induction (snd e) as [|x xs IHx]; intros sc Hsc; simpl; [done|].
  apply IHx. destruct (c x); [by apply bump_nonneg|done].
Qed.

Lemma raw_scores_nonneg text : Forall (fun e => 0 <= snd e) (raw_scores text).
Proof.
  unfold raw_scores, keyword_scores, pattern_scores.
  apply (scoring_nonneg (fun keyword => contains (u keyword) text)); [done|].
  apply (scoring_nonneg (fun pattern => search pattern text)); [done|].
  repeat constructor; done.
Qed.

Lemma best_loop_in l : forall best, best_loop best l ∈ best :: l.
Proof.
  induction l as [|e l IH]; intros best; simpl; [apply list_elem_of_here|].
  specialize (IH (if Qltb (snd best) (snd e) then e else best)).
  apply elem_of_cons in IH as [->|IH].
  - destruct (Qltb _ _); [apply list_elem_of_further|]; apply list_elem_of_here.
  - by do 2 apply list_elem_of_further.
Qed.

Lemma detect_confidence_le text : snd (_detect_intent_type text) <= 1.
Proof.
  unfold _detect_intent_type.
  destruct (Qltb _ (1 # 10)) eqn:E; [done|]. apply Qltb_ge in E.
  pose proof (raw_scores_fst text) as Hfst.
  pose proof (raw_scores_nonneg text) as Hpos.
  destruct (raw_scores text)
    as [|[t1 a] [|[t2 b] [|[t3 c] [|[t4 d] [|[t5 e] [|[t6 f] [|]]]]]]];
    try discriminate.
  clear Hfst.
  repeat (apply Forall_cons in Hpos as [? Hpos]). simpl in *.
  unfold normalise in *. unfold total in *. simpl foldl in *.
  set (tot := 0 + a + b + c + d + e + f) in *.
  destruct (Qltb 0 tot) eqn:Ht.
  - apply Qltb_lt in Ht. unfold best_of in *. simpl map in *.
    cbv iota in *.
    match goal with |- snd (best_loop ?x ?l) <= 1 =>
      pose proof (best_loop_in l x) as Hin end.
    assert (Hle : forall x, 0 <= x -> x <= tot -> x / tot <= 1).
    { intros x _ Hx. apply Qle_shift_div_r; [done|]. by rewrite Qmult_1_l. }
    repeat (apply elem_of_cons in Hin as [->|Hin];
            [simpl; apply Hle; [done|unfold tot; lra]|]).
    by apply elem_of_nil in Hin.
  - apply Qltb_ge in Ht. unfold best_of in *. cbv iota in *.
    match goal with |- snd (best_loop ?x ?l) <= 1 =>
      pose proof (best_loop_in l x) as Hin end.
    repeat (apply elem_of_cons in Hin as [->|Hin];
            [simpl; unfold tot in Ht; lra|]).
    by apply elem_of_nil in Hin.
Qed.

(** X25. Whatever the text, the confidence of the parsed intent lies between
    0.1 and 1. *)
Theorem parse_confidence_in_range text user_id now :
  1 # 10 <= Intent.confidence (parse text user_id now) /\
  Intent.confidence (parse text user_id now) <= 1.
Proof.
  unfold parse.
  pose proof (detect_confidence (strip (lower text))) as Hlo.
  pose proof (detect_confidence_le (strip (lower text))) as Hhi.
  destruct (_detect_intent_type (strip (lower text))) as [ty conf].
  done.
Qed.

(** *** Entities *)

Lemma add_matches_distinct ms : forall vals,
  NoDup vals -> Forall (fun v => v <> []) vals ->
  NoDup (add_matches vals ms) /\ Forall (fun v => v <> []) (add_matches vals ms).
Proof.
  unfold add_matches.
  induction ms as [|it ms IH]; intros vals Hnd Hne; simpl; [done|].
  destruct (_ && _) eqn:E; [|exact (IH _ Hnd Hne)].
  apply andb_true_iff in E as [E1 E2].
  apply negb_true_iff, bool_decide_eq_false in E1.
  apply negb_true_iff, bool_decide_eq_false in E2.
  apply (IH (vals ++ [match_value it])).
  - apply NoDup_app. split; [done|]. split; [|apply NoDup_singleton].
    intros x Hx Hx'. apply list_elem_of_singleton in Hx'. by subst.
  - apply Forall_app. split; [done|]. by constructor.
Qed.

Lemma category_values_distinct text pats :
  NoDup (category_values text pats) /\
  Forall (fun v => v <> []) (category_values text pats).
Proof.
  unfold category_values.
  assert (H : NoDup (@nil str) /\ Forall (fun v : str => v <> []) [])
    by (split; constructor).
  revert H. generalize (@nil str).
  induction pats as [|p pats IH]; intros vals [Hnd Hne]; simpl; [done|].
  apply IH. by apply add_matches_distinct.
Qed.

Lemma categories_lookup_cases text l : forall m k pats,
  NoDup (map fst l) -> (k, pats) ∈ l ->
  foldl (category_step text) m l !! k =
  match category_values text pats with
  | [] => m !! k
  | vals => Some (map PStr vals)
  end.
Proof.
  induction l as [|e l IH]; intros m k pats Hnd Hin; simpl.
  - by apply elem_of_nil in Hin.
  - simpl in Hnd. apply NoDup_cons in Hnd as [Hk Hnd].
    apply elem_of_cons in Hin as [<-|Hin].
    + rewrite categories_other by done.
      unfold category_step. simpl.
      destruct (category_values text pats) eqn:E; [done|].
      apply lookup_insert_eq.
    + rewrite (IH _ k pats) by done.
      destruct (category_values text pats); [|done].
      apply category_step_other. intros ->. apply Hk.
      change (fst e) with (fst (fst e, pats)).
      by apply list_elem_of_fmap_2.
Qed.

Lemma entity_patterns_nodup : NoDup (map fst entity_patterns).
Proof. apply (bool_decide_unpack _). vm_compute. exact I. Qed.

(** What the loop over the categories leaves under a key. *)
Lemma categories_entry text k vals :
  foldl (category_step text) ∅ entity_patterns !! k = Some vals ->
  k ∈ [u "device"; u "action"; u "value"; u "time"] /\
  exists values, values <> [] /\ vals = map PStr values /\
                 NoDup values /\ Forall (fun v => v <> []) values.
Proof.
  intros Hvs.
  destruct (decide (k ∈ map fst entity_patterns)) as [Hin|Hout].
  - split; [exact Hin|].
    apply list_elem_of_fmap in Hin as ([k' pats] & -> & Hin).
    rewrite (categories_lookup_cases _ _ _ _ pats entity_patterns_nodup Hin)
      in Hvs.
    destruct (category_values_distinct text pats) as [Hnd Hne].
    destruct (category_values text pats) as [|v values] eqn:E; [done|].
    injection Hvs as <-. exists (v :: values). done.
  - by rewrite categories_other in Hvs.
Qed.

(** The two later steps of [_extract_entities] touch their own keys only. *)
Lemma extract_entities_category text k :
  k <> u "numeric" -> k <> u "units" ->
  _extract_entities text !! k
  = foldl (category_step text) ∅ entity_patterns !! k.
Proof.
  intros Hn Hu. unfold _extract_entities.
  destruct (findall (seqs [Bnd; d1; Bnd]) text);
    destruct (findall (Grp 1 units_alts) text);
    by rewrite ?lookup_insert_ne by done.
Qed.

(** X26. The entities of a text: the only keys are [device], [action],
    [value], [time], [numeric] and [units]; a key that is present has at
    least one value; and the values of the four word categories are
    non-empty strings, no two of them equal, however often a word occurs in
    the text. *)
Theorem entity_values_are_distinct text k vals :
  _extract_entities text !! k = Some vals ->
  k ∈ entity_keys /\ vals <> [] /\
  (k ∈ [u "device"; u "action"; u "value"; u "time"] ->
   exists values, vals = map PStr values /\ NoDup values /\
                  Forall (fun v => v <> []) values).
Proof.
  intros H.
  assert (Hfour : k ∈ [u "device"; u "action"; u "value"; u "time"] ->
                  k <> u "numeric" /\ k <> u "units").
  { intros Hk.
    repeat (apply elem_of_cons in Hk as [->|Hk]; [done|]).
    by apply elem_of_nil in Hk. }
  destruct (decide (k = u "numeric")) as [->|Hn];
    [|destruct (decide (k = u "units")) as [->|Hu]].
  - split; [apply (bool_decide_unpack _); vm_compute; exact I|].
    split; [|by intros [? _]%Hfour].
    unfold _extract_entities in H.
    destruct (findall (seqs [Bnd; d1; Bnd]) text) as [|n ns] eqn:En;
      destruct (findall (Grp 1 units_alts) text);
      rewrite ?(lookup_insert_ne _ (u "units")) in H by done.
    1, 2: by apply categories_entry in H as [[? _]%Hfour _].
    all: rewrite lookup_insert_eq in H; by injection H as <-.
  - split; [apply (bool_decide_unpack _); vm_compute; exact I|].
    split; [|by intros [_ ?]%Hfour].
    unfold _extract_entities in H.
    destruct (findall (Grp 1 units_alts) text) as [|un uns] eqn:Eu.
    + destruct (findall (seqs [Bnd; d1; Bnd]) text);
        rewrite ?lookup_insert_ne in H by done;
        by apply categories_entry in H as [[_ ?]%Hfour _].
    + rewrite lookup_insert_eq in H. by injection H as <-.
  - rewrite extract_entities_category in H by done.
    apply categories_entry in H
      as (Hk & values & Hne & -> & Hnd & Hf).
    split.
    { unfold entity_keys.
      repeat (apply elem_of_cons in Hk as [->|Hk];
              [apply (bool_decide_unpack _); vm_compute; exact I|]).
      by apply elem_of_nil in Hk. }
    split; [by destruct values|]. eauto.
Qed.

Lemma entity_values_are_distinct_witness :
  _extract_entities (u "allume la lampe du salon et la lampe du bureau")
    !! u "device"
  = Some (map PStr [u "lampe"; u "salon"; u "bureau"]) /\
  NoDup [u "lampe"; u "salon"; u "bureau"].
Proof.
  assert (H : _extract_entities
                (u "allume la lampe du salon et la lampe du bureau")
                !! u "device"
              = Some (map PStr [u "lampe"; u "salon"; u "bureau"]))
    by (vm_compute; reflexivity).
  split; [exact H|].
  destruct (entity_values_are_distinct _ _ _ H) as (_ & _ & Hd).
  destruct Hd as (values & Hv & Hnd & _).
  - apply list_elem_of_here.
  - assert (E : values = [u "lampe"; u "salon"; u "bureau"]).
    { clear -Hv. revert Hv. generalize [u "lampe"; u "salon"; u "bureau"].
      induction values as [|v values IH]; intros [|x l] Hv; try discriminate;
        [done|].
      injection Hv as -> Hv. f_equal. by apply IH. }
    rewrite <- E. exact Hnd.
Defined.

(** *** A text without cue *)




(** *** Validation *)



(** *** Suggested actions *)

Lemma control_suggestions_ok intent device actions :
  first_device intent = Some device ->
  forall suggestions,
    Forall (suggestion_ok intent) suggestions ->
    exists l, control_suggestions intent actions suggestions = Some l /\
              Forall (suggestion_ok intent) l.
Proof.
  intros Hd. induction actions as [|a actions IH]; intros acc Hacc;
    cbn [control_suggestions].
  - eauto.
  - rewrite Hd. cbn [mbind option_bind].
    destruct (py_in_list a [PStr (u "allume"); PStr (u "active")]).
    + apply IH, Forall_app. split; [done|]. constructor; [|done].
      split; [apply list_elem_of_here|done].
    + destruct (py_in_list a [PStr (u "éteins"); PStr (u "désactive")]).
      * apply IH, Forall_app. split; [done|]. constructor; [|done].
        split; [apply list_elem_of_further, list_elem_of_here|done].
      * by apply IH.
Qed.

(** X29. The suggestions made for a parsed text: [get_suggested_actions]
    raises nothing; every suggestion is [turn_on], [turn_off] or
    [query_status] and carries the confidence of the intent; a QUERY intent
    gets exactly one suggestion; and an intent of any other type than
    CONTROL and QUERY gets none: a SCENE intent gets no suggestion, because
    the parser never extracts a [scene] entity. *)
Theorem suggestions_for_parsed_text text user_id now :
  let intent := parse text user_id now in
  exists suggestions,
    get_suggested_actions intent = Some suggestions /\
    Forall (suggestion_ok intent) suggestions /\
    (Intent.type intent = QUERY -> length suggestions = 1%nat) /\
    (Intent.type intent <> CONTROL -> Intent.type intent <> QUERY ->
     suggestions = []).
Proof.
  intros intent.
  assert (He : Intent.entities intent = _extract_entities (strip (lower text))).
  { subst intent. unfold parse.
    destruct (_detect_intent_type _). reflexivity. }
  assert (Hscene : Intent.entities intent !! u "scene" = None).
  { rewrite He, extract_entities_category by done.
    destruct (_ !! _) as [vals|] eqn:E; [|done].
    apply categories_entry in E as [Hk _].
    apply (bool_decide_pack _) in Hk. vm_compute in Hk. done. }
  assert (Hdev : exists device, first_device intent = Some device).
  { unfold first_device, get. rewrite He, extract_entities_category by done.
    destruct (foldl (category_step (strip (lower text))) ∅ entity_patterns
                !! u "device") as [vals|] eqn:E; [|eexists; reflexivity].
    apply categories_entry in E as (_ & values & Hne & -> & _).
    destruct values; [done|eexists; reflexivity]. }
  destruct Hdev as [device Hdev].
  unfold get_suggested_actions. rewrite Hscene.
  destruct (Intent.type intent) eqn:Ety.
  - destruct (Intent.entities intent !! u "action") as [actions|].
    + destruct (control_suggestions_ok intent device actions Hdev [])
        as (l & Hl & Hok); [constructor|].
      exists l. split; [done|]. split; [done|]. done.
    + exists []. split; [done|]. split; [constructor|]. done.
  - eexists. split; [reflexivity|]. split; [|done].
    constructor; [|constructor]. split; [|done].
    do 2 apply list_elem_of_further. apply list_elem_of_here.
  - exists []. split; [done|]. split; [constructor|]. done.
  - exists []. split; [done|]. split; [constructor|]. done.
  - exists []. split; [done|]. split; [constructor|]. done.
  - exists []. split; [done|]. split; [constructor|]. done.
Qed.

End IntentParserMore.
